(* ===== verification/_CoqProject ===== *)
-Q . S2P
Prelude.v
JsNum.v
JsObj.v
Http.v
Profile.v
Regex.v
Timers.v
Auth.v
Dashboard.v
App.v
