(* ===== verification/Prelude.v ===== *)
(** * Tender Insight Hub front end: a verification development

    The repository holds three browser scripts that talk to an external REST
    API.  This development models them shallowly in Rocq and proves what
    they do, errors, timers and storage included.

    ** The program and how its parts interact

    - [src/phase 2/frontend/script.js] (the login page, "auth script"):
      login and registration forms, the token in [localStorage] under the
      key [access_token], a request helper [makeRequest], a check on page
      load that redirects an already logged-in user to the dashboard.
    - [src/phase 2/frontend/dashboard.js] (the dashboard): an
      authentication guard, the user panel filled from [/api/auth/me], its
      own [makeRequest] that clears the token and redirects on HTTP 401,
      modal dialogs, a search stub and team creation.
    - [src/profile_setup/frontend/app.js] (the profile editor): the class
      [ProfileManager], whose state is the token (key [authToken]) and the
      in-memory profile; it fills four forms from [/api/profiles], submits
      each form as a partial update, recomputes a success rate, draws the
      readiness score and exports the profile as JSON.

    The scripts never call one another: they interact only through the
    browser's [localStorage] (the auth script and the dashboard share the
    key [access_token]; the profile editor uses [authToken]) and through
    the server.  The server is an external collaborator: every theorem is
    stated for an arbitrary server, given as an instance of the class
    [Http.Backend].

    ** Files, in dependency order

    - [Prelude] (this file): the scope [tih_scope], the state-and-exception
      monad [st] with its [let*] notation that models [async] handlers,
      [try]/[catch] ([st_catch]) and [finally] ([st_finally]); the frame
      predicates [preserves] (a view of the state a computation does not
      change) and [keeps] (an invariant it preserves) with their
      compositional lemmas; [st_zoom], which runs a computation on one
      part of a larger state (the manager inside its page); the hint
      databases [tih] and [tih_frame] and the rewrite database [tih_rw];
      the tactics [st_run], [preserves_auto], [keeps_auto] and [concrete].
    - [JsNum]: JavaScript numbers ([num]: exact rationals, NaN and the
      infinities), truthiness and [||], [Math.round], [parseInt],
      [parseFloat], [Number.prototype.toString] and [toLocaleString] for
      the en-ZA locale.
    - [JsObj]: JavaScript values and objects (ordered association lists),
      property read (a missing key reads [undefined]), assignment, object
      spread, [ToString], [JSON.stringify] and [JSON.parse], deep equality
      of objects as a setoid, objects seen as stdpp [gmap]s.
    - [Http]: the browser ([localStorage], navigation, the request log and
      the timer queue of [setTimeout], kept sorted by due time), requests
      and responses, the class [Backend] (the server), the class
      [BrowserLens] through which a page's state exposes its browser, and
      the three request helpers: Module [AuthApi] ([makeRequest] of
      script.js with [getToken], [storeToken], [clearToken]), Module
      [DashboardApi] ([makeRequest] of dashboard.js) and Module
      [ProfileApi] ([ProfileManager.apiCall]); the design's contract for
      such a helper is the inductive relation [helper_contract].
    - [Profile]: app.js, the state of [ProfileManager] as the Record
      [pm_state] and one definition per method ([loadProfile],
      [populateForms], [handleFormSubmit], [calculateSuccessRate],
      [updateUI], [recalculateScore], [exportProfile], [login], [logout],
      [init]) and per listener ([turnover_blur], [percentage_invalid]).
    - [Regex]: regular expressions, their inductive semantics and a matcher
      by Brzozowski derivatives proved equal to it; [validateEmail] of
      script.js is the matcher run on the script's pattern.
    - [Timers]: the browser's event loop for any page with a
      [BrowserLens] and a callback interpreter [run]: [advance_fuel t]
      fires, in order, every callback due at or before [t].
    - [Auth] (Module [LoginPage]): script.js.  The page state
      [auth_state], the script's functions and listeners, the three
      [setTimeout] callbacks as the data [auth_timer] run by [run_timer];
      the page is the transition system [auth_step] on [auth_event]
      (form submissions, blur and input events, page load, the clock
      advancing), and [reachable] its reachable states.
    - [Dashboard] (Module [DashboardPage]): dashboard.js in the same
      style: [db_state], [db_timer] (the banner's auto-hide and the rest of
      the search handler after its [await]), [db_step] on [db_event].
    - [App] (Module [ProfilePage]): app.js outside the class: the page
      state [app_state] holds [window.profileManager] (its [pm_state],
      reached through [st_zoom]), the controls with class [is-invalid] (a
      [gset]) and the messages of [setCustomValidity] (a [gmap]); the
      global functions of the buttons, the [DOMContentLoaded] listener,
      [validateForm], the listeners the script registers, and the page's
      events dispatched by [app_step], with the browser's constraint
      validation of a submitted form and the default submission of a
      form that has no listener (the page reloads).

    ** What the theorems show (see the [properties] of the manifest)

    - request helpers ([Http]): the exact outcome on every branch
      (success, HTTP error with or without a JSON error body, network
      failure), a refinement of the design's contract by each helper, and
      the 401 behaviour, which only the dashboard's helper has;
    - login page ([Auth]): an invariant of every reachable state (spinner
      hidden, timers sorted, login e-mail never written) by induction on
      [reachable]; login success and failure, registration validation,
      the token check on load; the registration hand-over to the login
      tab, which switches the forms and then raises a [TypeError] in its
      timer callback before pre-filling the e-mail; the auto-hide timers,
      never cancelled, that hide a message shown [k] ms after another one
      [5000 - k] ms after it appeared;
    - dashboard ([Dashboard]): the guard that redirects without a token but
      still sends [/api/auth/me], the user panel, logout on a rejected
      token, team creation and its failure after a 401, the search
      placeholder, the modals;
    - profile editor ([Profile]): population of the forms skips missing
      and falsy fields; a successful save merges the submitted data and
      the server's score echo, a failed one leaves the profile as it was;
      the success rate, the score description and arc, the percentage
      check, the export and its JSON round trip; the turnover formatted on
      blur that the next save truncates to its first group of digits;
      start-up with a stored token (profile loaded, listeners installed)
      and through the [prompt] login (token stored, no listeners); a
      score recalculation without a profile, which throws on [null];
    - e-mail validation ([Regex]): the exact language of the pattern;
    - profile page ([App]): on a page opened with a stored token, the
      loading modal is shown in every reachable state, since
      [showLoading(false)] hides a fresh [bootstrap.Modal] and so does
      nothing; on a page opened without a stored token the
      listeners are never installed and no form is ever saved; the
      specification of [validateForm]; a percentage out of range blocks
      the submission of its form;
    - the kinds that relate two definitions: the dashboard's helper equals
      the login page's one on every answer but 401 ([Http]); the PUT body
      of a form is well typed: numbers never [NaN], strings non-empty
      ([Profile]);
    - liveness ([Auth]): every visible message has a pending callback
      that hides it, and advancing the clock to its due time hides it;
    - event loop ([Timers], [Auth], [Dashboard]): advancing the clock
      terminates with every due callback fired ([advance_fires_all],
      [db_advance_fires_all]), callbacks due later stay queued, and the
      clock then reads the time advanced to.

    ** Bounds, fuel and approximations

    Finite JavaScript numbers are exact rationals ([Qc]): doubles round,
    and the model does not; the overflow of [parseFloat] to Infinity at
    2^1024 - 2^970 is modelled, underflow and rounding are not.  Negative
    zero is identified with zero (it is falsy either way).  Strings are
    Stdlib [string]s of 8-bit characters read as Latin-1 code units, which
    covers the no-break space (160) that the en-ZA locale prints;
    [toUpperCase] maps ASCII letters only, and [\s] of the e-mail pattern
    is JavaScript's white space restricted to Latin-1.

    The event loop is a [Fixpoint] on fuel.  Each callback is given a
    weight, an upper bound on the callbacks its run schedules plus one
    ([weight]); fuel one more than the total weight of the queue is
    enough to fire every due callback ([advance_fuel_complete]).  On the
    login page no callback schedules another, weight 1 each and the fuel
    is the queue's length plus one ([advance]); on the dashboard the
    search continuation shows a message, whose auto-hide is one more
    callback, so it weighs 2 ([db_weight], [db_advance]).  The digit
    loops of [JsNum] run on fuel the number of digits of their argument
    bounds ([digits_fuel_enough]).

    Handlers run to completion given the server's answer: two handlers
    never interleave between their [await]s.  Timers are modelled; the
    clock only moves by the event [EAdvance]/[DAdvance].  A script
    function that reads the global [event] (showTab) takes whether an
    event is being dispatched as an argument.

    ** Not modelled

    DOM rendering, CSS classes other than [is-invalid] and the ones the
    scripts test, the Bootstrap modal and toast widgets (only whether they
    show; [Modal.hide] on an instance that is not shown returns at once), console logging (and so [onTabChange] of app.js, which only
    logs), [prompt]/[alert] (modelled as inputs and an output list), the
    HTML of the pages (the team form's reset values are its empty
    defaults; the ids, names and [required] attributes of a form's
    controls are parameters of its events), and the server itself. *)

From Stdlib Require Export String Ascii ZArith QArith Qcanon Qround Qabs Lia.
From stdpp Require Export base list strings decidable numbers sets.

Declare Scope tih_scope.
Delimit Scope tih_scope with tih.

(** ** Outcomes and the state-and-exception monad of async handlers *)

(** An [async] function returns normally or throws. *)
Inductive outcome (E A : Type) : Type :=
| Done (a : A)
| Thrown (e : E).
Arguments Done {E A} a.
Arguments Thrown {E A} e.

(** A handler reads and writes the page state [S] and may throw [E]. *)
Definition st (S E A : Type) : Type := S -> outcome E A * S.

Definition st_ret {S E A} (a : A) : st S E A := fun s => (Done a, s).

Definition st_bind {S E A B} (c : st S E A) (k : A -> st S E B) : st S E B :=
  fun s => match c s with
           | (Done a, s') => k a s'
           | (Thrown e, s') => (Thrown e, s')
           end.

Definition st_throw {S E A} (e : E) : st S E A := fun s => (Thrown e, s).

Definition st_get {S E} : st S E S := fun s => (Done s, s).

Definition st_modify {S E} (f : S -> S) : st S E unit := fun s => (Done tt, f s).

(** An expression that may throw, as a step that does not touch the state. *)
Definition st_lift {S E A} (o : outcome E A) : st S E A := fun s => (o, s).

(** [try { c } catch (e) { h e }] *)
Definition st_catch {S E A} (c : st S E A) (h : E -> st S E A) : st S E A :=
  fun s => match c s with
           | (Thrown e, s') => h e s'
           | r => r
           end.

(** [try { c } finally { f }]: [f] runs on both paths and the outcome of
    [c] is kept when [f] returns normally. *)
Definition st_finally {S E A} (c : st S E A) (f : st S E unit) : st S E A :=
  fun s => match c s with
           | (o, s') => match f s' with
                        | (Done _, s'') => (o, s'')
                        | (Thrown e, s'') => (Thrown e, s'')
                        end
           end.

Notation "'let*' x ':=' c 'in' k" := (st_bind c (fun x => k))
  (at level 10, x name, c at level 100, k at level 200) : tih_scope.
Notation "c ';;;' k" := (st_bind c (fun _ => k))
  (at level 100, right associativity) : tih_scope.

Open Scope tih_scope.

Create HintDb tih.
(** Frame lemmas of the components ([preserves] of their steps). *)
Create HintDb tih_frame.
Create Rewrite HintDb tih_rw.

(** ** Monad laws, used to unfold handlers step by step *)

Lemma st_bind_ret {S E A B} (a : A) (k : A -> st S E B) s :
  st_bind (st_ret a) k s = k a s.
Proof. reflexivity. Qed.

Lemma st_bind_assoc {S E A B C} (c : st S E A) (k : A -> st S E B)
      (k' : B -> st S E C) s :
  st_bind (st_bind c k) k' s = st_bind c (fun a => st_bind (k a) k') s.
Proof. unfold st_bind. destruct (c s) as [[a|e] s']; reflexivity. Qed.

Lemma st_bind_throw {S E A B} (e : E) (k : A -> st S E B) s :
  st_bind (st_throw e) k s = (Thrown e, s).
Proof. reflexivity. Qed.

Lemma st_bind_done {S E A B} (c : st S E A) (k : A -> st S E B) s a s' :
  c s = (Done a, s') -> st_bind c k s = k a s'.
Proof. unfold st_bind. intros ->. reflexivity. Qed.

Lemma st_bind_thrown {S E A B} (c : st S E A) (k : A -> st S E B) s e s' :
  c s = (Thrown e, s') -> st_bind c k s = (Thrown e, s').
Proof. unfold st_bind. intros ->. reflexivity. Qed.

Lemma st_catch_done {S E A} (c : st S E A) h s a s' :
  c s = (Done a, s') -> st_catch c h s = (Done a, s').
Proof. unfold st_catch. intros ->. reflexivity. Qed.

Lemma st_catch_thrown {S E A} (c : st S E A) h s e s' :
  c s = (Thrown e, s') -> st_catch c h s = h e s'.
Proof. unfold st_catch. intros ->. reflexivity. Qed.

Lemma st_bind_get {S E B} (k : S -> st S E B) s : st_bind st_get k s = k s s.
Proof. reflexivity. Qed.

Lemma st_bind_modify {S E B} (f : S -> S) (k : unit -> st S E B) s :
  st_bind (st_modify f) k s = k tt (f s).
Proof. reflexivity. Qed.

Lemma st_bind_lift_done {S E A B} (a : A) (k : A -> st S E B) s :
  st_bind (st_lift (Done a)) k s = k a s.
Proof. reflexivity. Qed.

Lemma st_bind_lift_thrown {S E A B} (e : E) (k : A -> st S E B) s :
  st_bind (st_lift (Thrown e)) k s = (Thrown e, s).
Proof. reflexivity. Qed.

#[export] Hint Rewrite @st_bind_ret @st_bind_assoc @st_bind_throw @st_bind_get
  @st_bind_modify @st_bind_lift_done @st_bind_lift_thrown : tih_rw.

(** A handler that never throws: its result is [Done] from every state. *)
Definition st_total {S E A} (c : st S E A) : Prop :=
  forall s, exists a s', c s = (Done a, s').

Lemma st_catch_total {S E A} (c : st S E A) (h : E -> st S E A) :
  (forall e, st_total (h e)) -> st_total (st_catch c h).
Proof.
  intros Hh s. unfold st_catch.
  destruct (c s) as [[a|e] s'] eqn:E1; [by eauto|apply Hh].
Qed.

(** ** Frame properties *)

(** [c] leaves the view [f] of the state unchanged, on both paths. *)
Definition preserves {S E A X} (f : S -> X) (c : st S E A) : Prop :=
  forall s, f (c s).2 = f s.

Section Preserves.
Context {S E X : Type} (f : S -> X).

Lemma preserves_ret {A} (a : A) : preserves (E:=E) f (st_ret a).
Proof. done. Qed.

Lemma preserves_throw {A} (e : E) : preserves (A:=A) f (st_throw e).
Proof. done. Qed.

Lemma preserves_get : preserves (E:=E) f st_get.
Proof. done. Qed.

Lemma preserves_lift {A} (o : outcome E A) : preserves f (st_lift o).
Proof. done. Qed.

Lemma preserves_modify (g : S -> S) :
  (forall s, f (g s) = f s) -> preserves (E:=E) f (st_modify g).
Proof. intros Hg s. apply Hg. Qed.

Lemma preserves_bind {A B} (c : st S E A) (k : A -> st S E B) :
  preserves f c -> (forall a, preserves f (k a)) -> preserves f (st_bind c k).
Proof.
  intros Hc Hk s. unfold st_bind. specialize (Hc s).
  destruct (c s) as [[a|e] s']; cbn in *; [by rewrite Hk|done].
Qed.

Lemma preserves_catch {A} (c : st S E A) (h : E -> st S E A) :
  preserves f c -> (forall e, preserves f (h e)) -> preserves f (st_catch c h).
Proof.
  intros Hc Hh s. unfold st_catch. specialize (Hc s).
  destruct (c s) as [[a|e] s']; cbn in *; [done|by rewrite Hh].
Qed.

Lemma preserves_finally {A} (c : st S E A) (g : st S E unit) :
  preserves f c -> preserves f g -> preserves f (st_finally c g).
Proof.
  intros Hc Hg s. unfold st_finally. specialize (Hc s). destruct (c s) as [o s'].
  specialize (Hg s'). destruct (g s') as [[]s'']; cbn in *; congruence.
Qed.

(** After a step, a tail that keeps [f] does not change what [f] sees. *)
Lemma bind_view_after {A B} (c : st S E A) (k : A -> st S E B) s :
  (forall a, preserves f (k a)) -> f (st_bind c k s).2 = f (c s).2.
Proof. intros Hk. unfold st_bind. destruct (c s) as [[a|e] s']; [apply Hk|done]. Qed.

Lemma catch_view_after {A} (c : st S E A) (h : E -> st S E A) s :
  (forall e, preserves f (h e)) -> f (st_catch c h s).2 = f (c s).2.
Proof. intros Hh. unfold st_catch. destruct (c s) as [[a|e] s']; [done|apply Hh]. Qed.

(** [try { x = c; k(x) } catch (e) { h(e) }] where only [c] changes [f]. *)
Lemma catch_bind_view_after {A B} (c : st S E A) (k : A -> st S E B) (h : E -> st S E B) s :
  (forall a, preserves f (k a)) -> (forall e, preserves f (h e)) ->
  f (st_catch (st_bind c k) h s).2 = f (c s).2.
Proof.
  intros Hk Hh. unfold st_catch, st_bind. destruct (c s) as [[a|e] s'].
  - specialize (Hk a s'). destruct (k a s') as [[b|e] s'']; cbn in *; [done|by rewrite Hh].
  - apply Hh.
Qed.

(** The same, with [st_catch] unfolded, as it is once the steps before
    [c] have run. *)
Lemma catch_bind_view_after' {A B} (c : st S E A) (k : A -> st S E B) (h : E -> st S E B) s :
  (forall a, preserves f (k a)) -> (forall e, preserves f (h e)) ->
  f (match st_bind c k s with (Thrown e, s') => h e s' | r => r end).2 = f (c s).2.
Proof. apply catch_bind_view_after. Qed.

Lemma finally_view_after {A} (c : st S E A) (g : st S E unit) s :
  preserves f g -> f (st_finally c g s).2 = f (c s).2.
Proof.
  intros Hg. unfold st_finally. destruct (c s) as [o s'].
  specialize (Hg s'). destruct (g s') as [[]s'']; cbn in *; congruence.
Qed.
End Preserves.

(** [c] keeps the invariant [P]: from a state where [P] holds, its final
    state satisfies [P], on both paths. *)
Definition keeps {S E A} (P : S -> Prop) (c : st S E A) : Prop :=
  forall s, P s -> P (c s).2.

Section Keeps.
Context {S E : Type} (P : S -> Prop).

Lemma keeps_of_preserves {A X} (f : S -> X) (Q : X -> Prop) (c : st S E A) :
  preserves f c -> keeps (fun s => Q (f s)) c.
Proof. intros Hc s Hs. by rewrite Hc. Qed.

Lemma keeps_ret {A} (a : A) : keeps (E:=E) P (st_ret a).
Proof. by intros s. Qed.

Lemma keeps_throw {A} (e : E) : keeps (A:=A) P (st_throw e).
Proof. by intros s. Qed.

Lemma keeps_get : keeps (E:=E) P st_get.
Proof. by intros s. Qed.

Lemma keeps_lift {A} (o : outcome E A) : keeps P (st_lift o).
Proof. by intros s. Qed.

Lemma keeps_modify (g : S -> S) : (forall s, P s -> P (g s)) -> keeps (E:=E) P (st_modify g).
Proof. intros Hg s. apply Hg. Qed.

Lemma keeps_bind {A B} (c : st S E A) (k : A -> st S E B) :
  keeps P c -> (forall a, keeps P (k a)) -> keeps P (st_bind c k).
Proof.
  intros Hc Hk s Hs. unfold st_bind. specialize (Hc s Hs).
  destruct (c s) as [[a|e] s']; cbn in *; [by apply Hk|done].
Qed.

Lemma keeps_catch {A} (c : st S E A) (h : E -> st S E A) :
  keeps P c -> (forall e, keeps P (h e)) -> keeps P (st_catch c h).
Proof.
  intros Hc Hh s Hs. unfold st_catch. specialize (Hc s Hs).
  destruct (c s) as [[a|e] s']; cbn in *; [done|by apply Hh].
Qed.

Lemma keeps_finally {A} (c : st S E A) (g : st S E unit) :
  keeps P c -> keeps P g -> keeps P (st_finally c g).
Proof.
  intros Hc Hg s Hs. unfold st_finally. specialize (Hc s Hs). destruct (c s) as [o s'].
  specialize (Hg s' Hc). destruct (g s') as [[]s'']; done.
Qed.
End Keeps.

(** ** Zooming: running a computation on one part of a larger state *)

Section Zoom.
Context {S T E : Type} (get : S -> T) (put : T -> S -> S).

Definition st_zoom {X} (c : st T E X) : st S E X :=
  fun s => let (o, t) := c (get s) in (o, put t s).

Lemma st_zoom_run {X} (c : st T E X) s : st_zoom c s = ((c (get s)).1, put (c (get s)).2 s).
Proof. unfold st_zoom. by destruct (c (get s)). Qed.

(** A view of the large state that does not see the part. *)
Lemma preserves_zoom_frame {X Y} (f : S -> Y) (c : st T E X) :
  (forall t s, f (put t s) = f s) -> preserves f (st_zoom c).
Proof. intros Hf s. rewrite st_zoom_run. apply Hf. Qed.

Context (get_put : forall t s, get (put t s) = t).

(** A view of the part, kept by the computation on it. *)
Lemma preserves_zoom {X Y} (g : T -> Y) (c : st T E X) :
  preserves g c -> preserves (fun s => g (get s)) (st_zoom c).
Proof. intros Hc s. rewrite st_zoom_run. cbn. by rewrite get_put, Hc. Qed.

Lemma keeps_zoom {X} (Q : T -> Prop) (c : st T E X) :
  keeps Q c -> keeps (fun s => Q (get s)) (st_zoom c).
Proof. intros Hc s Hs. rewrite st_zoom_run. cbn. rewrite get_put. by apply Hc. Qed.
End Zoom.

#[export] Hint Resolve preserves_ret preserves_throw preserves_get preserves_lift
  preserves_bind preserves_catch preserves_finally : tih.
#[export] Hint Extern 1 (preserves _ (st_modify _)) =>
  apply preserves_modify; intros; reflexivity : tih.

(** ** Tactics *)

(** Run a handler: unfold the monad's plumbing and split on every
    [match] and [if] that blocks evaluation. *)
Ltac st_simpl :=
  cbn [st_bind st_ret st_throw st_get st_modify st_catch st_finally st_lift] in *.

(** Run the plumbing of a handler from a known state: one step per [bind]
    of [get], [modify], [ret] and an evaluated [lift]; [simp] is the
    page-specific simplification run between the steps. *)
Ltac st_run simp :=
  repeat (progress (rewrite ?st_bind_assoc, ?st_bind_ret, ?st_bind_get, ?st_bind_modify,
                    ?st_bind_lift_done, ?st_bind_lift_thrown; cbv beta; simp)).

(** Prove that a handler keeps a view of the state: through every bind,
    catch and finally, splitting on the tests of the handler. *)
Ltac preserves_auto :=
  repeat (intros; first
    [ solve [eauto with tih_frame]
    | apply preserves_ret | apply preserves_throw | apply preserves_get | apply preserves_lift
    | apply preserves_bind | apply preserves_catch | apply preserves_finally
    | apply preserves_modify; intros; reflexivity
    | case_match ]).

(** Prove that a handler keeps an invariant, the same way. *)
Ltac keeps_auto :=
  repeat (intros; first
    [ solve [eauto with tih_frame]
    | apply keeps_ret | apply keeps_throw | apply keeps_get | apply keeps_lift
    | apply keeps_bind | apply keeps_catch | apply keeps_finally
    | apply keeps_modify; intros; assumption
    | case_match ]).

(** Discharges a hypothesis of a theorem at a concrete input: an equation
    that evaluates, a disequation of distinct constants, a sortedness
    fact of a literal queue. *)
Ltac concrete :=
  first [ reflexivity
        | discriminate
        | vm_compute; first [reflexivity | discriminate]
        | solve [repeat constructor; cbn; lia] ].

Ltac split_ifs :=
  repeat match goal with
         | |- context [if ?b then _ else _] =>
             lazymatch b with
             | context [if _ then _ else _] => fail
             | _ => destruct b eqn:?
             end
         | |- context [match ?x with _ => _ end] =>
             lazymatch x with
             | context [match _ with _ => _ end] => fail
             | _ => is_var x; destruct x eqn:?
             end
         end.

(** ** Generic lemmas on strings, lists and options *)

(** An invariant of every step of a [fold_left] holds at its end. *)
Lemma fold_left_invariant {A B} (P : A -> Prop) (f : A -> B -> A) (l : list B) (a : A) :
  P a -> (forall a b, P a -> P (f a b)) -> P (fold_left f l a).
Proof. revert a. induction l as [|b l IH]; intros a Ha Hf; [done|]. cbn. auto. Qed.

(** stdpp makes [String.append] opaque to [simpl]; this equation unfolds
    one step of it. *)
Lemma string_app_cons (x : ascii) (a b : string) :
  (String x a +:+ b) = String x (a +:+ b).
Proof. reflexivity. Qed.

Lemma string_app_assoc (a b c : string) :
  (a +:+ b +:+ c) = ((a +:+ b) +:+ c).
Proof.
  induction a as [|x a IH]; [done|]. by rewrite !string_app_cons, IH.
Qed.

Lemma string_app_nil_r (a : string) : (a +:+ "") = a.
Proof. induction a as [|x a IH]; [done|]. by rewrite string_app_cons, IH. Qed.

Lemma string_app_length (a b : string) :
  String.length (a +:+ b) = String.length a + String.length b.
Proof.
  induction a as [|x a IH]; [done|]. rewrite string_app_cons. cbn. by rewrite IH.
Qed.

#[export] Hint Rewrite string_app_nil_r string_app_length : tih_rw.

Lemma option_default_Some {A} (a d : A) : default d (Some a) = a.
Proof. reflexivity. Qed.

Lemma option_default_None {A} (d : A) : default d None = d.
Proof. reflexivity. Qed.

#[export] Hint Rewrite @option_default_Some @option_default_None : tih_rw.

(** ** String-keyed association lists (DOM element maps, header objects) *)

Fixpoint assoc_lookup {V} (k : string) (l : list (string * V)) : option V :=
  match l with
  | [] => None
  | (k', v) :: r => if bool_decide (k = k') then Some v else assoc_lookup k r
  end.

(** Replace the value of [k] in place, or append [k] at the end. *)
Fixpoint assoc_set {V} (l : list (string * V)) (k : string) (v : V) : list (string * V) :=
  match l with
  | [] => [(k, v)]
  | (k', v') :: r => if bool_decide (k = k') then (k', v) :: r else (k', v') :: assoc_set r k v
  end.

Lemma assoc_lookup_set {V} (l : list (string * V)) k k' v :
  assoc_lookup k' (assoc_set l k v) = if bool_decide (k = k') then Some v else assoc_lookup k' l.
Proof.
  induction l as [|[k'' v''] l IH]; cbn.
  - repeat case_bool_decide; congruence.
  - repeat case_bool_decide; cbn; repeat case_bool_decide; subst; congruence.
Qed.

Lemma assoc_lookup_set_eq {V} (l : list (string * V)) k v :
  assoc_lookup k (assoc_set l k v) = Some v.
Proof. rewrite assoc_lookup_set. by case_bool_decide. Qed.

Lemma assoc_lookup_set_ne {V} (l : list (string * V)) k k' v :
  k <> k' -> assoc_lookup k' (assoc_set l k v) = assoc_lookup k' l.
Proof. intros Hne. rewrite assoc_lookup_set. by case_bool_decide. Qed.

#[export] Hint Rewrite @assoc_lookup_set_eq : tih_rw.
