(* ===== verification/JsNum.v ===== *)
(** JavaScript numbers as the three scripts use them: the value type
    [num], truthiness and [||], the arithmetic of [successRate], [Math.round],
    [parseInt] and [parseFloat] (ECMA-262, 19.2.4 and 19.2.5), the decimal
    printing of integers, and [Number.prototype.toLocaleString('en-ZA')] on
    integers.  Finite numbers are exact rationals (see the root header). *)

From S2P Require Import Prelude.

Local Open Scope Z_scope.

(** ** Values *)

Inductive num : Type :=
| NFin (q : Qc)
| NNaN
| NPosInf
| NNegInf.

#[export] Instance num_eq_dec : EqDecision num.
Proof. solve_decision. Defined.

Definition num_of_Z (z : Z) : num := NFin (Q2Qc (inject_Z z)).

Definition num_zero : num := num_of_Z 0.

(** ToBoolean: [0], [-0] and [NaN] are falsy. *)
Definition num_truthy (n : num) : bool :=
  match n with
  | NFin q => negb (bool_decide (q = Q2Qc 0))
  | NNaN => false
  | NPosInf | NNegInf => true
  end.

(** [a || b] on two numbers. *)
Definition num_or (a b : num) : num := if num_truthy a then a else b.

Definition num_isNaN (n : num) : bool :=
  match n with NNaN => true | _ => false end.

(** The relational operators: any comparison with NaN is false. *)
Definition num_lt (a b : num) : bool :=
  match a, b with
  | NNaN, _ | _, NNaN => false
  | NFin x, NFin y => bool_decide (Qclt x y)
  | NNegInf, NNegInf => false
  | NNegInf, _ => true
  | _, NPosInf => match a with NPosInf => false | _ => true end
  | _, _ => false
  end.

Definition num_le (a b : num) : bool :=
  match a, b with
  | NNaN, _ | _, NNaN => false
  | _, _ => negb (num_lt b a)
  end.

(** Multiplication and division, with IEEE's special values. *)
Definition num_sign (q : Qc) : Z := Z.sgn (Qnum (this q)).

Definition inf_of_sign (z : Z) : num := if (z <? 0)%Z then NNegInf else NPosInf.

Definition num_mul (a b : num) : num :=
  match a, b with
  | NNaN, _ | _, NNaN => NNaN
  | NFin x, NFin y => NFin (x * y)
  | NFin x, NPosInf | NPosInf, NFin x =>
      if bool_decide (x = Q2Qc 0) then NNaN else inf_of_sign (num_sign x)
  | NFin x, NNegInf | NNegInf, NFin x =>
      if bool_decide (x = Q2Qc 0) then NNaN else inf_of_sign (- num_sign x)
  | NPosInf, NPosInf | NNegInf, NNegInf => NPosInf
  | _, _ => NNegInf
  end.

Definition num_div (a b : num) : num :=
  match a, b with
  | NNaN, _ | _, NNaN => NNaN
  | NFin x, NFin y =>
      if bool_decide (y = Q2Qc 0)
      then if bool_decide (x = Q2Qc 0) then NNaN else inf_of_sign (num_sign x)
      else NFin (x / y)
  | NFin _, _ => num_zero
  | NPosInf, NFin y => inf_of_sign (num_sign y)
  | NNegInf, NFin y => inf_of_sign (- num_sign y)
  | _, _ => NNaN
  end.

(** [Math.round]: the integer closest to x, halves rounded up. *)
Definition math_round (n : num) : num :=
  match n with
  | NFin q => num_of_Z (Qfloor (this q + (1 # 2))%Q)
  | other => other
  end.

(** ** Characters and digits *)

(** WhiteSpace and LineTerminator code points below 256. *)
Definition is_js_space (c : ascii) : bool :=
  let n := Z.of_nat (nat_of_ascii c) in
  (n =? 9) || (n =? 10) || (n =? 11) || (n =? 12) || (n =? 13)
  || (n =? 32) || (n =? 160).

Fixpoint trim_start (s : string) : string :=
  match s with
  | String c r => if is_js_space c then trim_start r else s
  | EmptyString => EmptyString
  end.

(** The value of a character read as a digit of radix up to 36. *)
Definition digit_value (c : ascii) : option Z :=
  let n := Z.of_nat (nat_of_ascii c) in
  if (48 <=? n) && (n <=? 57) then Some (n - 48)
  else if (97 <=? n) && (n <=? 122) then Some (n - 87)
  else if (65 <=? n) && (n <=? 90) then Some (n - 55)
  else None.

Definition radix_digit (r : Z) (c : ascii) : option Z :=
  match digit_value c with
  | Some d => if d <? r then Some d else None
  | None => None
  end.

(** The longest prefix of radix-[r] digits, and the rest of the string. *)
Fixpoint take_digits (r : Z) (s : string) : list Z * string :=
  match s with
  | String c rest =>
      match radix_digit r c with
      | Some d => let '(ds, tl) := take_digits r rest in (d :: ds, tl)
      | None => ([], s)
      end
  | EmptyString => ([], EmptyString)
  end.

Definition digits_value (r : Z) (ds : list Z) : Z :=
  fold_left (fun acc d => acc * r + d) ds 0.

(** An optional sign: [true] when it is a minus. *)
Definition split_sign (s : string) : bool * string :=
  match s with
  | String c r =>
      if bool_decide (c = "-"%char) then (true, r)
      else if bool_decide (c = "+"%char) then (false, r)
      else (false, s)
  | EmptyString => (false, s)
  end.

(** ** [parseInt(string)] with no radix *)

(** After the sign, a prefix [0x] or [0X] selects radix 16. *)
Definition strip_hex_prefix (s : string) : Z * string :=
  match s with
  | String c (String x r) =>
      if bool_decide (c = "0"%char)
         && (bool_decide (x = "x"%char) || bool_decide (x = "X"%char))
      then (16, r) else (10, s)
  | _ => (10, s)
  end.

Definition parseInt (input : string) : num :=
  let '(neg, s) := split_sign (trim_start input) in
  let '(r, s) := strip_hex_prefix s in
  match take_digits r s with
  | ([], _) => NNaN
  | (ds, _) => num_of_Z ((if neg then -1 else 1) * digits_value r ds)
  end.

(** ** [parseFloat(string)] *)

(** ExponentPart of a StrDecimalLiteral: [e] or [E], a sign, digits.  An
    exponent marker not followed by digits is not part of the longest
    valid prefix, so it counts as no exponent. *)
Definition exponent_part (s : string) : Z :=
  match s with
  | String e r =>
      if bool_decide (e = "e"%char) || bool_decide (e = "E"%char) then
        let '(neg, r') := split_sign r in
        match take_digits 10 r' with
        | ([], _) => 0
        | (ds, _) => (if neg then -1 else 1) * digits_value 10 ds
        end
      else 0
  | EmptyString => 0
  end.

(** The largest magnitude that does not round to Infinity is below
    2^1024 - 2^970. *)
Definition overflow_bound : Q := inject_Z (2 ^ 1024 - 2 ^ 970).

(** The finite value [m * 10^k], or the infinity it rounds to. *)
Definition decimal_value (m k : Z) : num :=
  if (m =? 0)%Z then num_zero
  else if (309 <? k)%Z then NPosInf
  else let q := (inject_Z m * Qpower (inject_Z 10) k)%Q in
       if Qle_bool overflow_bound q then NPosInf else NFin (Q2Qc q).

Definition num_neg (n : num) : num :=
  match n with
  | NFin q => NFin (- q)
  | NPosInf => NNegInf
  | NNegInf => NPosInf
  | NNaN => NNaN
  end.

Definition parseFloat (input : string) : num :=
  let '(neg, s) := split_sign (trim_start input) in
  let v :=
    if String.prefix "Infinity" s then NPosInf
    else
      let '(ip, s1) := take_digits 10 s in
      let '(fp, s2) :=
        match s1 with
        | String c r => if bool_decide (c = "."%char) then take_digits 10 r else ([], s1)
        | EmptyString => ([], s1)
        end in
      match ip, fp with
      | [], [] => NNaN
      | _, _ =>
          decimal_value (digits_value 10 (ip ++ fp))
                        (exponent_part s2 - Z.of_nat (length fp))
      end in
  if neg then num_neg v else v.

(** Addition and subtraction, with IEEE's special values. *)
Definition num_add (a b : num) : num :=
  match a, b with
  | NNaN, _ | _, NNaN => NNaN
  | NFin x, NFin y => NFin (x + y)
  | NPosInf, NNegInf | NNegInf, NPosInf => NNaN
  | NPosInf, _ | _, NPosInf => NPosInf
  | NNegInf, _ | _, NNegInf => NNegInf
  end.

Definition num_sub (a b : num) : num := num_add a (num_neg b).

(** ** [ToNumber] on strings *)

Fixpoint trim_end_rev (s : list ascii) : list ascii :=
  match s with
  | c :: r => if is_js_space c then trim_end_rev r else s
  | [] => []
  end.

(** [String.prototype.trim]: white space off both ends. *)
Definition js_trim (s : string) : string :=
  string_of_list_ascii (rev (trim_end_rev (rev (list_ascii_of_string (trim_start s))))).

(** The whole string is a StrDecimalLiteral: a sign, then [Infinity] or
    digits with an optional point, fraction and exponent. *)
Definition is_decimal_literal (s : string) : bool :=
  let '(_, s) := split_sign s in
  if bool_decide (s = "Infinity") then true
  else
    let '(ip, s1) := take_digits 10 s in
    let '(fp, s2) :=
      match s1 with
      | String c r => if bool_decide (c = "."%char) then take_digits 10 r else ([], s1)
      | EmptyString => ([], s1)
      end in
    match ip, fp with
    | [], [] => false
    | _, _ =>
        match s2 with
        | EmptyString => true
        | String e r =>
            (bool_decide (e = "e"%char) || bool_decide (e = "E"%char)) &&
            (let '(_, r') := split_sign r in
             match take_digits 10 r' with
             | ([], _) => false
             | (_, EmptyString) => true
             | _ => false
             end)
        end
    end.

(** StringToNumber for decimal literals: blank is 0, a literal is its
    value, anything else is NaN. *)
Definition string_to_number (s : string) : num :=
  let t := js_trim s in
  if bool_decide (t = EmptyString) then num_zero
  else if is_decimal_literal t then parseFloat t else NNaN.

(** ** Printing integers *)

Definition digit_char (d : Z) : ascii := ascii_of_nat (Z.to_nat (48 + d)).

(** The base-[b] digits of [n >= 0], most significant first, prepended to
    [acc]; [fuel] bounds the number of divisions. *)
Fixpoint base_digits (b : Z) (fuel : nat) (n : Z) (acc : list Z) : list Z :=
  match fuel with
  | O => n :: acc
  | S f => if n <? b then n :: acc else base_digits b f (n / b) (n mod b :: acc)
  end.

Definition digits_fuel (n : Z) : nat := S (Z.to_nat (Z.log2_up (n + 1))).

Fixpoint string_of_digits (ds : list Z) : string :=
  match ds with
  | [] => EmptyString
  | d :: r => String (digit_char d) (string_of_digits r)
  end.

(** [Number::toString] on an integer: optional minus, then the digits. *)
Definition Z_to_dec (z : Z) : string :=
  let digits := string_of_digits (base_digits 10 (digits_fuel (Z.abs z)) (Z.abs z) []) in
  if z <? 0 then String "-"%char digits else digits.

(** ** [toLocaleString('en-ZA')] on integers *)

(** The en-ZA locale groups digits by three with a no-break space. *)
Definition za_group_sep : ascii := ascii_of_nat 160.

Definition pad3 (g : Z) : string :=
  string_of_digits [g / 100; (g / 10) mod 10; g mod 10].

Fixpoint join_groups (gs : list Z) : string :=
  match gs with
  | [] => EmptyString
  | g :: r => String za_group_sep (pad3 g +:+ join_groups r)
  end.

Definition to_locale_za (z : Z) : string :=
  let n := Z.abs z in
  let body :=
    match base_digits 1000 (digits_fuel n) n [] with
    | [] => EmptyString
    | g :: r => Z_to_dec g +:+ join_groups r
    end in
  if z <? 0 then String "-"%char body else body.

(** ** [toLocaleString('en-ZA')] on any number *)

Fixpoint strip_trailing_zeros_rev (ds : list Z) : list Z :=
  match ds with
  | 0 :: r => strip_trailing_zeros_rev r
  | _ => ds
  end.

(** At most three fraction digits, rounded half away from zero, trailing
    zeros dropped, after a decimal comma; infinities print as the sign
    and U+221E (written in UTF-8 here). *)
Definition num_to_locale_za (n : num) : string :=
  match n with
  | NNaN => "NaN"
  | NPosInf => "∞"
  | NNegInf => "-∞"
  | NFin q =>
      let big := Qfloor (Qabs (this q) * inject_Z 1000 + (1 # 2))%Q in
      let ip := big / 1000 in
      let fr := big mod 1000 in
      let frac := rev (strip_trailing_zeros_rev (rev [fr / 100; (fr / 10) mod 10; fr mod 10])) in
      let body := to_locale_za ip +:+
                  match frac with [] => EmptyString | _ => String ","%char (string_of_digits frac) end in
      if Qnum (this q) <? 0 then String "-"%char body else body
  end.

(** ** Lemmas on digit lists *)

Definition digit_ok (b d : Z) : Prop := 0 <= d < b.

Section Digits.
Variable b : Z.
Hypothesis Hb : 1 < b.

Lemma fold_digits_value (l : list Z) a :
  fold_left (fun acc d => acc * b + d) l a
  = a * b ^ Z.of_nat (length l) + digits_value b l.
Proof.
  unfold digits_value. revert a.
  induction l as [|d l IH]; intros a; cbn [fold_left length].
  - cbn. lia.
  - rewrite (IH (a * b + d)), (IH (0 * b + d)), Nat2Z.inj_succ, Z.pow_succ_r by lia.
    lia.
Qed.

Lemma digits_value_cons d (l : list Z) :
  digits_value b (d :: l) = d * b ^ Z.of_nat (length l) + digits_value b l.
Proof.
  unfold digits_value at 1. cbn [fold_left].
  rewrite fold_digits_value. lia.
Qed.

Lemma digits_value_bound (l : list Z) :
  Forall (digit_ok b) l -> 0 <= digits_value b l < b ^ Z.of_nat (length l).
Proof.
  induction 1 as [|d l Hd Hl IH].
  - cbn. lia.
  - rewrite digits_value_cons. cbn [length]. rewrite Nat2Z.inj_succ, Z.pow_succ_r by lia.
    unfold digit_ok in Hd. nia.
Qed.

Lemma base_digits_value fuel n (acc : list Z) :
  digits_value b (base_digits b fuel n acc) = digits_value b (n :: acc).
Proof.
  revert n acc. induction fuel as [|f IH]; intros n acc; cbn [base_digits]; [done|].
  destruct (n <? b) eqn:Hlt; [done|].
  rewrite IH, !digits_value_cons. cbn [length].
  rewrite Nat2Z.inj_succ, Z.pow_succ_r by lia.
  pose proof (Z.div_mod n b ltac:(lia)). nia.
Qed.

Lemma base_digits_range fuel n (acc : list Z) :
  0 <= n < b ^ Z.of_nat (S fuel) -> Forall (digit_ok b) acc ->
  Forall (digit_ok b) (base_digits b fuel n acc).
Proof.
  revert n acc. induction fuel as [|f IH]; intros n acc Hn Hacc; cbn [base_digits].
  - constructor; [|done]. unfold digit_ok. cbn in Hn. lia.
  - destruct (n <? b) eqn:Hlt.
    + constructor; [|done]. unfold digit_ok. apply Z.ltb_lt in Hlt. lia.
    + apply IH.
      * rewrite Nat2Z.inj_succ, Z.pow_succ_r in Hn by lia.
        split; [apply Z.div_pos; lia|apply Z.div_lt_upper_bound; lia].
      * constructor; [|done]. unfold digit_ok.
        apply Z.mod_pos_bound. lia.
Qed.

Lemma base_digits_head fuel n (acc : list Z) :
  1 <= n -> exists g r, base_digits b fuel n acc = g :: r /\ 1 <= g.
Proof.
  revert n acc. induction fuel as [|f IH]; intros n acc Hn; cbn [base_digits]; [by eauto|].
  destruct (n <? b) eqn:Hlt; [by eauto|].
  apply Z.ltb_ge in Hlt. apply IH. apply Z.div_le_lower_bound; lia.
Qed.

Lemma base_digits_nonempty fuel n (acc : list Z) : base_digits b fuel n acc <> [].
Proof.
  revert n acc. induction fuel as [|f IH]; intros n acc; cbn [base_digits];
    [discriminate|]. destruct (n <? b); [discriminate|apply IH].
Qed.

Lemma digits_fuel_enough n :
  0 <= n -> n < b ^ Z.of_nat (S (digits_fuel n)).
Proof.
  intros Hn. unfold digits_fuel.
  assert (n + 1 <= 2 ^ Z.log2_up (n + 1)).
  { destruct (Z.eq_dec n 0) as [->|]; [vm_compute; congruence|].
    apply Z.log2_up_spec. lia. }
  assert (2 ^ Z.log2_up (n + 1) <= b ^ Z.log2_up (n + 1)).
  { apply Z.pow_le_mono_l. pose proof (Z.log2_up_nonneg (n + 1)). lia. }
  assert (b ^ Z.log2_up (n + 1) < b ^ Z.of_nat (S (S (Z.to_nat (Z.log2_up (n + 1)))))).
  { apply Z.pow_lt_mono_r; [lia|lia|].
    pose proof (Z.log2_up_nonneg (n + 1)). lia. }
  lia.
Qed.
End Digits.

(** ** Lemmas on the numbers of [Qc] *)

Lemma Q2Qc_eq (x y : Q) : (x == y)%Q -> Q2Qc x = Q2Qc y.
Proof. intros H. apply Qc_is_canon. cbn. by rewrite !Qred_correct. Qed.

Lemma num_of_Z_inj a b : num_of_Z a = num_of_Z b -> a = b.
Proof.
  unfold num_of_Z. intros H. injection H as H.
  rewrite !Qred_identity in H by (cbn; apply Z.gcd_1_r).
  by injection H.
Qed.

Lemma num_neg_of_Z a : num_neg (num_of_Z a) = num_of_Z (- a).
Proof.
  unfold num_neg, num_of_Z. f_equal. apply Qc_is_canon. cbn.
  rewrite !Qred_correct. unfold Qeq. cbn. lia.
Qed.

Lemma Q2Qc_Z_inj a b : Q2Qc (inject_Z a) = Q2Qc (inject_Z b) -> a = b.
Proof. intros H. apply num_of_Z_inj. unfold num_of_Z. by rewrite H. Qed.

Lemma this_Q2Qc_Z z : this (Q2Qc (inject_Z z)) = inject_Z z.
Proof. cbn. apply Qred_identity. cbn. apply Z.gcd_1_r. Qed.

Lemma num_truthy_of_Z z : num_truthy (num_of_Z z) = negb (z =? 0).
Proof.
  unfold num_truthy, num_of_Z. f_equal.
  destruct (Z.eqb_spec z 0) as [->|Hz]; [by rewrite bool_decide_true|].
  rewrite bool_decide_false; [done|]. intros H. by apply Q2Qc_Z_inj in H.
Qed.

(** [n || 0] is [n] on an integer. *)
Lemma num_or_of_Z_zero z : num_or (num_of_Z z) num_zero = num_of_Z z.
Proof.
  unfold num_or. rewrite num_truthy_of_Z.
  destruct (Z.eqb_spec z 0) as [->|]; done.
Qed.

Lemma Qclt_of_Z a b : Qclt (Q2Qc (inject_Z a)) (Q2Qc (inject_Z b)) <-> a < b.
Proof. unfold Qclt. rewrite !this_Q2Qc_Z, Zlt_Qlt. done. Qed.

Lemma num_lt_of_Z a b : num_lt (num_of_Z a) (num_of_Z b) = (a <? b).
Proof.
  unfold num_lt, num_of_Z. case_bool_decide as H; rewrite Qclt_of_Z in H;
    destruct (Z.ltb_spec a b); lia.
Qed.

Lemma num_le_of_Z a b : num_le (num_of_Z a) (num_of_Z b) = (a <=? b).
Proof.
  unfold num_le. fold (num_of_Z a) (num_of_Z b). rewrite num_lt_of_Z.
  destruct (Z.ltb_spec b a), (Z.leb_spec a b); cbn; lia.
Qed.

(** [Math.round] of a rational number. *)
Lemma math_round_of_Q q : math_round (NFin (Q2Qc q)) = num_of_Z (Qfloor (q + (1 # 2))).
Proof. cbn [math_round Q2Qc this]. f_equal. apply Qfloor_comp. by rewrite Qred_correct. Qed.

(** [w / a * c] on integers, [a] not zero. *)
Lemma num_div_mul_of_Z w a c :
  a <> 0 ->
  num_mul (num_div (num_of_Z w) (num_of_Z a)) (num_of_Z c)
  = NFin (Q2Qc (inject_Z w / inject_Z a * inject_Z c)).
Proof.
  intros Ha. unfold num_div, num_of_Z.
  rewrite bool_decide_false by (intros H; apply Q2Qc_Z_inj in H; lia).
  cbn [num_mul]. f_equal. apply Qc_is_canon. cbn.
  rewrite !Qred_correct. reflexivity.
Qed.

(** [m * 10^0] is [m] unless it reaches the overflow bound. *)
Lemma decimal_value_int m :
  0 <= m ->
  decimal_value m 0
  = if 2 ^ 1024 - 2 ^ 970 <=? m then NPosInf else num_of_Z m.
Proof.
  intros Hm. unfold decimal_value.
  replace (inject_Z m * Qpower (inject_Z 10) 0)%Q with (inject_Z m)
    by (unfold Qmult, inject_Z; cbn; by rewrite Z.mul_1_r).
  destruct (m =? 0) eqn:Hz; [apply Z.eqb_eq in Hz; subst; done|].
  cbn [Z.ltb Z.compare]. unfold overflow_bound.
  destruct (Qle_bool _ _) eqn:Hq; destruct (_ <=? m) eqn:Hz2; try done.
  - apply Qle_bool_iff in Hq. rewrite <- Zle_Qle in Hq. apply Z.leb_gt in Hz2. lia.
  - apply Z.leb_le in Hz2. rewrite Zle_Qle in Hz2. apply Qle_bool_iff in Hz2.
    congruence.
Qed.

(** ** Lemmas on digit strings *)

Lemma digit_char_facts d :
  0 <= d < 10 ->
  is_js_space (digit_char d) = false /\ radix_digit 10 (digit_char d) = Some d /\
  digit_char d <> "-"%char /\ digit_char d <> "+"%char /\
  digit_char d <> "x"%char /\ digit_char d <> "X"%char /\
  digit_char d <> "I"%char /\ digit_char d <> "."%char /\
  digit_char d <> "e"%char /\ digit_char d <> "E"%char.
Proof.
  intros Hd.
  assert (d = 0 \/ d = 1 \/ d = 2 \/ d = 3 \/ d = 4 \/ d = 5 \/ d = 6 \/ d = 7
          \/ d = 8 \/ d = 9) as Hc by lia.
  repeat destruct Hc as [->|Hc]; [..|subst];
    vm_compute; repeat split; try reflexivity; discriminate.
Qed.

Lemma take_digits_app ds rest :
  Forall (digit_ok 10) ds ->
  take_digits 10 (string_of_digits ds +:+ rest)
  = let '(a, t) := take_digits 10 rest in (ds ++ a, t).
Proof.
  induction 1 as [|d ds Hd Hds IH]; cbn [string_of_digits].
  - change ("" +:+ rest) with rest. by destruct (take_digits 10 rest).
  - rewrite string_app_cons. cbn [take_digits].
    rewrite (proj1 (proj2 (digit_char_facts d Hd))), IH.
    by destruct (take_digits 10 rest).
Qed.

(** What may follow the digits of a number without being read by
    [parseFloat]: nothing, or a character that is neither a digit, a point
    nor an exponent marker. *)
Definition stops_float (rest : string) : Prop :=
  match rest with
  | EmptyString => True
  | String c _ =>
      radix_digit 10 c = None /\ c <> "."%char /\ c <> "e"%char /\ c <> "E"%char
  end.

Definition sign_prefix (neg : bool) (s : string) : string :=
  if neg then String "-"%char s else s.

Lemma front_of_digits neg d ds rest :
  0 <= d < 10 ->
  split_sign (trim_start (sign_prefix neg (string_of_digits (d :: ds) +:+ rest)))
  = (neg, string_of_digits (d :: ds) +:+ rest).
Proof.
  intros Hd. destruct (digit_char_facts d Hd) as (Hsp & _ & Hm & Hp & _).
  destruct neg; cbn [sign_prefix string_of_digits]; rewrite string_app_cons;
    cbn [trim_start split_sign]; [done|].
  rewrite Hsp. cbn [split_sign]. by rewrite !bool_decide_false.
Qed.

Lemma parseFloat_digits neg ds rest :
  Forall (digit_ok 10) ds -> ds <> [] -> stops_float rest ->
  parseFloat (sign_prefix neg (string_of_digits ds +:+ rest))
  = (if neg then num_neg else id) (decimal_value (digits_value 10 ds) 0).
Proof.
  intros Hds Hne Hrest. destruct ds as [|d ds']; [done|].
  pose proof (Forall_inv Hds) as Hd.
  unfold parseFloat. rewrite front_of_digits by done.
  destruct (digit_char_facts d Hd) as (_ & _ & _ & _ & _ & _ & HI & _).
  replace (String.prefix "Infinity" _) with false
    by (cbn [string_of_digits]; rewrite string_app_cons; cbn [String.prefix];
        destruct (ascii_dec "I" (digit_char d)); congruence).
  rewrite take_digits_app by done.
  destruct rest as [|c r]; cbn [take_digits].
  - rewrite !app_nil_r. by destruct neg.
  - destruct Hrest as (Hc & Hdot & He & HE). rewrite Hc.
    rewrite bool_decide_false by done.
    cbn [exponent_part]. rewrite !bool_decide_false by done.
    rewrite !app_nil_r. by destruct neg.
Qed.

Lemma parseInt_digits neg ds :
  Forall (digit_ok 10) ds -> ds <> [] ->
  parseInt (sign_prefix neg (string_of_digits ds))
  = num_of_Z ((if neg then -1 else 1) * digits_value 10 ds).
Proof.
  intros Hds Hne. destruct ds as [|d ds']; [done|].
  pose proof (Forall_inv Hds) as Hd.
  unfold parseInt.
  rewrite <- (string_app_nil_r (string_of_digits (d :: ds'))), front_of_digits by done.
  rewrite string_app_nil_r.
  replace (strip_hex_prefix _) with (10, string_of_digits (d :: ds')).
  2:{ destruct ds' as [|d' ds'']; cbn; [done|].
      pose proof (Forall_inv (Forall_inv_tail Hds)) as Hd'.
      destruct (digit_char_facts d' Hd') as (_ & _ & _ & _ & Hx & HX & _).
      by rewrite (bool_decide_false (digit_char d' = "x"%char)),
                 (bool_decide_false (digit_char d' = "X"%char)), andb_false_r. }
  rewrite <- (string_app_nil_r (string_of_digits (d :: ds'))), take_digits_app by done.
  cbn [take_digits]. by rewrite app_nil_r.
Qed.

(** The digits that [Z_to_dec] prints. *)
Lemma dec_digits_spec n :
  0 <= n ->
  Forall (digit_ok 10) (base_digits 10 (digits_fuel n) n []) /\
  digits_value 10 (base_digits 10 (digits_fuel n) n []) = n /\
  base_digits 10 (digits_fuel n) n [] <> [].
Proof.
  intros Hn. split; [|split].
  - apply base_digits_range; [lia| |done]. split; [done|].
    by apply digits_fuel_enough.
  - rewrite base_digits_value by lia. rewrite digits_value_cons by lia. cbn. lia.
  - apply base_digits_nonempty.
Qed.

Lemma Z_to_dec_digits z :
  Z_to_dec z = sign_prefix (z <? 0)
                 (string_of_digits (base_digits 10 (digits_fuel (Z.abs z)) (Z.abs z) [])).
Proof. unfold Z_to_dec, sign_prefix. by destruct (z <? 0). Qed.

(** ** Properties of the number parsers *)

(** [parseInt] reads back every integer that [Number::toString] prints. *)
Theorem parseInt_Z_to_dec z : parseInt (Z_to_dec z) = num_of_Z z.
Proof.
  rewrite Z_to_dec_digits.
  destruct (dec_digits_spec (Z.abs z)) as (Hok & Hval & Hne); [lia|].
  rewrite parseInt_digits, Hval by done. f_equal.
  destruct (Z.ltb_spec z 0); lia.
Qed.

(** [parseFloat] reads back a printed integer below the overflow bound, and
    rounds a larger one to an infinity. *)
Theorem parseFloat_Z_to_dec z :
  parseFloat (Z_to_dec z)
  = if Z.abs z <? 2 ^ 1024 - 2 ^ 970 then num_of_Z z
    else if z <? 0 then NNegInf else NPosInf.
Proof.
  rewrite Z_to_dec_digits.
  destruct (dec_digits_spec (Z.abs z)) as (Hok & Hval & Hne); [lia|].
  rewrite <- (string_app_nil_r (string_of_digits _)), parseFloat_digits by done.
  rewrite Hval, decimal_value_int by lia.
  destruct (Z.ltb_spec z 0), (Z.leb_spec (2 ^ 1024 - 2 ^ 970) (Z.abs z)),
    (Z.ltb_spec (Z.abs z) (2 ^ 1024 - 2 ^ 970)); try lia; try done.
  - rewrite num_neg_of_Z. f_equal. lia.
  - cbn. f_equal. lia.
Qed.

Lemma to_locale_za_sign z :
  to_locale_za z = if z <? 0 then String "-" (to_locale_za (Z.abs z)) else to_locale_za (Z.abs z).
Proof.
  unfold to_locale_za at 2 3. rewrite Z.abs_idemp, (proj2 (Z.ltb_ge (Z.abs z) 0)) by lia.
  unfold to_locale_za. by destruct (z <? 0).
Qed.

(** [toLocaleString('en-ZA')] of an integer prints no fraction. *)
Lemma num_to_locale_za_of_Z z : num_to_locale_za (num_of_Z z) = to_locale_za z.
Proof.
  unfold num_to_locale_za, num_of_Z. rewrite this_Q2Qc_Z.
  assert (Hb : Qfloor (Qabs (inject_Z z) * inject_Z 1000 + (1 # 2)) = Z.abs z * 1000).
  { unfold Qabs, inject_Z, Qfloor, Qmult, Qplus. cbn [Qnum Qden].
    symmetry. apply Z.div_unique_pos with 1; cbn; lia. }
  rewrite Hb, Z.div_mul, Z_mod_mult by lia. cbn [Qnum inject_Z].
  vm_compute (rev _). cbv iota. rewrite string_app_nil_r, (to_locale_za_sign z).
  by destruct (z <? 0).
Qed.

Lemma stops_float_group_sep rest : stops_float (String za_group_sep rest).
Proof. vm_compute. repeat split; try reflexivity; discriminate. Qed.

(** The en-ZA rendering of an integer of four digits or more is read back
    by [parseFloat] as its leading group of digits only: the no-break space
    that separates the groups ends the number. *)
Theorem to_locale_za_parseFloat n :
  1000 <= n ->
  exists k : nat, (1 <= k)%nat /\ 1 <= n / 1000 ^ Z.of_nat k < 1000 /\
    parseFloat (to_locale_za n) = num_of_Z (n / 1000 ^ Z.of_nat k).
Proof.
  intros Hn. unfold to_locale_za.
  rewrite (proj2 (Z.ltb_ge n 0)), Z.abs_eq by lia.
  destruct (base_digits_head 1000 ltac:(lia) (digits_fuel n) n [] ltac:(lia)) as (g & r & Hgr & Hg1).
  assert (Hrange : Forall (digit_ok 1000) (g :: r)).
  { rewrite <- Hgr. apply base_digits_range; [lia| |done].
    split; [lia|]. apply digits_fuel_enough; lia. }
  assert (Hval : digits_value 1000 (g :: r) = n).
  { rewrite <- Hgr, base_digits_value, digits_value_cons by lia. cbn. lia. }
  pose proof (Forall_inv Hrange) as Hg. unfold digit_ok in Hg.
  rewrite digits_value_cons in Hval by lia.
  pose proof (digits_value_bound 1000 ltac:(lia) r (Forall_inv_tail Hrange)) as Hr.
  destruct r as [|g' r']; [cbn in Hval; lia|].
  assert (Hdiv : g = n / 1000 ^ Z.of_nat (length (g' :: r'))).
  { apply (Z.div_unique_pos _ _ _ (digits_value 1000 (g' :: r'))); lia. }
  exists (length (g' :: r')). split; [cbn; lia|]. rewrite <- Hdiv. split; [lia|].
  rewrite Hgr. cbn [join_groups]. rewrite Z_to_dec_digits, (proj2 (Z.ltb_ge g 0)) by lia.
  destruct (dec_digits_spec (Z.abs g)) as (Hok & Hv & Hne); [lia|].
  change (sign_prefix false ?x +:+ ?y) with (sign_prefix false (x +:+ y)).
  rewrite parseFloat_digits, Hv, decimal_value_int by auto using stops_float_group_sep with lia.
  destruct (Z.leb_spec (2 ^ 1024 - 2 ^ 970) (Z.abs g)); [lia|].
  cbn. f_equal. lia.
Qed.

(** 1 234 567 reads back as 1. *)
Lemma to_locale_za_parseFloat_witness :
  exists k : nat, (1 <= k)%nat /\ 1 <= 1234567 / 1000 ^ Z.of_nat k < 1000 /\
    parseFloat (to_locale_za 1234567) = num_of_Z (1234567 / 1000 ^ Z.of_nat k).
Proof. apply to_locale_za_parseFloat. lia. Defined.
