(* ===== verification/JsObj.v ===== *)
(** JavaScript values and plain objects as the scripts use them: the value
    type [jsval], thrown exceptions [exn], objects as association lists in
    property order with read ([obj_get]: [undefined] when missing),
    assignment ([obj_set]: in place or appended), object spread, member
    access that throws a [TypeError] on [null] and [undefined], truthiness,
    [ToString], and the value conversion of [JSON.stringify] and
    [JSON.parse].  Objects are also related to stdpp finite maps, the
    abstract view under which two objects with the same properties in a
    different order are equal. *)

From S2P Require Import Prelude JsNum.
From stdpp Require Import gmap.

Local Open Scope Z_scope.

(** ** Values *)

#[warnings="-register-all"]
Inductive jsval : Type :=
| JUndef
| JNull
| JBool (b : bool)
| JNum (n : num)
| JStr (s : string)
| JArr (vs : list jsval)
| JObj (fs : list (string * jsval)).

Abbreviation obj := (list (string * jsval)).

(** An induction principle that sees the values inside arrays and
    objects. *)
Section jsval_rect.
Variable P : jsval -> Prop.
Hypothesis H_undef : P JUndef.
Hypothesis H_null : P JNull.
Hypothesis H_bool : forall b, P (JBool b).
Hypothesis H_num : forall n, P (JNum n).
Hypothesis H_str : forall s, P (JStr s).
Hypothesis H_arr : forall vs, Forall P vs -> P (JArr vs).
Hypothesis H_obj : forall fs, Forall (fun kv => P kv.2) fs -> P (JObj fs).

Fixpoint jsval_ind' (v : jsval) : P v :=
  match v with
  | JUndef => H_undef
  | JNull => H_null
  | JBool b => H_bool b
  | JNum n => H_num n
  | JStr s => H_str s
  | JArr vs =>
      H_arr vs ((fix go (l : list jsval) : Forall P l :=
                   match l with
                   | [] => List.Forall_nil _
                   | x :: r => List.Forall_cons _ _ _ (jsval_ind' x) (go r)
                   end) vs)
  | JObj fs =>
      H_obj fs ((fix go (l : obj) : Forall (fun kv => P kv.2) l :=
                   match l with
                   | [] => List.Forall_nil _
                   | kv :: r => List.Forall_cons _ _ _ (jsval_ind' kv.2) (go r)
                   end) fs)
  end.
End jsval_rect.

(** What a [throw] carries: the scripts throw [new Error(message)], the
    engine throws [TypeError]s, [response.json()] rejects with a
    [SyntaxError] on a body that is not JSON, and [fetch] rejects with a
    [TypeError] when the network fails. *)
Inductive exn : Type :=
| JsError (msg : string)
| JsTypeError (msg : string)
| JsSyntaxError (msg : string).

(** [error.message] *)
Definition exn_message (e : exn) : string :=
  match e with JsError m | JsTypeError m | JsSyntaxError m => m end.

(** ** Objects *)

Fixpoint obj_lookup (k : string) (o : obj) : option jsval :=
  match o with
  | [] => None
  | (k', v) :: r => if bool_decide (k = k') then Some v else obj_lookup k r
  end.

(** [o[k]]: a missing property reads [undefined]. *)
Definition obj_get (o : obj) (k : string) : jsval := default JUndef (obj_lookup k o).

(** [o[k] = v]: an existing property keeps its place, a new one goes last. *)
Fixpoint obj_set (o : obj) (k : string) (v : jsval) : obj :=
  match o with
  | [] => [(k, v)]
  | (k', v') :: r => if bool_decide (k = k') then (k', v) :: r else (k', v') :: obj_set r k v
  end.

(** The keys of an array spread into an object: "0", "1", ... *)
Fixpoint indexed (i : nat) (vs : list jsval) : obj :=
  match vs with
  | [] => []
  | v :: r => (Z_to_dec (Z.of_nat i), v) :: indexed (S i) r
  end.

Definition string_chars (s : string) : list jsval :=
  map (fun c => JStr (String c EmptyString)) (list_ascii_of_string s).

(** The own enumerable properties that [{...v}] copies. *)
Definition own_props (v : jsval) : obj :=
  match v with
  | JObj fs => fs
  | JArr vs => indexed 0 vs
  | JStr s => indexed 0 (string_chars s)
  | _ => []
  end.

(** [{...acc, ...v}]: the properties of [v] assigned in order. *)
Definition obj_spread (acc : obj) (v : jsval) : obj :=
  fold_left (fun o kv => obj_set o kv.1 kv.2) (own_props v) acc.

(** [obj.k] on any value: [null] and [undefined] throw. *)
Definition js_member (v : jsval) (k : string) : outcome exn jsval :=
  match v with
  | JUndef => Thrown (JsTypeError ("Cannot read properties of undefined (reading '" +:+ k +:+ "')"))
  | JNull => Thrown (JsTypeError ("Cannot read properties of null (reading '" +:+ k +:+ "')"))
  | JObj fs => Done (obj_get fs k)
  | JStr s => Done (if bool_decide (k = "length") then JNum (num_of_Z (Z.of_nat (String.length s)))
                    else JUndef)
  | JArr vs => Done (if bool_decide (k = "length") then JNum (num_of_Z (Z.of_nat (length vs)))
                     else JUndef)
  | _ => Done JUndef
  end.

(** ToBoolean *)
Definition js_truthy (v : jsval) : bool :=
  match v with
  | JUndef | JNull => false
  | JBool b => b
  | JNum n => num_truthy n
  | JStr s => negb (bool_decide (s = EmptyString))
  | JArr _ | JObj _ => true
  end.

(** [a || b] *)
Definition js_or (a b : jsval) : jsval := if js_truthy a then a else b.

(** ** [ToString], as template literals and [textContent] use it *)

(** The decimal expansion of a finite number: exact when it terminates
    within 20 fraction digits, cut there otherwise (the engine prints the
    shortest string that reads back as the same double). *)
Fixpoint frac_digits (fuel : nat) (num den : Z) : list Z :=
  match fuel with
  | O => []
  | S f => if num =? 0 then [] else ((num * 10) / den) :: frac_digits f ((num * 10) mod den) den
  end.

Definition num_to_string (n : num) : string :=
  match n with
  | NNaN => "NaN"
  | NPosInf => "Infinity"
  | NNegInf => "-Infinity"
  | NFin q =>
      let p := Qnum (this q) in
      let d := Zpos (Qden (this q)) in
      if d =? 1 then Z_to_dec p
      else
        let a := Z.abs p in
        let body := Z_to_dec (a / d) +:+ String "."%char
                      (string_of_digits (frac_digits 20 (a mod d) d)) in
        if p <? 0 then String "-"%char body else body
  end.

Fixpoint js_to_string (v : jsval) : string :=
  match v with
  | JUndef => "undefined"
  | JNull => "null"
  | JBool true => "true"
  | JBool false => "false"
  | JNum n => num_to_string n
  | JStr s => s
  | JArr vs =>
      (fix join (l : list jsval) : string :=
         match l with
         | [] => ""
         | [x] => match x with JUndef | JNull => "" | _ => js_to_string x end
         | x :: r => (match x with JUndef | JNull => "" | _ => js_to_string x end)
                       +:+ "," +:+ join r
         end) vs
  | JObj _ => "[object Object]"
  end.

(** [String.prototype.toUpperCase] on the ASCII letters. *)
Definition to_upper (s : string) : string :=
  string_of_list_ascii
    (map (fun c => let n := nat_of_ascii c in
                   if (97 <=? n)%nat && (n <=? 122)%nat then ascii_of_nat (n - 32)%nat else c)
         (list_ascii_of_string s)).

(** ToNumber *)
Definition js_to_number (v : jsval) : num :=
  match v with
  | JUndef => NNaN
  | JNull => num_zero
  | JBool b => if b then num_of_Z 1 else num_zero
  | JNum n => n
  | JStr s => string_to_number s
  | JArr _ | JObj _ => string_to_number (js_to_string v)
  end.

(** [target.k = v] in strict mode code (a class body): [null] and
    [undefined] throw, other primitives refuse a new property. *)
Definition js_put (target : jsval) (k : string) (v : jsval) : outcome exn jsval :=
  match target with
  | JObj fs => Done (JObj (obj_set fs k v))
  | JUndef => Thrown (JsTypeError ("Cannot set properties of undefined (setting '" +:+ k +:+ "')"))
  | JNull => Thrown (JsTypeError ("Cannot set properties of null (setting '" +:+ k +:+ "')"))
  | JArr _ => Done target
  | _ => Thrown (JsTypeError ("Cannot create property '" +:+ k +:+ "' on " +:+ js_to_string target))
  end.

(** SameValueZero on primitives, as [Array.prototype.includes] uses it;
    two array or object values are never the same here (no identity). *)
Definition js_same_value_zero (a b : jsval) : bool :=
  match a, b with
  | JUndef, JUndef | JNull, JNull => true
  | JBool x, JBool y => bool_decide (x = y)
  | JNum x, JNum y => bool_decide (x = y)
  | JStr x, JStr y => bool_decide (x = y)
  | _, _ => false
  end.

Definition js_includes (l : list jsval) (x : jsval) : bool :=
  existsb (js_same_value_zero x) l.

(** ** JSON *)

(** The values that JSON text denotes; the text itself is not modelled:
    printing a finite double and reading it back gives the same number. *)
#[warnings="-register-all"]
Inductive json : Type :=
| JSNull
| JSBool (b : bool)
| JSNum (q : Qc)
| JSStr (s : string)
| JSArr (l : list json)
| JSObj (fs : list (string * json)).

(** SerializeJSONProperty: [undefined] has no serialization, so an object
    property holding it is left out and an array element holding it
    becomes [null]; NaN and the infinities become [null]. *)
Fixpoint to_json (v : jsval) : option json :=
  match v with
  | JUndef => None
  | JNull => Some JSNull
  | JBool b => Some (JSBool b)
  | JNum (NFin q) => Some (JSNum q)
  | JNum _ => Some JSNull
  | JStr s => Some (JSStr s)
  | JArr vs =>
      Some (JSArr ((fix go (l : list jsval) : list json :=
                      match l with
                      | [] => []
                      | x :: r => default JSNull (to_json x) :: go r
                      end) vs))
  | JObj fs =>
      Some (JSObj ((fix go (l : obj) : list (string * json) :=
                      match l with
                      | [] => []
                      | (k, x) :: r =>
                          match to_json x with
                          | Some j => (k, j) :: go r
                          | None => go r
                          end
                      end) fs))
  end.

(** [JSON.parse] builds plain values back. *)
Fixpoint of_json (j : json) : jsval :=
  match j with
  | JSNull => JNull
  | JSBool b => JBool b
  | JSNum q => JNum (NFin q)
  | JSStr s => JStr s
  | JSArr l => JArr (map of_json l)
  | JSObj fs => JObj (map (fun kv => (kv.1, of_json kv.2)) fs)
  end.

(** [JSON.parse(JSON.stringify(v))]; [None] when [JSON.stringify] returns
    [undefined]. *)
Definition json_roundtrip (v : jsval) : option jsval := of_json <$> to_json v.

(** The values that survive the round trip: no [undefined] and no
    non-finite number anywhere. *)
Fixpoint json_clean (v : jsval) : bool :=
  match v with
  | JUndef => false
  | JNum (NFin _) => true
  | JNum _ => false
  | JArr vs => forallb json_clean vs
  | JObj fs => forallb (fun kv => json_clean kv.2) fs
  | _ => true
  end.

(** ** Lemmas on objects *)

Lemma obj_lookup_set_eq (o : obj) k v : obj_lookup k (obj_set o k v) = Some v.
Proof.
  induction o as [|[k' v'] o IH]; cbn; [by rewrite bool_decide_true|].
  case_bool_decide; cbn; [by rewrite bool_decide_true|].
  rewrite bool_decide_false by done. done.
Qed.

Lemma obj_lookup_set_ne (o : obj) k k' v :
  k <> k' -> obj_lookup k' (obj_set o k v) = obj_lookup k' o.
Proof.
  intros Hne. induction o as [|[k'' v'] o IH]; cbn.
  - by rewrite bool_decide_false.
  - case_bool_decide as Heq; cbn; [subst|].
    + by rewrite !bool_decide_false.
    + by case_bool_decide.
Qed.

Lemma obj_lookup_set (o : obj) k k' v :
  obj_lookup k' (obj_set o k v) = if bool_decide (k = k') then Some v else obj_lookup k' o.
Proof.
  case_bool_decide; [subst; apply obj_lookup_set_eq|by apply obj_lookup_set_ne].
Qed.

Lemma obj_get_set (o : obj) k k' v :
  obj_get (obj_set o k v) k' = if bool_decide (k = k') then v else obj_get o k'.
Proof. unfold obj_get. rewrite obj_lookup_set. by case_bool_decide. Qed.

#[export] Hint Rewrite obj_lookup_set_eq obj_get_set : tih_rw.

Lemma obj_lookup_elem (o : obj) k : is_Some (obj_lookup k o) <-> k ∈ o.*1.
Proof.
  induction o as [|[k' v'] o IH]; cbn.
  - split; [by intros []|]. intros H. by apply elem_of_nil in H.
  - rewrite elem_of_cons. case_bool_decide; [subst; naive_solver|].
    rewrite IH. naive_solver.
Qed.

(** An assignment keeps the property order and appends a new key. *)
Lemma obj_set_keys (o : obj) k v :
  (obj_set o k v).*1 = if bool_decide (k ∈ o.*1) then o.*1 else o.*1 ++ [k].
Proof.
  induction o as [|[k' v'] o IH]; cbn [obj_set].
  - rewrite bool_decide_false; [done|]. apply not_elem_of_nil.
  - rewrite fmap_cons. cbn [fst].
    repeat case_bool_decide; simplify_eq/=; rewrite ?fmap_cons, ?IH;
      repeat case_bool_decide; (done || set_solver).
Qed.

(** Well-formed objects have each key once. *)
Definition obj_wf (o : obj) : Prop := NoDup o.*1.

Lemma obj_set_wf (o : obj) k v : obj_wf o -> obj_wf (obj_set o k v).
Proof.
  unfold obj_wf. rewrite obj_set_keys. case_bool_decide as Hin; [done|].
  intros Hnd. apply NoDup_app. split; [done|]. split; [|apply NoDup_singleton].
  intros x Hx Hx'. apply list_elem_of_singleton in Hx'. by subst.
Qed.

Lemma obj_spread_wf (acc : obj) v : obj_wf acc -> obj_wf (obj_spread acc v).
Proof.
  unfold obj_spread. generalize (own_props v). intros l. revert acc.
  induction l as [|[k x] l IH]; intros acc Hacc; cbn; [done|].
  apply IH, obj_set_wf, Hacc.
Qed.

(** ** The abstract view: finite maps *)

(** The first occurrence of a key is the one read, as in [obj_lookup]. *)
Definition obj_to_map (o : obj) : gmap string jsval := list_to_map o.

Lemma obj_to_map_lookup (o : obj) k : obj_to_map o !! k = obj_lookup k o.
Proof.
  unfold obj_to_map. induction o as [|[k' v'] o IH]; cbn.
  - apply lookup_empty.
  - rewrite lookup_insert. case_bool_decide as Heq; case_decide; subst; congruence.
Qed.

(** Refinement: assignment on the association list is [insert] on the
    map, and spreading a well-formed object is a left-biased union. *)
Lemma obj_to_map_set (o : obj) k v :
  obj_to_map (obj_set o k v) = <[k:=v]> (obj_to_map o).
Proof.
  apply map_eq. intros k'. rewrite lookup_insert, !obj_to_map_lookup, obj_lookup_set.
  case_bool_decide; case_decide; congruence.
Qed.

Lemma obj_to_map_spread (acc fs : obj) :
  obj_wf fs -> obj_to_map (obj_spread acc (JObj fs)) = obj_to_map fs ∪ obj_to_map acc.
Proof.
  unfold obj_spread, obj_wf. cbn [own_props]. revert acc.
  induction fs as [|[k x] fs IH]; intros acc Hnd; cbn [fold_left].
  - change (obj_to_map []) with (∅ : gmap string jsval). by rewrite (left_id_L ∅ (∪)).
  - apply NoDup_cons in Hnd as [Hk Hnd].
    rewrite IH, obj_to_map_set by done.
    assert (Hnone : obj_to_map fs !! k = None).
    { rewrite obj_to_map_lookup. apply eq_None_not_Some.
      by rewrite obj_lookup_elem. }
    unfold obj_to_map at 3. cbn [list_to_map foldr fst snd].
    fold (obj_to_map fs).
    by rewrite <- insert_union_l, insert_union_r by done.
Qed.

(** ** Objects up to property order *)

(** Two objects are equivalent when they have the same properties with the
    same values, in whatever order: equal abstract maps. *)
Definition obj_equiv (o1 o2 : obj) : Prop := obj_to_map o1 = obj_to_map o2.

#[export] Instance obj_equiv_equivalence : Equivalence obj_equiv.
Proof. unfold obj_equiv. split; [done|by intros ?? ->|by intros ??? -> ->]. Qed.

Lemma obj_equiv_lookup o1 o2 : obj_equiv o1 o2 <-> forall k, obj_lookup k o1 = obj_lookup k o2.
Proof.
  unfold obj_equiv. split.
  - intros H k. by rewrite <- !obj_to_map_lookup, H.
  - intros H. apply map_eq. intros k. by rewrite !obj_to_map_lookup.
Qed.

#[export] Instance obj_lookup_proper k : Proper (obj_equiv ==> eq) (obj_lookup k).
Proof. intros o1 o2 H. by apply obj_equiv_lookup. Qed.

#[export] Instance obj_get_proper : Proper (obj_equiv ==> eq ==> eq) obj_get.
Proof. intros o1 o2 H k ? <-. unfold obj_get. by rewrite H. Qed.

#[export] Instance obj_set_proper : Proper (obj_equiv ==> eq ==> eq ==> obj_equiv) obj_set.
Proof.
  intros o1 o2 H k ? <- v ? <-. unfold obj_equiv in *. by rewrite !obj_to_map_set, H.
Qed.

#[export] Instance obj_spread_proper : Proper (obj_equiv ==> eq ==> obj_equiv) obj_spread.
Proof.
  intros o1 o2 H v ? <-. unfold obj_spread. generalize (own_props v) as l.
  intros l. revert o1 o2 H. induction l as [|[k x] l IH]; intros o1 o2 H; cbn; [done|].
  apply IH. by rewrite H.
Qed.

(** ** The JSON round trip *)

Lemma to_json_arr vs :
  to_json (JArr vs) = Some (JSArr (map (fun x => default JSNull (to_json x)) vs)).
Proof.
  reflexivity.
Qed.

Lemma to_json_obj (fs : obj) :
  to_json (JObj fs) = Some (JSObj (omap (fun kv => pair kv.1 <$> to_json kv.2) fs)).
Proof.
  cbn [to_json]. do 2 f_equal. induction fs as [|[k x] fs IH]; [done|].
  cbn [omap list_omap]. rewrite <- IH. cbn. by destruct (to_json x).
Qed.

Lemma to_json_None v : to_json v = None <-> v = JUndef.
Proof.
  split; [|by intros ->]. by destruct v as [| | |[]| | |].
Qed.

Lemma length_omap_le {A B} (f : A -> option B) (l : list A) : (length (omap f l) <= length l)%nat.
Proof.
  induction l as [|x l IH]; cbn; [lia|]. destruct (f x); cbn; lia.
Qed.

(** [JSON.parse(JSON.stringify(v))] gives [v] back exactly when [v] holds no
    [undefined] and no non-finite number. *)
Theorem json_roundtrip_clean v : json_roundtrip v = Some v <-> json_clean v = true.
Proof.
  unfold json_roundtrip.
  induction v as [| | |[]| |vs IH|fs IH] using jsval_ind'; try (cbn; naive_solver).
  - rewrite to_json_arr. cbn. rewrite forallb_forall.
    induction IH as [|x vs Hx Hvs IHvs]; cbn; [naive_solver|].
    destruct (to_json x) as [j|] eqn:Hj; cbn in *.
    + rewrite ?Hj in Hx. cbn in Hx. split.
      * intros Heq y [<-|Hy]; [apply Hx; congruence|].
        apply IHvs; [congruence|done].
      * intros Hall.
        assert (Hxj : Some (of_json j) = Some x) by (apply Hx, Hall; by left).
        injection Hxj as ->.
        assert (Some (JArr (map of_json (map (fun x => default JSNull (to_json x)) vs)))
                = Some (JArr vs)) as [= ->] by (apply IHvs; intros; apply Hall; by right).
        done.
    + apply to_json_None in Hj as ->. split; [done|]. intros Hall.
      by specialize (Hall JUndef (or_introl eq_refl)).
  - rewrite to_json_obj. cbn. rewrite forallb_forall.
    induction IH as [|[k x] fs Hx Hfs IHfs]; cbn; [naive_solver|].
    destruct (to_json x) as [j|] eqn:Hj; cbn in *.
    + rewrite ?Hj in Hx. cbn in Hx. split.
      * intros Heq [k' y] [Hky|Hy]; [injection Hky as <- <-; apply Hx; congruence|].
        apply IHfs; [congruence|done].
      * intros Hall.
        assert (Hxj : Some (of_json j) = Some x) by (apply Hx, (Hall (k, x)); by left).
        injection Hxj as ->.
        assert (Some (JObj (map (fun kv => (kv.1, of_json kv.2))
                  (omap (fun kv => pair kv.1 <$> to_json kv.2) fs))) = Some (JObj fs))
          as [= ->] by (apply IHfs; intros; apply Hall; by right).
        done.
    + apply to_json_None in Hj as ->. split.
      * intros [= Heq]. apply (f_equal length) in Heq. rewrite length_map in Heq.
        pose proof (length_omap_le (fun kv => pair kv.1 <$> to_json kv.2) fs).
        cbn in Heq. lia.
      * intros Hall. by specialize (Hall (k, JUndef) (or_introl eq_refl)).
Qed.
