(* ===== verification/Http.v ===== *)
(** The browser the scripts run in and their requests to the server.

    - [browser A]: [localStorage], the navigation requested through
      [window.location], [location.reload()], the log of [fetch]es, the
      clock and the queue of [setTimeout] callbacks of type [A].
    - [Backend]: the server, an external collaborator; every theorem holds
      for every instance.  [None] is a network failure.
    - [BrowserLens]: how a page's state holds its browser, with the lens
      laws; the request helpers run on the browser and are lifted to a page.
    - the three request helpers of the repository:
      [AuthApi.makeRequest] (phase 2/frontend/script.js, lines 79-104),
      [DashboardApi.makeRequest] (phase 2/frontend/dashboard.js, lines
      38-69) and [ProfileApi.apiCall] ([ProfileManager.apiCall],
      profile_setup/frontend/app.js, lines 298-320);
    - [helper_contract]: what the design asks of such a helper, and the
      theorems that each helper meets it, with or without the branch that
      ends the session on HTTP 401. *)

From Stdlib Require Import Sorting.Sorted.
From S2P Require Import Prelude JsNum JsObj.

Local Open Scope Z_scope.

(** ** Requests and responses *)

Record request : Type := mk_request {
  rq_url : string;
  rq_method : string;
  rq_headers : list (string * string);
  rq_body : option jsval   (** the value whose [JSON.stringify] is sent *)
}.

Record response : Type := mk_response {
  rs_status : Z;
  rs_body : option jsval   (** [None]: the body is not JSON *)
}.

(** [response.ok] *)
Definition rs_ok (r : response) : bool := (200 <=? rs_status r) && (rs_status r <=? 299).

Class Backend : Type := respond : request -> option response.

(** ** The browser *)

Record browser (A : Type) : Type := mk_browser {
  storage : list (string * string);
  location : option string;
  reloaded : bool;
  sent : list request;
  clock : Z;
  timers : list (Z * A)
}.
Arguments mk_browser {A}.
Arguments storage {A}.
Arguments location {A}.
Arguments reloaded {A}.
Arguments sent {A}.
Arguments clock {A}.
Arguments timers {A}.

Section Browser.
Context {A : Type}.

Definition set_storage (st' : list (string * string)) (b : browser A) : browser A :=
  mk_browser st' (location b) (reloaded b) (sent b) (clock b) (timers b).
Definition set_location (l : string) (b : browser A) : browser A :=
  mk_browser (storage b) (Some l) (reloaded b) (sent b) (clock b) (timers b).
Definition set_reloaded (b : browser A) : browser A :=
  mk_browser (storage b) (location b) true (sent b) (clock b) (timers b).
Definition add_sent (r : request) (b : browser A) : browser A :=
  mk_browser (storage b) (location b) (reloaded b) (sent b ++ [r]) (clock b) (timers b).
Definition set_clock (t : Z) (b : browser A) : browser A :=
  mk_browser (storage b) (location b) (reloaded b) (sent b) t (timers b).
Definition set_timers (q : list (Z * A)) (b : browser A) : browser A :=
  mk_browser (storage b) (location b) (reloaded b) (sent b) (clock b) q.

(** [localStorage.getItem(k)]: the string, or [null]. *)
Fixpoint ls_lookup (k : string) (l : list (string * string)) : option string :=
  match l with
  | [] => None
  | (k', v) :: r => if bool_decide (k = k') then Some v else ls_lookup k r
  end.

Definition getItem (k : string) (b : browser A) : jsval :=
  match ls_lookup k (storage b) with Some v => JStr v | None => JNull end.

(** [localStorage.setItem(k, v)] stores [String(v)]. *)
Definition setItem (k : string) (v : jsval) (b : browser A) : browser A :=
  set_storage ((k, js_to_string v) :: filter (fun kv => kv.1 <> k) (storage b)) b.

Definition removeItem (k : string) (b : browser A) : browser A :=
  set_storage (filter (fun kv => kv.1 <> k) (storage b)) b.

(** [setTimeout(cb, delay)]: the queue is kept in firing order, a new
    timer after those due at the same time. *)
Fixpoint tq_insert (d : Z) (a : A) (q : list (Z * A)) : list (Z * A) :=
  match q with
  | [] => [(d, a)]
  | (d', a') :: r => if d <? d' then (d, a) :: q else (d', a') :: tq_insert d a r
  end.

Definition setTimeout (a : A) (delay : Z) (b : browser A) : browser A :=
  set_timers (tq_insert (clock b + delay) a (timers b)) b.
End Browser.

(** ** The timer queue *)

Section TimerQueue.
Context {A : Type}.

(** The queue is ordered by due time. *)
Definition tq_sorted (q : list (Z * A)) : Prop := Sorted (fun x y => x.1 <= y.1) q.

Lemma tq_insert_sorted d (a : A) q : tq_sorted q -> tq_sorted (tq_insert d a q).
Proof.
  unfold tq_sorted. induction 1 as [|[d' a'] q Hq IH Hhd]; cbn; [by repeat constructor|].
  destruct (Z.ltb_spec d d').
  - constructor; [by constructor|]. constructor. cbn. lia.
  - constructor; [done|]. destruct q as [|[d'' a''] q]; cbn in *; [constructor; cbn; lia|].
    inversion Hhd; subst; cbn in *. destruct (d <? d''); constructor; cbn; lia.
Qed.

Lemma tq_insert_elem d (a : A) q : (d, a) ∈ tq_insert d a q.
Proof.
  induction q as [|[d' a'] q IH]; cbn; [by left|].
  destruct (d <? d'); [by left|by right].
Qed.

Lemma tq_insert_elem_other d (a : A) q x : x ∈ q -> x ∈ tq_insert d a q.
Proof.
  induction q as [|[d' a'] q IH]; cbn; [by intros ?%elem_of_nil|].
  intros [->|Hx]%elem_of_cons; destruct (d <? d'); set_solver.
Qed.

Lemma tq_insert_elem_inv d (a : A) q x : x ∈ tq_insert d a q -> x = (d, a) \/ x ∈ q.
Proof.
  induction q as [|[d' a'] q IH]; cbn; [set_solver|].
  destruct (d <? d'); [set_solver|]. intros [->|Hx]%elem_of_cons; [set_solver|].
  destruct (IH Hx); set_solver.
Qed.

Lemma tq_insert_length d (a : A) q : length (tq_insert d a q) = S (length q).
Proof. induction q as [|[d' a'] q IH]; cbn; [done|]. destruct (d <? d'); cbn; auto. Qed.

Lemma tq_sorted_tail x (q : list (Z * A)) : tq_sorted (x :: q) -> tq_sorted q.
Proof. unfold tq_sorted. by intros [? _]%Sorted_inv. Qed.

(** The head of a sorted queue is due first. *)
Lemma tq_sorted_head d (a : A) q x : tq_sorted ((d, a) :: q) -> x ∈ q -> d <= x.1.
Proof.
  unfold tq_sorted. intros Hs%Sorted_StronglySorted; [|intros ???; lia].
  apply StronglySorted_inv in Hs as [_ Hall]. intros Hx.
  rewrite List.Forall_forall in Hall. apply (Hall x). by apply list_elem_of_In.
Qed.
End TimerQueue.

(** ** Page states that hold a browser *)

Class BrowserLens (S A : Type) : Type := {
  get_br : S -> browser A;
  put_br : browser A -> S -> S;
  get_put : forall b s, get_br (put_br b s) = b;
  put_get : forall s, put_br (get_br s) s = s;
  put_put : forall b b' s, put_br b' (put_br b s) = put_br b' s
}.

Section Lifting.
Context {S A : Type} `{BrowserLens S A}.

(** Run a browser step in a page. *)
Definition on_br {X} (c : st (browser A) exn X) : st S exn X :=
  fun s => let '(o, b') := c (get_br s) in (o, put_br b' s).

Definition br_modify (f : browser A -> browser A) : st S exn unit :=
  on_br (st_modify f).

Definition br_read {X} (f : browser A -> X) : st S exn X :=
  fun s => (Done (f (get_br s)), s).

Lemma on_br_run {X} (c : st (browser A) exn X) s :
  on_br c s = ((c (get_br s)).1, put_br (c (get_br s)).2 s).
Proof. unfold on_br. by destruct (c (get_br s)). Qed.
(** A view of the page that does not see the browser is kept by every
    browser step. *)
Lemma preserves_on_br {X Y} (f : S -> Y) (c : st (browser A) exn X) :
  (forall b s, f (put_br b s) = f s) -> preserves f (on_br c).
Proof. intros Hf s. rewrite on_br_run. apply Hf. Qed.

Lemma preserves_br_modify {Y} (f : S -> Y) g :
  (forall b s, f (put_br b s) = f s) -> preserves f (br_modify g).
Proof. apply preserves_on_br. Qed.

Lemma preserves_br_read {X Y} (f : S -> Y) (g : browser A -> X) : preserves f (br_read g).
Proof. done. Qed.

Lemma st_bind_br_modify {B} (f : browser A -> browser A) (k : unit -> st S exn B) s :
  st_bind (br_modify f) k s = k tt (put_br (f (get_br s)) s).
Proof. done. Qed.

(** Browser steps against views of the browser. *)
Lemma preserves_br_modify_view {Y} (g : browser A -> Y) h :
  (forall b, g (h b) = g b) -> preserves (fun s => g (get_br s)) (br_modify h).
Proof. intros Hh s. unfold br_modify. rewrite on_br_run. cbn. by rewrite get_put, Hh. Qed.

Lemma keeps_on_br_view {X} (g : browser A -> Prop) (c : st (browser A) exn X) :
  (forall b, g b -> g (c b).2) -> keeps (fun s => g (get_br s)) (on_br c).
Proof. intros Hc s Hs. rewrite on_br_run. cbn. rewrite get_put. by apply Hc. Qed.

Lemma st_bind_br_read {X B} (f : browser A -> X) (k : X -> st S exn B) s :
  st_bind (br_read f) k s = k (f (get_br s)) s.
Proof. done. Qed.

Lemma keeps_br_read {X} (P : S -> Prop) (g : browser A -> X) : keeps P (br_read g).
Proof. by intros s. Qed.
End Lifting.

#[export] Hint Resolve preserves_br_read keeps_br_read : tih_frame.
#[export] Hint Extern 2 (preserves _ (br_modify _)) =>
  apply preserves_br_modify_view; intros; reflexivity : tih_frame.
#[export] Hint Extern 2 (keeps _ (br_modify _)) =>
  apply keeps_on_br_view; intros ? Hb; cbn; first [exact Hb | reflexivity] : tih_frame.
#[export] Hint Extern 1 (preserves _ (on_br _)) =>
  apply preserves_on_br; intros; reflexivity : tih_frame.
#[export] Hint Extern 1 (preserves _ (br_modify _)) =>
  apply preserves_br_modify; intros; reflexivity : tih_frame.

(** ** [fetch] and [response.json()] *)

Section Fetch.
Context {A : Type} `{Backend}.

(** [await fetch(url, options)]: the request is sent, then the response
    arrives or the promise rejects. *)
Definition fetch (r : request) : st (browser A) exn response :=
  fun b => match respond r with
           | Some resp => (Done resp, add_sent r b)
           | None => (Thrown (JsTypeError "Failed to fetch"), add_sent r b)
           end.

(** [await response.json()] *)
Definition response_json (r : response) : st (browser A) exn jsval :=
  match rs_body r with
  | Some v => st_ret v
  | None => st_throw (JsSyntaxError "Unexpected token in JSON")
  end.

(** [v.k] as a step: may throw. *)
Definition member (v : jsval) (k : string) : st (browser A) exn jsval :=
  fun b => (js_member v k, b).
End Fetch.

(** ** Header objects *)

(** [{...h, k: v}] on headers. *)
Definition hdr_set (h : list (string * string)) (k v : string) : list (string * string) :=
  assoc_set h k v.

Definition hdr_spread (h extra : list (string * string)) : list (string * string) :=
  fold_left (fun acc kv => hdr_set acc kv.1 kv.2) extra h.

(** The options a caller passes: [method], [body] and [headers]. *)
Record req_options : Type := mk_options {
  opt_method : option string;
  opt_body : option jsval;
  opt_headers : list (string * string)
}.

Definition no_options : req_options := mk_options None None [].

(** ** The request helpers *)

Section Helpers.
Context {A : Type} `{Backend}.

(** The error branch shared by the three helpers:
    [const errorData = await response.json().catch(() => ({field: fallback}));
     throw new Error(errorData.field || `HTTP ${response.status}`);] *)
Definition error_from_response {X} (field fallback : string) (r : response)
  : st (browser A) exn X :=
  let* errorData := st_catch (response_json r) (fun _ => st_ret (JObj [(field, JStr fallback)])) in
  let* v := member errorData field in
  st_throw (JsError (js_to_string (js_or v (JStr ("HTTP " +:+ Z_to_dec (rs_status r)))))).
End Helpers.

(** script.js, the login page. *)
Module AuthApi.
Definition API_BASE_URL : string := "http://localhost:8000".

Section S.
Context {A : Type} `{Backend}.

Definition getToken : st (browser A) exn jsval := fun b => (Done (getItem "access_token" b), b).

Definition storeToken (token : jsval) : st (browser A) exn unit :=
  st_modify (setItem "access_token" token).

Definition clearToken : st (browser A) exn unit := st_modify (removeItem "access_token").

(** [defaultOptions.headers]: the bearer header only for a truthy token. *)
Definition default_headers (token : jsval) : list (string * string) :=
  [("Content-Type", "application/json")]
  ++ (if js_truthy token then [("Authorization", "Bearer " +:+ js_to_string token)] else []).

Definition request_of (token : jsval) (url : string) (options : req_options) : request :=
  mk_request (API_BASE_URL +:+ url) (default "GET" (opt_method options))
             (hdr_spread (default_headers token) (opt_headers options)) (opt_body options).

Definition makeRequest (url : string) (options : req_options) : st (browser A) exn jsval :=
  let* token := getToken in
  let* response := fetch (request_of token url options) in
  if negb (rs_ok response) then error_from_response "detail" "Network error" response
  else response_json response.
End S.
End AuthApi.

(** dashboard.js: the same helper, with a branch for HTTP 401. *)
Module DashboardApi.
Section S.
Context {A : Type} `{Backend}.

Definition makeRequest (url : string) (options : req_options) : st (browser A) exn jsval :=
  let* token := (fun b => (Done (getItem "access_token" b), b)) in
  let* response := fetch (AuthApi.request_of token url options) in
  if negb (rs_ok response) then
    if rs_status response =? 401 then
      st_modify (removeItem "access_token") ;;;
      st_modify (set_location "index.html") ;;;
      st_ret JUndef
    else error_from_response "detail" "Network error" response
  else response_json response.
End S.
End DashboardApi.

(** app.js, [ProfileManager.apiCall]. *)
Module ProfileApi.
Definition apiBaseUrl : string := "http://localhost:5000/api".

Section S.
Context {A : Type} `{Backend}.

Definition request_of (token : jsval) (endpoint method : string) (data : jsval) : request :=
  mk_request (apiBaseUrl +:+ endpoint) method
    [("Content-Type", "application/json"); ("Authorization", "Bearer " +:+ js_to_string token)]
    (if js_truthy data && negb (bool_decide (method = "GET")) then Some data else None).

Definition apiCall (token : jsval) (endpoint method : string) (data : jsval)
  : st (browser A) exn jsval :=
  let* response := fetch (request_of token endpoint method data) in
  if negb (rs_ok response) then error_from_response "error" "Unknown error" response
  else response_json response.
End S.
End ProfileApi.

(** ** The contract of a request helper *)

(** What the design promises of a request helper: the parsed body on
    success; on a non-success status, the server's message, else one
    derived from the status, else the generic fallback; when [on401] holds,
    an HTTP 401 ends the request without an error (the session is cleared,
    see the state theorems).  [field] names the member of the error payload
    that carries the message. *)
Inductive helper_contract (on401 : bool) (field fallback : string)
  : option response -> outcome exn jsval -> Prop :=
| hc_network :
    helper_contract on401 field fallback None (Thrown (JsTypeError "Failed to fetch"))
| hc_ok r v :
    rs_ok r = true -> rs_body r = Some v ->
    helper_contract on401 field fallback (Some r) (Done v)
| hc_ok_not_json r :
    rs_ok r = true -> rs_body r = None ->
    helper_contract on401 field fallback (Some r) (Thrown (JsSyntaxError "Unexpected token in JSON"))
| hc_unauthorized r :
    rs_ok r = false -> on401 = true -> rs_status r = 401 ->
    helper_contract on401 field fallback (Some r) (Done JUndef)
| hc_server_message r fs m :
    rs_ok r = false -> ~ (on401 = true /\ rs_status r = 401) ->
    rs_body r = Some (JObj fs) -> obj_get fs field = JStr m -> m <> "" ->
    helper_contract on401 field fallback (Some r) (Thrown (JsError m))
| hc_status_message r fs :
    rs_ok r = false -> ~ (on401 = true /\ rs_status r = 401) ->
    rs_body r = Some (JObj fs) -> obj_get fs field ∈ [JUndef; JNull; JStr ""] ->
    helper_contract on401 field fallback (Some r)
      (Thrown (JsError ("HTTP " +:+ Z_to_dec (rs_status r))))
| hc_fallback r :
    rs_ok r = false -> ~ (on401 = true /\ rs_status r = 401) -> rs_body r = None ->
    helper_contract on401 field fallback (Some r) (Thrown (JsError fallback)).

(** The error payloads the contract speaks of: none, or an object whose
    message member is a string or missing. *)
Definition payload_wf (field : string) (r : option response) : Prop :=
  match r with
  | Some r =>
      rs_ok r = true \/
      match rs_body r with
      | None => True
      | Some (JObj fs) => obj_get fs field = JUndef \/ obj_get fs field = JNull
                          \/ exists m, obj_get fs field = JStr m
      | Some _ => False
      end
  | None => True
  end.

Section HelperProps.
Context {A : Type} `{Backend}.

Lemma error_from_response_run {X} field fallback r (b : browser A) :
  @error_from_response A X field fallback r b =
  (match js_member (default (JObj [(field, JStr fallback)]) (rs_body r)) field with
   | Done v => Thrown (JsError (js_to_string (js_or v (JStr ("HTTP " +:+ Z_to_dec (rs_status r))))))
   | Thrown e => Thrown e
   end, b).
Proof.
  unfold error_from_response, response_json, member.
  destruct (rs_body r); cbn; repeat case_match; done.
Qed.

(** The error branch meets the contract on a well-formed payload. *)
Lemma error_branch_contract on401 field fallback r (b : browser A) :
  rs_ok r = false -> ~ (on401 = true /\ rs_status r = 401) ->
  fallback <> "" -> payload_wf field (Some r) ->
  helper_contract on401 field fallback (Some r) (@error_from_response A jsval field fallback r b).1.
Proof.
  intros Hok H401 Hfb Hwf. rewrite error_from_response_run. cbn [fst].
  destruct Hwf as [Hok'|Hwf]; [congruence|].
  destruct (rs_body r) as [[| | | | | |fs]|] eqn:Hb; try done; cbn.
  - destruct Hwf as [Hf|[Hf|[m Hf]]]; rewrite Hf; unfold js_or; cbn [js_truthy].
    + apply (hc_status_message _ _ _ r fs); rewrite ?Hf; try done; set_solver.
    + apply (hc_status_message _ _ _ r fs); rewrite ?Hf; try done; set_solver.
    + case_bool_decide as Hm; cbn [negb js_to_string].
      * apply (hc_status_message _ _ _ r fs); rewrite ?Hf; subst; try done; set_solver.
      * by apply (hc_server_message _ _ _ r fs m).
  - rewrite bool_decide_true by done. cbn [from_option id]. unfold js_or.
    cbn [js_truthy]. rewrite bool_decide_false by done. by apply hc_fallback.
Qed.
End HelperProps.

(** ** Storage lemmas *)

Section StorageLemmas.
Context {A : Type}.

Lemma ls_lookup_filter_ne k (l : list (string * string)) :
  ls_lookup k (filter (fun kv => kv.1 <> k) l) = None.
Proof.
  induction l as [|[k' v] l IH]; [done|]. rewrite filter_cons. cbn [fst].
  case_decide as Hne; cbn; [|done]. by rewrite bool_decide_false by congruence.
Qed.

Lemma ls_lookup_filter_other k k' (l : list (string * string)) :
  k <> k' -> ls_lookup k' (filter (fun kv => kv.1 <> k) l) = ls_lookup k' l.
Proof.
  intros Hne. induction l as [|[k'' v] l IH]; [done|]. rewrite filter_cons. cbn [fst].
  case_decide as Hk; cbn; case_bool_decide; subst; congruence.
Qed.

Lemma getItem_removeItem k (b : browser A) : getItem k (removeItem k b) = JNull.
Proof. unfold getItem, removeItem. cbn. by rewrite ls_lookup_filter_ne. Qed.

Lemma getItem_removeItem_other k k' (b : browser A) :
  k <> k' -> getItem k' (removeItem k b) = getItem k' b.
Proof. intros Hne. unfold getItem, removeItem. cbn. by rewrite ls_lookup_filter_other. Qed.

Lemma getItem_setItem k v (b : browser A) : getItem k (setItem k v b) = JStr (js_to_string v).
Proof. unfold getItem, setItem. cbn. by rewrite bool_decide_true. Qed.

Lemma getItem_setItem_other k k' v (b : browser A) :
  k <> k' -> getItem k' (setItem k v b) = getItem k' b.
Proof.
  intros Hne. unfold getItem, setItem. cbn.
  rewrite bool_decide_false by congruence. by rewrite ls_lookup_filter_other.
Qed.

Lemma getItem_add_sent k r (b : browser A) : getItem k (add_sent r b) = getItem k b.
Proof. done. Qed.

Lemma getItem_set_location k l (b : browser A) : getItem k (set_location l b) = getItem k b.
Proof. done. Qed.

Lemma getItem_setTimeout k a d (b : browser A) : getItem k (setTimeout a d b) = getItem k b.
Proof. done. Qed.
End StorageLemmas.

#[export] Hint Rewrite @getItem_removeItem @getItem_setItem @getItem_add_sent
  @getItem_set_location @getItem_setTimeout : tih_rw.

(** ** The helpers against the contract *)

Section HelperThms.
Context {A : Type} `{Backend}.

(** The helpers touch the browser only by sending their request. *)
Lemma response_json_browser r (b : browser A) : (response_json r b).2 = b.
Proof. unfold response_json. by destruct (rs_body r). Qed.

Lemma apiCall_browser token endpoint method data (b : browser A) :
  (ProfileApi.apiCall token endpoint method data b).2
  = add_sent (ProfileApi.request_of token endpoint method data) b.
Proof.
  unfold ProfileApi.apiCall, fetch, st_bind. destruct (respond _) as [r|]; [|done].
  destruct (rs_ok r); cbn [negb]; [apply response_json_browser|].
  by rewrite error_from_response_run.
Qed.

Lemma auth_makeRequest_browser url options (b : browser A) :
  (AuthApi.makeRequest url options b).2
  = add_sent (AuthApi.request_of (getItem "access_token" b) url options) b.
Proof.
  unfold AuthApi.makeRequest, AuthApi.getToken, fetch, st_bind.
  destruct (respond _) as [r|]; [|done].
  destruct (rs_ok r); cbn [negb]; [apply response_json_browser|].
  by rewrite error_from_response_run.
Qed.

Lemma apiCall_ok token endpoint method data r v (b : browser A) :
  respond (ProfileApi.request_of token endpoint method data) = Some r ->
  rs_ok r = true -> rs_body r = Some v ->
  ProfileApi.apiCall token endpoint method data b
  = (Done v, add_sent (ProfileApi.request_of token endpoint method data) b).
Proof.
  intros Hr Hok Hb. unfold ProfileApi.apiCall, fetch, st_bind, response_json.
  by rewrite Hr, Hok, Hb.
Qed.

Lemma auth_makeRequest_ok url options r v (b : browser A) :
  respond (AuthApi.request_of (getItem "access_token" b) url options) = Some r ->
  rs_ok r = true -> rs_body r = Some v ->
  AuthApi.makeRequest url options b
  = (Done v, add_sent (AuthApi.request_of (getItem "access_token" b) url options) b).
Proof.
  intros Hr Hok Hb. unfold AuthApi.makeRequest, AuthApi.getToken, fetch, st_bind, response_json.
  by rewrite Hr, Hok, Hb.
Qed.

Lemma auth_makeRequest_fails url options (b : browser A) :
  (forall r, respond (AuthApi.request_of (getItem "access_token" b) url options) = Some r ->
             rs_ok r = false) ->
  exists e, AuthApi.makeRequest url options b
            = (Thrown e, add_sent (AuthApi.request_of (getItem "access_token" b) url options) b).
Proof.
  intros Hf. rewrite (surjective_pairing (AuthApi.makeRequest _ _ b)), auth_makeRequest_browser.
  unfold AuthApi.makeRequest, AuthApi.getToken, fetch, st_bind.
  destruct (respond _) as [r|] eqn:Hr; [|by eexists].
  rewrite (Hf r eq_refl). cbn [negb]. rewrite error_from_response_run. cbn [fst].
  case_match; by eexists.
Qed.

Definition dash_request (b : browser A) (url : string) (options : req_options) : request :=
  AuthApi.request_of (getItem "access_token" b) url options.

Lemma dashboard_makeRequest_ok url options r v (b : browser A) :
  respond (dash_request b url options) = Some r -> rs_ok r = true -> rs_body r = Some v ->
  DashboardApi.makeRequest url options b = (Done v, add_sent (dash_request b url options) b).
Proof.
  intros Hr Hok Hb. unfold DashboardApi.makeRequest, fetch, st_bind, response_json.
  unfold dash_request in Hr. by rewrite Hr, Hok, Hb.
Qed.

Lemma dashboard_makeRequest_401 url options r (b : browser A) :
  respond (dash_request b url options) = Some r -> rs_status r = 401 ->
  DashboardApi.makeRequest url options b
  = (Done JUndef, set_location "index.html" (removeItem "access_token"
                                               (add_sent (dash_request b url options) b))).
Proof.
  intros Hr H401. assert (Hok : rs_ok r = false) by (unfold rs_ok; rewrite H401; done).
  unfold DashboardApi.makeRequest, fetch, st_bind. unfold dash_request in Hr.
  by rewrite Hr, Hok, H401.
Qed.

(** The dashboard's helper, on a failed request or an error status other
    than 401, throws. *)
Lemma dashboard_makeRequest_fails url options (b : browser A) :
  (forall r, respond (dash_request b url options) = Some r -> rs_ok r = false /\ rs_status r <> 401) ->
  exists e, DashboardApi.makeRequest url options b
            = (Thrown e, add_sent (dash_request b url options) b).
Proof.
  intros Hf. unfold DashboardApi.makeRequest, fetch, st_bind. unfold dash_request in Hf.
  destruct (respond _) as [r|] eqn:Hr; [|by eexists].
  destruct (Hf r eq_refl) as [Hok H401]. rewrite Hok. cbn [negb].
  rewrite (proj2 (Z.eqb_neq _ _) H401), error_from_response_run. cbn [fst].
  case_match; by eexists.
Qed.

(** The dashboard's helper leaves the location alone or sends the user to
    the login page. *)
Lemma dashboard_makeRequest_location url options (b : browser A) :
  location (DashboardApi.makeRequest url options b).2 = location b \/
  location (DashboardApi.makeRequest url options b).2 = Some "index.html".
Proof.
  unfold DashboardApi.makeRequest, fetch, st_bind.
  destruct (respond _) as [r|]; [|by left].
  destruct (rs_ok r); cbn [negb]; [left; by rewrite response_json_browser|].
  destruct (rs_status r =? 401); [by right|]. left. by rewrite error_from_response_run.
Qed.

(** Whatever the answer, the dashboard's helper sends its one request. *)
Lemma dashboard_makeRequest_sent url options (b : browser A) :
  sent (DashboardApi.makeRequest url options b).2 = sent b ++ [dash_request b url options].
Proof.
  unfold DashboardApi.makeRequest, fetch, st_bind, dash_request.
  destruct (respond _) as [r|]; [|done].
  destruct (rs_ok r); cbn [negb]; [by rewrite response_json_browser|].
  destruct (rs_status r =? 401); [done|]. by rewrite error_from_response_run.
Qed.

(** A failed request or an error status makes [apiCall] throw. *)
Lemma apiCall_fails token endpoint method data (b : browser A) :
  (forall r, respond (ProfileApi.request_of token endpoint method data) = Some r -> rs_ok r = false) ->
  exists e, ProfileApi.apiCall token endpoint method data b
            = (Thrown e, add_sent (ProfileApi.request_of token endpoint method data) b).
Proof.
  intros Hf. rewrite (surjective_pairing (ProfileApi.apiCall _ _ _ _ b)), apiCall_browser.
  unfold ProfileApi.apiCall, fetch, st_bind.
  destruct (respond _) as [r|] eqn:Hr; [|by eexists].
  rewrite (Hf r eq_refl). cbn [negb]. rewrite error_from_response_run. cbn [fst].
  case_match; by eexists.
Qed.

(** The success branch common to the helpers. *)
Lemma ok_branch_contract on401 field fallback r (b : browser A) :
  rs_ok r = true ->
  helper_contract on401 field fallback (Some r) (response_json (A:=A) r b).1.
Proof.
  intros Hok. unfold response_json.
  destruct (rs_body r) eqn:Hb; cbn.
  - by apply hc_ok.
  - by apply hc_ok_not_json.
Qed.

(** (C29) [makeRequest] of the login page meets the contract with no 401
    branch, and its only effect on the browser is the request it sends. *)
Theorem auth_makeRequest_contract url options (b : browser A) :
  payload_wf "detail" (respond (AuthApi.request_of (getItem "access_token" b) url options)) ->
  helper_contract false "detail" "Network error"
    (respond (AuthApi.request_of (getItem "access_token" b) url options))
    (AuthApi.makeRequest url options b).1 /\
  (AuthApi.makeRequest url options b).2
  = add_sent (AuthApi.request_of (getItem "access_token" b) url options) b.
Proof.
  intros Hwf. split; [|apply auth_makeRequest_browser].
  unfold AuthApi.makeRequest, AuthApi.getToken, fetch, st_bind.
  destruct (respond _) as [r|] eqn:Hr; [|apply hc_network].
  destruct (rs_ok r) eqn:Hok; cbn [negb].
  - apply ok_branch_contract, Hok.
  - apply error_branch_contract; [done|naive_solver|done|done].
Qed.

(** (C28) [makeRequest] of the dashboard meets the contract with its 401
    branch; the browser keeps the request, and a 401 also loses the token
    and navigates to the login page. *)
Theorem dashboard_makeRequest_contract url options (b : browser A) :
  let rq := AuthApi.request_of (getItem "access_token" b) url options in
  payload_wf "detail" (respond rq) ->
  helper_contract true "detail" "Network error" (respond rq)
    (DashboardApi.makeRequest url options b).1 /\
  (DashboardApi.makeRequest url options b).2
  = match respond rq with
    | Some r => if negb (rs_ok r) && (rs_status r =? 401)
                then set_location "index.html" (removeItem "access_token" (add_sent rq b))
                else add_sent rq b
    | None => add_sent rq b
    end.
Proof.
  intros rq Hwf. unfold DashboardApi.makeRequest, fetch, st_bind. subst rq.
  destruct (respond _) as [r|] eqn:Hr; [|split; [apply hc_network|done]].
  destruct (rs_ok r) eqn:Hok; cbn [negb andb].
  - split; [by apply ok_branch_contract|apply response_json_browser].
  - destruct (Z.eqb_spec (rs_status r) 401) as [H401|H401].
    + split; [by apply hc_unauthorized|done].
    + split; [|by rewrite error_from_response_run].
      apply error_branch_contract; [done|naive_solver|done|done].
Qed.

(** (C27) [ProfileManager.apiCall] meets the contract with the member [error]
    and no 401 branch. *)
Theorem apiCall_contract token endpoint method data (b : browser A) :
  let rq := ProfileApi.request_of token endpoint method data in
  payload_wf "error" (respond rq) ->
  helper_contract false "error" "Unknown error" (respond rq)
    (ProfileApi.apiCall token endpoint method data b).1 /\
  (ProfileApi.apiCall token endpoint method data b).2 = add_sent rq b.
Proof.
  intros rq Hwf. split; [|apply apiCall_browser].
  unfold ProfileApi.apiCall, fetch, st_bind. subst rq.
  destruct (respond _) as [r|] eqn:Hr; [|apply hc_network].
  destruct (rs_ok r) eqn:Hok; cbn [negb].
  - apply ok_branch_contract, Hok.
  - apply error_branch_contract; [done|naive_solver|done|done].
Qed.

(** (C4) Whatever the endpoint, an HTTP 401 seen by the dashboard's helper
    clears the stored token and sends the user to the login page. *)
Theorem dashboard_401_logout url options (b : browser A) r :
  respond (AuthApi.request_of (getItem "access_token" b) url options) = Some r ->
  rs_status r = 401 ->
  (DashboardApi.makeRequest url options b).1 = Done JUndef /\
  getItem "access_token" (DashboardApi.makeRequest url options b).2 = JNull /\
  location (DashboardApi.makeRequest url options b).2 = Some "index.html".
Proof.
  intros Hr H401.
  assert (Hok : rs_ok r = false) by (unfold rs_ok; rewrite H401; done).
  unfold DashboardApi.makeRequest, fetch, st_bind. rewrite Hr, Hok, H401. cbn.
  split; [done|]. split; [apply getItem_removeItem|done].
Qed.

(** (C26) The login page's helper has no such branch: an HTTP 401 is an
    ordinary error that leaves the token and the location as they were. *)
Theorem auth_401_keeps_session url options (b : browser A) r :
  respond (AuthApi.request_of (getItem "access_token" b) url options) = Some r ->
  rs_status r = 401 ->
  (exists e, (AuthApi.makeRequest url options b).1 = Thrown e) /\
  getItem "access_token" (AuthApi.makeRequest url options b).2 = getItem "access_token" b /\
  location (AuthApi.makeRequest url options b).2 = location b.
Proof.
  intros Hr H401.
  assert (Hok : rs_ok r = false) by (unfold rs_ok; rewrite H401; done).
  unfold AuthApi.makeRequest, AuthApi.getToken, fetch, st_bind. rewrite Hr, Hok. cbn [negb].
  rewrite error_from_response_run. cbn [fst snd].
  split; [|done]. by case_match; eexists.
Qed.

(** (C38) An error payload whose [detail] is a list of objects, as FastAPI
    sends for a request that fails validation, yields the message
    "[object Object]" instead of the server's text. *)
Theorem auth_error_detail_list url options (b : browser A) r (o : obj) :
  respond (AuthApi.request_of (getItem "access_token" b) url options) = Some r ->
  rs_ok r = false -> rs_body r = Some (JObj [("detail", JArr [JObj o])]) ->
  (AuthApi.makeRequest url options b).1 = Thrown (JsError "[object Object]").
Proof.
  intros Hr Hok Hb.
  unfold AuthApi.makeRequest, AuthApi.getToken, fetch, st_bind. rewrite Hr, Hok. cbn [negb].
  rewrite error_from_response_run, Hb. done.
Qed.
(** (C17) Apart from HTTP 401, the two pages' helpers are the same
    function: on every answer but 401 (and when the server cannot be
    reached) the dashboard's [makeRequest] has the outcome and the browser
    effect of the login page's. *)
Theorem dashboard_auth_makeRequest_equiv url options (b : browser A) :
  (forall r, respond (AuthApi.request_of (getItem "access_token" b) url options) = Some r ->
             rs_status r <> 401) ->
  DashboardApi.makeRequest url options b = AuthApi.makeRequest url options b.
Proof.
  intros H401. unfold DashboardApi.makeRequest, AuthApi.makeRequest, AuthApi.getToken, st_bind, fetch.
  destruct (respond _) as [r|] eqn:Hr; [|done].
  destruct (rs_ok r); [done|]. cbn [negb].
  by rewrite (proj2 (Z.eqb_neq _ _) (H401 r eq_refl)).
Qed.

End HelperThms.


(** ** The theorems at concrete inputs *)

Definition session_browser : browser unit :=
  mk_browser [("access_token", "tok")] None false [] 0 [].

(** A server that answers every request with [r]. *)
Definition backend_of (r : option response) : Backend := fun _ => r.

Definition resp_401 : response := mk_response 401 (Some (JObj [("detail", JStr "Not authenticated")])).
Definition resp_404 : response := mk_response 404 (Some (JObj [("detail", JStr "Not Found")])).
Definition resp_422 : response :=
  mk_response 422 (Some (JObj [("detail", JArr [JObj [("msg", JStr "field required")]])])).

Lemma auth_makeRequest_contract_witness :
  helper_contract false "detail" "Network error" (Some resp_404)
    (@AuthApi.makeRequest unit (backend_of (Some resp_404)) "/api/auth/me" no_options
       session_browser).1.
Proof.
  apply (@auth_makeRequest_contract unit (backend_of (Some resp_404))).
  right. right. right. by eexists.
Defined.

Lemma dashboard_makeRequest_contract_witness :
  helper_contract true "detail" "Network error" (Some resp_401)
    (@DashboardApi.makeRequest unit (backend_of (Some resp_401)) "/api/auth/me" no_options
       session_browser).1.
Proof.
  apply (@dashboard_makeRequest_contract unit (backend_of (Some resp_401))).
  right. right. right. by eexists.
Defined.

Lemma apiCall_contract_witness :
  helper_contract false "error" "Unknown error" None
    (@ProfileApi.apiCall unit (backend_of None) (JStr "tok") "/profile" "GET" JNull
       session_browser).1.
Proof. apply (@apiCall_contract unit (backend_of None)). done. Defined.

Lemma dashboard_401_logout_witness :
  (@DashboardApi.makeRequest unit (backend_of (Some resp_401)) "/api/auth/me" no_options
     session_browser).1 = Done JUndef /\
  location (@DashboardApi.makeRequest unit (backend_of (Some resp_401)) "/api/auth/me"
              no_options session_browser).2 = Some "index.html".
Proof.
  destruct (@dashboard_401_logout unit (backend_of (Some resp_401)) "/api/auth/me" no_options
              session_browser resp_401) as (H1 & _ & H3); [done|done|].
  split; [exact H1|exact H3].
Defined.

Lemma auth_401_keeps_session_witness :
  getItem "access_token" (@AuthApi.makeRequest unit (backend_of (Some resp_401)) "/api/auth/me"
                            no_options session_browser).2 = JStr "tok".
Proof.
  destruct (@auth_401_keeps_session unit (backend_of (Some resp_401)) "/api/auth/me" no_options
              session_browser resp_401) as (_ & H2 & _); [done|done|].
  exact H2.
Defined.

Lemma auth_error_detail_list_witness :
  (@AuthApi.makeRequest unit (backend_of (Some resp_422)) "/api/auth/register" no_options
     session_browser).1 = Thrown (JsError "[object Object]").
Proof.
  apply (@auth_error_detail_list unit (backend_of (Some resp_422)) _ _ _ resp_422
           [("msg", JStr "field required")]); done.
Defined.

Lemma dashboard_auth_makeRequest_equiv_witness :
  @DashboardApi.makeRequest unit (backend_of (Some resp_404)) "/api/teams/create" no_options session_browser
  = @AuthApi.makeRequest unit (backend_of (Some resp_404)) "/api/teams/create" no_options session_browser.
Proof.
  apply (@dashboard_auth_makeRequest_equiv unit (backend_of (Some resp_404))).
  intros r Hr. injection Hr as <-. discriminate.
Defined.
