(* ===== verification/Profile.v ===== *)
(** The profile editor, [src/profile_setup/frontend/app.js]: the class
    [ProfileManager] and the page's global handlers.

    The state of a [ProfileManager] ([this.token], [this.currentProfile])
    and the parts of the page its methods read and write form the Record
    [pm_state]; each method is a definition in the state-and-exception
    monad of the prelude, composed the way the methods call one another. *)

From stdpp Require Import gmap.
From S2P Require Import Prelude JsNum JsObj Http.

Local Open Scope Z_scope.

(** ** The page state *)

Record pm_state : Type := mk_pm {
  pm_br : browser Empty_set;            (** no [setTimeout] in this script *)
  pm_token : jsval;                     (** [this.token] *)
  pm_profile : jsval;                   (** [this.currentProfile] *)
  pm_fields : list (string * string);   (** [value] of the form controls, by id *)
  pm_options : list (string * bool);    (** options of [#cidbWorkCategories]: value, selected *)
  pm_texts : list (string * string);    (** [textContent], by id *)
  pm_last_updated : option jsval;       (** the value shown by [toLocaleDateString] *)
  pm_offset : option num;               (** [strokeDashoffset] of [#scoreCircle], in units of [Math.PI] *)
  pm_toasts : list (string * string);   (** [showAlert]: message and type, oldest first *)
  pm_alerts : list string;              (** [window.alert] *)
  pm_loading : bool;                    (** the loading modal is shown *)
  pm_listening : bool;                  (** [setupEventListeners] has run *)
  pm_downloads : list (string * option json) (** exported files: name and JSON content *)
}.

#[export] Instance pm_lens : BrowserLens pm_state Empty_set.
Proof.
  refine {| get_br := pm_br;
            put_br := fun b s => mk_pm b (pm_token s) (pm_profile s) (pm_fields s) (pm_options s)
                                   (pm_texts s) (pm_last_updated s) (pm_offset s) (pm_toasts s)
                                   (pm_alerts s) (pm_loading s) (pm_listening s) (pm_downloads s) |};
    by intros; try destruct s.
Defined.

Abbreviation PM := (st pm_state exn).

(** Updates of one part of the page. *)
Definition set_token (t : jsval) (s : pm_state) : pm_state :=
  mk_pm (pm_br s) t (pm_profile s) (pm_fields s) (pm_options s) (pm_texts s) (pm_last_updated s)
        (pm_offset s) (pm_toasts s) (pm_alerts s) (pm_loading s) (pm_listening s) (pm_downloads s).
Definition set_profile (p : jsval) (s : pm_state) : pm_state :=
  mk_pm (pm_br s) (pm_token s) p (pm_fields s) (pm_options s) (pm_texts s) (pm_last_updated s)
        (pm_offset s) (pm_toasts s) (pm_alerts s) (pm_loading s) (pm_listening s) (pm_downloads s).
Definition set_field (id v : string) (s : pm_state) : pm_state :=
  mk_pm (pm_br s) (pm_token s) (pm_profile s) (assoc_set (pm_fields s) id v) (pm_options s)
        (pm_texts s) (pm_last_updated s) (pm_offset s) (pm_toasts s) (pm_alerts s) (pm_loading s)
        (pm_listening s) (pm_downloads s).
Definition set_options (o : list (string * bool)) (s : pm_state) : pm_state :=
  mk_pm (pm_br s) (pm_token s) (pm_profile s) (pm_fields s) o (pm_texts s) (pm_last_updated s)
        (pm_offset s) (pm_toasts s) (pm_alerts s) (pm_loading s) (pm_listening s) (pm_downloads s).
Definition set_text (id v : string) (s : pm_state) : pm_state :=
  mk_pm (pm_br s) (pm_token s) (pm_profile s) (pm_fields s) (pm_options s)
        (assoc_set (pm_texts s) id v) (pm_last_updated s) (pm_offset s) (pm_toasts s)
        (pm_alerts s) (pm_loading s) (pm_listening s) (pm_downloads s).
Definition set_last_updated (v : jsval) (s : pm_state) : pm_state :=
  mk_pm (pm_br s) (pm_token s) (pm_profile s) (pm_fields s) (pm_options s) (pm_texts s) (Some v)
        (pm_offset s) (pm_toasts s) (pm_alerts s) (pm_loading s) (pm_listening s) (pm_downloads s).
Definition set_offset (n : num) (s : pm_state) : pm_state :=
  mk_pm (pm_br s) (pm_token s) (pm_profile s) (pm_fields s) (pm_options s) (pm_texts s)
        (pm_last_updated s) (Some n) (pm_toasts s) (pm_alerts s) (pm_loading s) (pm_listening s)
        (pm_downloads s).
Definition add_toast (msg ty : string) (s : pm_state) : pm_state :=
  mk_pm (pm_br s) (pm_token s) (pm_profile s) (pm_fields s) (pm_options s) (pm_texts s)
        (pm_last_updated s) (pm_offset s) (pm_toasts s ++ [(msg, ty)]) (pm_alerts s) (pm_loading s)
        (pm_listening s) (pm_downloads s).
Definition add_alert (msg : string) (s : pm_state) : pm_state :=
  mk_pm (pm_br s) (pm_token s) (pm_profile s) (pm_fields s) (pm_options s) (pm_texts s)
        (pm_last_updated s) (pm_offset s) (pm_toasts s) (pm_alerts s ++ [msg]) (pm_loading s)
        (pm_listening s) (pm_downloads s).
Definition set_loading (b : bool) (s : pm_state) : pm_state :=
  mk_pm (pm_br s) (pm_token s) (pm_profile s) (pm_fields s) (pm_options s) (pm_texts s)
        (pm_last_updated s) (pm_offset s) (pm_toasts s) (pm_alerts s) b (pm_listening s)
        (pm_downloads s).
Definition set_listening (s : pm_state) : pm_state :=
  mk_pm (pm_br s) (pm_token s) (pm_profile s) (pm_fields s) (pm_options s) (pm_texts s)
        (pm_last_updated s) (pm_offset s) (pm_toasts s) (pm_alerts s) (pm_loading s) true
        (pm_downloads s).
Definition add_download (name : string) (content : option json) (s : pm_state) : pm_state :=
  mk_pm (pm_br s) (pm_token s) (pm_profile s) (pm_fields s) (pm_options s) (pm_texts s)
        (pm_last_updated s) (pm_offset s) (pm_toasts s) (pm_alerts s) (pm_loading s)
        (pm_listening s) (pm_downloads s ++ [(name, content)]).

Definition set_br (b : browser Empty_set) (s : pm_state) : pm_state :=
  mk_pm b (pm_token s) (pm_profile s) (pm_fields s) (pm_options s) (pm_texts s) (pm_last_updated s)
        (pm_offset s) (pm_toasts s) (pm_alerts s) (pm_loading s) (pm_listening s) (pm_downloads s).

(** [document.getElementById(id).value] of a control of the page. *)
Definition field (s : pm_state) (id : string) : string := default "" (assoc_lookup id (pm_fields s)).

(** ** Pure computations of the page *)

(** [calculateSuccessRate], lines 202-208: the rate shown for the two
    strings in the fields. *)
Definition success_rate (wins_s apps_s : string) : num :=
  let wins := num_or (parseInt wins_s) num_zero in
  let applications := num_or (parseInt apps_s) num_zero in
  if num_lt num_zero applications
  then math_round (num_mul (num_div wins applications) (num_of_Z 100))
  else num_zero.

(** [updateUI], lines 242-251: the text under the score. *)
Definition score_description (score : num) : string :=
  if num_le (num_of_Z 80) score then "Excellent! You have a high readiness score"
  else if num_le (num_of_Z 60) score then "Good! Your readiness score is above average"
  else if num_le (num_of_Z 40) score then "Fair. Consider completing more profile sections"
  else if num_lt num_zero score then "Low score. Please complete your profile"
  else "Complete your profile to improve your score".

(** [updateUI], lines 237-238: [circumference - (score / 100) * circumference]
    with [circumference = 2 * Math.PI * 50], counted in units of [Math.PI]. *)
Definition circumference_pi : num := num_mul (num_of_Z 2) (num_of_Z 50).

Definition score_offset (score : num) : num :=
  num_sub circumference_pi (num_mul (num_div score (num_of_Z 100)) circumference_pi).

(** The blur check of the BEE percentage inputs, lines 461-468: [true]
    when the input is marked invalid. *)
Definition percentage_invalid (value : string) : bool :=
  let v := parseFloat value in
  negb (num_isNaN v) && (num_lt v num_zero || num_lt (num_of_Z 100) v).

(** The numeric fields of [handleFormSubmit], lines 164-170. *)
Definition numericFields : list string :=
  ["cidb_grade"; "bee_level"; "years_in_business"; "annual_turnover";
   "number_of_employees"; "previous_tender_wins"; "previous_tender_applications";
   "bee_ownership_percentage"; "bee_management_control_percentage";
   "bee_skills_development_percentage"; "bee_enterprise_development_percentage";
   "bee_socio_economic_development_percentage"].

(** The plain fields of [populateForms]: profile key and element id, in
    the order of lines 69-130 (the work categories come after the first
    three). *)
Definition cidb_fields : list (string * string) :=
  [("cidb_grade", "cidbGrade"); ("cidb_registration_number", "cidbRegNumber");
   ("cidb_expiry_date", "cidbExpiryDate")].

Definition other_fields : list (string * string) :=
  [("bee_level", "beeLevel"); ("bee_certificate_number", "beeCertNumber");
   ("bee_expiry_date", "beeExpiryDate"); ("bee_ownership_percentage", "beeOwnership");
   ("bee_management_control_percentage", "beeManagement");
   ("bee_skills_development_percentage", "beeSkills");
   ("bee_enterprise_development_percentage", "beeEnterprise");
   ("bee_socio_economic_development_percentage", "beeSocio");
   ("years_in_business", "yearsInBusiness"); ("annual_turnover", "annualTurnover");
   ("number_of_employees", "numberOfEmployees");
   ("previous_tender_wins", "previousTenderWins");
   ("previous_tender_applications", "previousTenderApplications")].

(** ** Display methods *)

(** [showLoading(show)], lines 322-329: each call builds a new
    [bootstrap.Modal] on [#loadingModal].  [show()] on it shows the modal;
    [hide()] on an instance that has not shown it returns at once
    (Bootstrap 5's [Modal.hide] starts with [if (!this._isShown) return]),
    so [showLoading(false)] changes nothing: only whether the modal shows
    is modelled. *)
Definition showLoading (show : bool) : PM unit :=
  if show then st_modify (set_loading true) else st_ret tt.

(** [showAlert(message, type)], lines 331-349. *)
Definition showAlert (message ty : string) : PM unit := st_modify (add_toast message ty).

(** [calculateSuccessRate()], lines 201-211. *)
Definition calculateSuccessRate : PM unit :=
  let* s := st_get in
  let successRate := success_rate (field s "previousTenderWins")
                                  (field s "previousTenderApplications") in
  st_modify (set_text "successRate" (num_to_string successRate +:+ "%")).

(** [this.currentProfile.key] *)
Definition prop (key : string) : PM jsval :=
  let* s := st_get in st_lift (js_member (pm_profile s) key).

(** [if (p.key) { document.getElementById(id).value = p.key; }] *)
Definition populate_field (key id : string) : PM unit :=
  let* v := prop key in
  if js_truthy v then st_modify (set_field id (js_to_string v)) else st_ret tt.

Fixpoint populate_all (l : list (string * string)) : PM unit :=
  match l with
  | [] => st_ret tt
  | (key, id) :: r => populate_field key id ;;; populate_all r
  end.

(** Lines 78-85: select the options whose value is in the list. *)
Definition populate_categories : PM unit :=
  let* v := prop "cidb_work_categories" in
  if js_truthy v then
    let categories := match v with JArr vs => vs | _ => [] end in
    st_modify (fun s => set_options (map (fun o => (o.1, js_includes categories (JStr o.1)))
                                         (pm_options s)) s)
  else st_ret tt.

(** [populateForms()], lines 65-134. *)
Definition populateForms : PM unit :=
  let* s := st_get in
  if negb (js_truthy (pm_profile s)) then st_ret tt
  else
    populate_all cidb_fields ;;;
    populate_categories ;;;
    populate_all other_fields ;;;
    calculateSuccessRate.

(** [updateUI()], lines 213-253. *)
Definition updateUI : PM unit :=
  let* s := st_get in
  if negb (js_truthy (pm_profile s)) then st_ret tt
  else
    let* name := prop "company_name" in
    st_modify (set_text "companyName" (js_to_string (js_or name (JStr "-")))) ;;;
    let* reg := prop "company_registration_number" in
    st_modify (set_text "companyReg" (js_to_string (js_or reg (JStr "-")))) ;;;
    let* phone := prop "phone_number" in
    st_modify (set_text "phoneNumber" (js_to_string (js_or phone (JStr "-")))) ;;;
    let* completion := prop "profile_completion_percentage" in
    st_modify (set_text "completionBadge"
                 (js_to_string (js_or completion (JNum num_zero)) +:+ "%")) ;;;
    let* updated := prop "updated_at" in
    (if js_truthy updated then st_modify (set_last_updated updated) else st_ret tt) ;;;
    let* score := prop "readiness_score" in
    let score := js_or score (JNum num_zero) in
    st_modify (set_text "scoreValue" (js_to_string score)) ;;;
    st_modify (set_offset (score_offset (js_to_number score))) ;;;
    st_modify (set_text "scoreDescription" (score_description (js_to_number score))).

(** ** Methods that talk to the server *)

Section WithBackend.
Context `{Backend}.

(** Lines 146-154: the entries of [new FormData(form)] into [data]; the
    values of the multiple select accumulate in an array, an empty value
    is left out. *)
Definition collect_entry (data : obj) (entry : string * string) : obj :=
  let '(key, value) := entry in
  if bool_decide (key = "cidb_work_categories") then
    let arr := match obj_get data key with JArr vs => vs | _ => [] end in
    obj_set data key (JArr (arr ++ [JStr value]))
  else if bool_decide (value = "") then data
  else obj_set data key (JStr value).

(** Lines 172-176: [data[field] = parseFloat(data[field]) || 0] for a
    numeric field that is present. *)
Definition coerce_numeric (data : obj) (f : string) : obj :=
  match obj_get data f with
  | JUndef => data
  | v => obj_set data f (JNum (num_or (parseFloat (js_to_string v)) num_zero))
  end.

(** [this.currentProfile.key = v] *)
Definition put_profile (key : string) (v : jsval) : PM unit :=
  let* s := st_get in
  let* p := st_lift (js_put (pm_profile s) key v) in
  st_modify (set_profile p).

(** [this.currentProfile.key = source.key] for the three score fields. *)
Definition copy_scores (source : jsval) : PM unit :=
  let* v1 := st_lift (js_member source "readiness_score") in
  put_profile "readiness_score" v1 ;;;
  let* v2 := st_lift (js_member source "profile_completion_percentage") in
  put_profile "profile_completion_percentage" v2 ;;;
  let* v3 := st_lift (js_member source "last_score_calculation") in
  put_profile "last_score_calculation" v3.

(** The selected values of [#cidbWorkCategories], lines 158-160. *)
Definition selected_categories (s : pm_state) : jsval :=
  JArr (map (fun o => JStr o.1) (filter (fun o => o.2 = true) (pm_options s))).

(** The body of the PUT of [handleFormSubmit], lines 143-176. *)
Definition form_data (s : pm_state) (entries : list (string * string)) (formType : string) : obj :=
  let data := fold_left collect_entry entries [] in
  let data := if bool_decide (formType = "cidb")
              then obj_set data "cidb_work_categories" (selected_categories s) else data in
  fold_left coerce_numeric numericFields data.

(** [handleFormSubmit(event, formType)], lines 136-199; [entries] are the
    entries of the submitted form. *)
Definition handleFormSubmit (entries : list (string * string)) (formType : string) : PM unit :=
  st_finally
    (st_catch
       (showLoading true ;;;
        let* s := st_get in
        let data := form_data s entries formType in
        let* response := on_br (ProfileApi.apiCall (pm_token s) "/profiles" "PUT" (JObj data)) in
        st_modify (fun s => set_profile (JObj (obj_spread (obj_spread [] (pm_profile s)) (JObj data))) s) ;;;
        let* rp := st_lift (js_member response "profile") in
        (if js_truthy rp then copy_scores rp else st_ret tt) ;;;
        updateUI ;;;
        showAlert (to_upper formType +:+ " information saved successfully!") "success")
       (fun e => showAlert ("Error saving profile: " +:+ exn_message e) "error"))
    (showLoading false).

(** [loadProfile()], lines 48-63. *)
Definition loadProfile : PM unit :=
  st_finally
    (st_catch
       (showLoading true ;;;
        let* s := st_get in
        let* response := on_br (ProfileApi.apiCall (pm_token s) "/profiles" "GET" JNull) in
        let* p := st_lift (js_member response "profile") in
        if js_truthy p then st_modify (set_profile p) ;;; populateForms else st_ret tt)
       (fun e => showAlert ("Error loading profile: " +:+ exn_message e) "error"))
    (showLoading false).

(** [recalculateScore()], lines 255-274. *)
Definition recalculateScore : PM unit :=
  st_finally
    (st_catch
       (showLoading true ;;;
        let* s := st_get in
        let* response := on_br (ProfileApi.apiCall (pm_token s) "/profiles/score" "POST" JNull) in
        copy_scores response ;;;
        updateUI ;;;
        showAlert "Score recalculated successfully!" "success")
       (fun e => showAlert ("Error recalculating score: " +:+ exn_message e) "error"))
    (showLoading false).

(** [exportProfile()], lines 276-291; [today] is
    [new Date().toISOString().split('T')[0]]. *)
Definition exportProfile (today : string) : PM unit :=
  let* s := st_get in
  if negb (js_truthy (pm_profile s)) then showAlert "No profile data to export" "error"
  else
    st_modify (add_download ("profile-export-" +:+ today +:+ ".json") (to_json (pm_profile s))) ;;;
    showAlert "Profile exported successfully!" "success".

(** The request of [login], lines 365-371. *)
Definition login_request (email password : string) : request :=
  mk_request (ProfileApi.apiBaseUrl +:+ "/auth/login") "POST" [("Content-Type", "application/json")]
    (Some (JObj [("email", JStr email); ("password", JStr password)])).

(** [login(email, password)], lines 363-387. *)
Definition login (email password : string) : PM unit :=
  st_catch
    (let* response := on_br (fetch (login_request email password)) in
     if rs_ok response then
       let* data := on_br (response_json response) in
       let* token := st_lift (js_member data "token") in
       st_modify (set_token token) ;;;
       br_modify (setItem "authToken" token) ;;;
       loadProfile ;;;
       updateUI
     else
       let* errorData := on_br (response_json response) in
       let* err := st_lift (js_member errorData "error") in
       st_modify (add_alert ("Login failed: " +:+ js_to_string err)))
    (fun e => st_modify (add_alert ("Login failed: " +:+ exn_message e))).

(** [showLoginModal()], lines 351-361; the two answers of [prompt]
    ([None] when cancelled). *)
Definition showLoginModal (email password : option string) : PM unit :=
  match email, password with
  | Some e, Some p =>
      if negb (bool_decide (e = "")) && negb (bool_decide (p = "")) then login e p
      else st_modify (add_alert "Login required to access the profile system")
  | _, _ => st_modify (add_alert "Login required to access the profile system")
  end.

(** [logout()], lines 389-394. *)
Definition logout : PM unit :=
  st_modify (set_token JNull) ;;;
  br_modify (removeItem "authToken") ;;;
  st_modify (set_profile JNull) ;;;
  br_modify set_reloaded.

(** [setupEventListeners()], lines 31-46: the four submit listeners, the
    two [input] listeners of the success rate and the tab listeners are
    registered; which handler each event then runs is [App.app_step]. *)
Definition setupEventListeners : PM unit := st_modify set_listening.

(** [init()], lines 14-29. *)
Definition init (email password : option string) : PM unit :=
  let* s := st_get in
  if negb (js_truthy (pm_token s)) then showLoginModal email password
  else loadProfile ;;; setupEventListeners ;;; updateUI.

(** [new ProfileManager()], lines 7-12. *)
Definition construct (email password : option string) : PM unit :=
  let* token := br_read (getItem "authToken") in
  st_modify (set_token token) ;;;
  st_modify (set_profile JNull) ;;;
  init email password.

(** The blur handler of [#annualTurnover], lines 451-456. *)
Definition turnover_blur : PM unit :=
  let* s := st_get in
  let value := parseFloat (field s "annualTurnover") in
  if negb (num_isNaN value) then st_modify (set_field "annualTurnover" (num_to_locale_za value))
  else st_ret tt.

End WithBackend.

(** ** Properties of the computations *)


(** (C37) On an integer typed into a BEE percentage field, the blur check marks
    exactly the values below 0 or above 100. *)
Theorem percentage_invalid_int z :
  percentage_invalid (Z_to_dec z) = (z <? 0) || (100 <? z).
Proof.
  unfold percentage_invalid. rewrite parseFloat_Z_to_dec.
  destruct (Z.ltb_spec (Z.abs z) (2 ^ 1024 - 2 ^ 970)).
  - unfold num_zero. rewrite !num_lt_of_Z. done.
  - destruct (Z.ltb_spec z 0), (Z.ltb_spec 100 z); cbn; lia.
Qed.

(** The simplification between two steps of a method of the page. *)
Ltac pm_simp :=
  cbn [set_text set_offset set_last_updated set_field set_options set_token set_profile
       set_loading add_toast add_alert set_listening add_download pm_profile pm_offset pm_texts
       pm_fields pm_options pm_token pm_toasts pm_alerts pm_loading pm_br pm_listening
       pm_downloads pm_last_updated js_member js_truthy negb fst snd st_modify st_ret st_lift
       set_br].

Lemma js_or_fin_zero q : js_or (JNum (NFin q)) (JNum num_zero) = JNum (NFin q).
Proof.
  unfold js_or. cbn [js_truthy num_truthy]. case_bool_decide as Hq; cbn; [|done].
  by rewrite Hq.
Qed.

(** The arc left undrawn for a finite score [q]: [100 - q] times [Math.PI]. *)
Lemma score_offset_fin q : score_offset (NFin q) = NFin (Q2Qc (inject_Z 100) - q).
Proof.
  unfold score_offset, circumference_pi, num_sub, num_div, num_of_Z.
  rewrite bool_decide_false by (intros H; apply Q2Qc_Z_inj in H; lia).
  cbn [num_mul num_neg num_add]. f_equal. apply Qc_is_canon.
  cbn [this Qcplus Qcminus Qcmult Qcdiv Qcopp Qcinv Q2Qc].
  rewrite !Qred_correct. field.
Qed.

(** (C34) With a finite readiness score [q] in the profile, [updateUI] shows [q],
    leaves [100 - q] of the circle (in units of [Math.PI]) undrawn, and
    writes the description of [q]'s band. *)
Theorem updateUI_score s fs q :
  pm_profile s = JObj fs -> obj_get fs "readiness_score" = JNum (NFin q) ->
  pm_offset (updateUI s).2 = Some (NFin (Q2Qc (inject_Z 100) - q)) /\
  assoc_lookup "scoreDescription" (pm_texts (updateUI s).2) = Some (score_description (NFin q)) /\
  assoc_lookup "scoreValue" (pm_texts (updateUI s).2) = Some (num_to_string (NFin q)).
Proof.
  destruct s. cbn. intros -> Hs. unfold updateUI, prop. st_run pm_simp.
  destruct (js_truthy (obj_get fs "updated_at")); st_run pm_simp; rewrite Hs, js_or_fin_zero;
    pm_simp; (split; [f_equal; apply score_offset_fin|]);
    rewrite !assoc_lookup_set; repeat (case_bool_decide; try done).
Qed.

(** ** Running the methods *)

(** Replace all the form values at once (used to state what a loop over
    the fields does). *)
Definition set_fields (f : list (string * string)) (s : pm_state) : pm_state :=
  mk_pm (pm_br s) (pm_token s) (pm_profile s) f (pm_options s) (pm_texts s) (pm_last_updated s)
        (pm_offset s) (pm_toasts s) (pm_alerts s) (pm_loading s) (pm_listening s) (pm_downloads s).

(** The form values after [populate_all l] on the profile [fs]. *)
Definition populated (fs : obj) (l : list (string * string)) (f : list (string * string))
  : list (string * string) :=
  fold_left (fun acc ki => if js_truthy (obj_get fs ki.1)
                           then assoc_set acc ki.2 (js_to_string (obj_get fs ki.1)) else acc) l f.

Lemma populate_all_run l s fs :
  pm_profile s = JObj fs ->
  populate_all l s = (Done tt, set_fields (populated fs l (pm_fields s)) s).
Proof.
  revert s. induction l as [|[k id] l IH]; intros [] Hp; cbn in Hp; subst; [done|].
  cbn [populate_all]. unfold populate_field, prop. st_run pm_simp.
  destruct (js_truthy (obj_get fs k)) eqn:Ht; st_run pm_simp;
    rewrite IH by done; cbn; by rewrite Ht.
Qed.

Lemma st_bind_populate_all {B} l (k : unit -> PM B) s fs :
  pm_profile s = JObj fs ->
  st_bind (populate_all l) k s = k tt (set_fields (populated fs l (pm_fields s)) s).
Proof. intros H. apply st_bind_done, populate_all_run, H. Qed.

Lemma populated_lookup_free fs l f id :
  id ∉ l.*2 -> assoc_lookup id (populated fs l f) = assoc_lookup id f.
Proof.
  unfold populated. revert f. induction l as [|[k' id'] l IH]; intros f Hid; [done|].
  cbn [fold_left fst snd]. rewrite fmap_cons, elem_of_cons in Hid.
  rewrite IH by naive_solver. case_match; [|done].
  apply assoc_lookup_set_ne. naive_solver.
Qed.

Lemma populated_cons fs k id l f :
  populated fs ((k, id) :: l) f
  = populated fs l (if js_truthy (obj_get fs k) then assoc_set f id (js_to_string (obj_get fs k)) else f).
Proof. done. Qed.

Lemma populated_lookup fs l f key id :
  NoDup l.*2 -> (key, id) ∈ l ->
  assoc_lookup id (populated fs l f)
  = if js_truthy (obj_get fs key) then Some (js_to_string (obj_get fs key)) else assoc_lookup id f.
Proof.
  revert f. induction l as [|[k' id'] l IH]; intros f Hnd Hin; [by apply elem_of_nil in Hin|].
  rewrite fmap_cons in Hnd. apply NoDup_cons in Hnd as [Hid Hnd].
  rewrite populated_cons. apply elem_of_cons in Hin as [Heq|Hin].
  - injection Heq as Hk Hi. subst k' id'.
    rewrite populated_lookup_free by done. case_match; [apply assoc_lookup_set_eq|done].
  - rewrite IH by done. case_match; [done|].
    case_match; [|done]. apply assoc_lookup_set_ne.
    intros ->. apply Hid. apply (list_elem_of_fmap_2 snd l (key, id) Hin).
Qed.

Lemma field_ids_nodup : NoDup cidb_fields.*2 /\ NoDup other_fields.*2.
Proof. split; apply (bool_decide_unpack _); vm_compute; reflexivity. Qed.

Lemma field_ids_disjoint x : x ∈ cidb_fields.*2 -> x ∉ other_fields.*2.
Proof.
  intros H. cbn in H. repeat (apply elem_of_cons in H as [->|H]);
    [..|by apply elem_of_nil in H]; apply (bool_decide_unpack _); vm_compute; reflexivity.
Qed.

(** (C35) [populateForms] on a profile object: no exception, and every field of
    the four forms takes the profile's value when that value is truthy and
    keeps its old value otherwise, whether the key is missing or its value
    is [0], [""], [false] or [null]. *)
Theorem populateForms_field s fs key id :
  pm_profile s = JObj fs -> (key, id) ∈ cidb_fields ++ other_fields ->
  (populateForms s).1 = Done tt /\
  assoc_lookup id (pm_fields (populateForms s).2)
  = if js_truthy (obj_get fs key) then Some (js_to_string (obj_get fs key))
    else assoc_lookup id (pm_fields s).
Proof.
  destruct s. cbn [pm_profile pm_fields]. intros -> Hin. unfold populateForms.
  rewrite st_bind_get. cbn [pm_profile js_truthy negb].
  erewrite st_bind_populate_all by reflexivity. unfold set_fields.
  unfold populate_categories, prop. st_run pm_simp.
  destruct field_ids_nodup as [Hn1 Hn2].
  destruct (js_truthy (obj_get fs "cidb_work_categories")); st_run pm_simp;
    erewrite st_bind_populate_all by reflexivity; unfold set_fields;
    unfold calculateSuccessRate; st_run pm_simp; (split; [done|]);
    (apply elem_of_app in Hin as [Hin|Hin]; pose proof (list_elem_of_fmap_2 snd _ _ Hin) as Hid;
     cbn [snd] in Hid;
     [rewrite populated_lookup_free by (by apply field_ids_disjoint);
      by rewrite (populated_lookup _ _ _ key)
     |rewrite (populated_lookup _ _ _ key) by done;
      case_match; [done|]; rewrite populated_lookup_free; [done|];
      intros Hc; by apply (field_ids_disjoint id)]).
Qed.

(** ** What the methods leave alone *)

Lemma updateUI_keeps_br : preserves pm_br updateUI.
Proof. unfold updateUI, prop. preserves_auto. Qed.
Lemma updateUI_keeps_profile : preserves pm_profile updateUI.
Proof. unfold updateUI, prop. preserves_auto. Qed.
Lemma updateUI_keeps_toasts : preserves pm_toasts updateUI.
Proof. unfold updateUI, prop. preserves_auto. Qed.
Lemma updateUI_keeps_loading : preserves pm_loading updateUI.
Proof. unfold updateUI, prop. preserves_auto. Qed.

(** On a profile object, [updateUI] runs to its end. *)
Lemma updateUI_done s fs : pm_profile s = JObj fs -> (updateUI s).1 = Done tt.
Proof.
  destruct s. cbn [pm_profile]. intros ->. unfold updateUI, prop. st_run pm_simp.
  by destruct (js_truthy (obj_get fs "updated_at")); st_run pm_simp.
Qed.

Lemma updateUI_run s fs :
  pm_profile s = JObj fs ->
  exists s', updateUI s = (Done tt, s') /\ pm_profile s' = pm_profile s /\
             pm_toasts s' = pm_toasts s /\ pm_loading s' = pm_loading s /\ pm_br s' = pm_br s.
Proof.
  intros Hp. exists (updateUI s).2. rewrite <- (updateUI_done s fs Hp).
  split; [by destruct (updateUI s)|].
  rewrite updateUI_keeps_profile, updateUI_keeps_toasts, updateUI_keeps_loading, updateUI_keeps_br.
  done.
Qed.

(** [response.profile.k], read as the score copy reads it. *)
Definition echoed (p : jsval) (k : string) : jsval :=
  match js_member p k with Done v => v | Thrown _ => JUndef end.

(** The three score fields copied from a truthy [p] over the profile. *)
Definition scores_of (p : jsval) (fs : obj) : obj :=
  obj_set (obj_set (obj_set fs "readiness_score" (echoed p "readiness_score"))
             "profile_completion_percentage" (echoed p "profile_completion_percentage"))
    "last_score_calculation" (echoed p "last_score_calculation").

Lemma js_member_truthy p k : js_truthy p = true -> js_member p k = Done (echoed p k).
Proof. unfold echoed. by destruct p. Qed.

Lemma copy_scores_run `{Backend} p s fs :
  js_truthy p = true -> pm_profile s = JObj fs ->
  copy_scores p s = (Done tt, set_profile (JObj (scores_of p fs)) s).
Proof.
  destruct s. cbn [pm_profile]. intros Hp ->. unfold copy_scores, put_profile.
  rewrite !js_member_truthy by done. st_run pm_simp. done.
Qed.

(** ** Saving a form *)

(** The body of the PUT is an object with distinct keys. *)
Lemma form_data_wf s entries formType : obj_wf (form_data s entries formType).
Proof.
  unfold form_data. apply fold_left_invariant.
  - case_bool_decide; [apply obj_set_wf|]; apply fold_left_invariant;
      [constructor| |constructor|];
      intros a [k v] Ha; cbn; repeat case_bool_decide; auto using obj_set_wf.
  - intros a f Ha. unfold coerce_numeric. case_match; auto using obj_set_wf.
Qed.

(** ** The types of the PUT body *)

Definition is_str (v : jsval) : bool := match v with JStr _ => true | _ => false end.

(** The type each property of the body has before the numeric coercion:
    the work categories an array of strings, every other value a string. *)
Definition collected_ok (k : string) (v : jsval) : bool :=
  if bool_decide (k = "cidb_work_categories")
  then match v with JArr vs => forallb is_str vs | _ => false end
  else match v with JStr x => negb (bool_decide (x = "")) | _ => false end.

(** After it: the numeric fields are numbers, never [NaN]. *)
Definition payload_ok (k : string) (v : jsval) : bool :=
  if bool_decide (k ∈ numericFields)
  then match v with JNum n => negb (num_isNaN n) | _ => false end
  else collected_ok k v.

(** Every property of [o] is missing or has the type [ok] gives its key. *)
Definition obj_typed (ok : string -> jsval -> bool) (o : obj) : Prop :=
  forall k, obj_get o k = JUndef \/ ok k (obj_get o k) = true.

Lemma obj_typed_set ok o k v :
  obj_typed ok o -> ok k v = true -> obj_typed ok (obj_set o k v).
Proof. intros Ho Hv k'. rewrite obj_get_set. case_bool_decide; [subst; by right|apply Ho]. Qed.

Lemma num_or_zero_not_NaN x : num_isNaN (num_or x num_zero) = false.
Proof. unfold num_or. destruct (num_truthy x) eqn:Ht; [by destruct x|done]. Qed.

Lemma collect_entry_typed o e : obj_typed collected_ok o -> obj_typed collected_ok (collect_entry o e).
Proof.
  destruct e as [key value]. intros Ho. unfold collect_entry.
  case_bool_decide as Hk; [|case_bool_decide; [done|]].
  - apply obj_typed_set; [done|]. unfold collected_ok. rewrite bool_decide_true by done.
    rewrite forallb_app, andb_true_r.
    destruct (Ho key) as [-> | Hv]; [done|]. unfold collected_ok in Hv.
    rewrite bool_decide_true in Hv by done. by destruct (obj_get o key).
  - apply obj_typed_set; [done|]. unfold collected_ok. rewrite !bool_decide_false by done. done.
Qed.

Lemma obj_typed_mono (ok1 ok2 : string -> jsval -> bool) o :
  (forall k v, ok1 k v = true -> ok2 k v = true) -> obj_typed ok1 o -> obj_typed ok2 o.
Proof. intros Hok Ho k. destruct (Ho k); [by left|right; auto]. Qed.

(** The body before the coercion, lines 142-161. *)
Lemma collected_typed s entries formType :
  obj_typed collected_ok
    (let data := fold_left collect_entry entries [] in
     if bool_decide (formType = "cidb")
     then obj_set data "cidb_work_categories" (selected_categories s) else data).
Proof.
  cbn zeta. assert (Hd : obj_typed collected_ok (fold_left collect_entry entries [])).
  { apply fold_left_invariant; [by left|]. intros o e Ho. by apply collect_entry_typed. }
  case_bool_decide; [|done]. apply obj_typed_set; [done|].
  unfold collected_ok, selected_categories. rewrite bool_decide_true by done.
  apply forallb_forall. intros v Hv. apply in_map_iff in Hv as (o & <- & _). done.
Qed.

(** The numeric coercion over the fields [D] already processed. *)
Definition coerced_ok (D : list string) (k : string) (v : jsval) : bool :=
  if bool_decide (k ∈ D) then match v with JNum n => negb (num_isNaN n) | _ => false end
  else collected_ok k v.

Lemma coerce_numeric_typed D o f :
  obj_typed (coerced_ok D) o -> obj_typed (coerced_ok (D ++ [f])) (coerce_numeric o f).
Proof.
  intros Ho k.
  assert (Hsame : k <> f -> forall v, coerced_ok (D ++ [f]) k v = coerced_ok D k v).
  { intros Hne v. unfold coerced_ok. by rewrite (bool_decide_ext (k ∈ D ++ [f]) (k ∈ D)) by set_solver. }
  unfold coerce_numeric. destruct (obj_get o f) eqn:Hf.
  1: destruct (decide (k = f)) as [->|Hne]; [by left|].
  1: destruct (Ho k) as [H|H]; [by left|right; by rewrite Hsame].
  all: rewrite obj_get_set; case_bool_decide as Hk;
    [subst; right; unfold coerced_ok; rewrite bool_decide_true by set_solver;
     apply negb_true_iff, num_or_zero_not_NaN|].
  all: destruct (Ho k) as [H|H]; [by left|right; by rewrite Hsame].
Qed.

Lemma coerce_all_typed l D o :
  obj_typed (coerced_ok D) o -> obj_typed (coerced_ok (D ++ l)) (fold_left coerce_numeric l o).
Proof.
  revert D o. induction l as [|f l IH]; intros D o Ho; cbn; [by rewrite app_nil_r|].
  replace (D ++ f :: l) with ((D ++ [f]) ++ l) by (by rewrite <- app_assoc).
  apply IH, coerce_numeric_typed, Ho.
Qed.

(** (C18) The body [handleFormSubmit] sends is well typed: each property
    present has one key (the object is well formed), a numeric field is
    a number and never [NaN] ([parseFloat(...) || 0]), the work
    categories are an array of strings, and every other value is a
    non-empty string of the form. *)
Theorem form_data_typed s entries formType :
  obj_wf (form_data s entries formType) /\ obj_typed payload_ok (form_data s entries formType).
Proof.
  split; [apply form_data_wf|]. unfold form_data.
  apply (coerce_all_typed numericFields []).
  refine (obj_typed_mono _ _ _ _ (collected_typed s entries formType)).
  intros k v Hv. unfold coerced_ok. by rewrite bool_decide_false by apply not_elem_of_nil.
Qed.


(** The body of the PUT depends on the page only through the options
    selected in [#cidbWorkCategories]. *)
Lemma form_data_options s s' entries formType :
  pm_options s = pm_options s' -> form_data s entries formType = form_data s' entries formType.
Proof. intros Ho. unfold form_data, selected_categories. by rewrite Ho. Qed.

(** What the profile map becomes when the server echoes [p]. *)
Definition score_echo (p : jsval) (m : gmap string jsval) : gmap string jsval :=
  if js_truthy p
  then <["last_score_calculation" := echoed p "last_score_calculation"]>
         (<["profile_completion_percentage" := echoed p "profile_completion_percentage"]>
            (<["readiness_score" := echoed p "readiness_score"]> m))
  else m.

Lemma obj_to_map_scores_of p fs :
  js_truthy p = true -> obj_to_map (scores_of p fs) = score_echo p (obj_to_map fs).
Proof. intros Hp. unfold scores_of, score_echo. by rewrite Hp, !obj_to_map_set. Qed.

(** [{...this.currentProfile, ...data}] on a profile object is the union
    of the maps, the submitted data winning. *)
Lemma obj_to_map_merge fs data :
  obj_wf fs -> obj_wf data ->
  obj_to_map (obj_spread (obj_spread [] (JObj fs)) (JObj data))
  = obj_to_map data ∪ obj_to_map fs.
Proof.
  intros Hfs Hd. rewrite !obj_to_map_spread by done.
  change (obj_to_map []) with (∅ : gmap string jsval). by rewrite (right_id_L ∅ (∪)).
Qed.

Section Saving.
Context `{Backend}.

(** The score copy of [handleFormSubmit], on a profile object. *)
Lemma score_copy_run p s m :
  pm_profile s = JObj m ->
  exists fs1, (if js_truthy p then copy_scores p else st_ret tt) s
              = (Done tt, set_profile (JObj fs1) s) /\
              obj_to_map fs1 = score_echo p (obj_to_map m).
Proof.
  intros Hs. destruct (js_truthy p) eqn:Ht.
  - exists (scores_of p m). split; [by apply copy_scores_run|by apply obj_to_map_scores_of].
  - exists m. unfold score_echo. rewrite Ht. split; [|done].
    destruct s; cbn in Hs; subst. done.
Qed.

Lemma on_br_apiCall_ok s token endpoint method data r v :
  respond (ProfileApi.request_of token endpoint method data) = Some r ->
  rs_ok r = true -> rs_body r = Some v ->
  on_br (ProfileApi.apiCall token endpoint method data) s
  = (Done v, set_br (add_sent (ProfileApi.request_of token endpoint method data) (pm_br s)) s).
Proof. intros Hr Hok Hb. rewrite on_br_run. cbn [get_br pm_lens]. by erewrite apiCall_ok. Qed.

Lemma on_br_apiCall_fails s token endpoint method data :
  (forall r, respond (ProfileApi.request_of token endpoint method data) = Some r -> rs_ok r = false) ->
  exists e, on_br (ProfileApi.apiCall token endpoint method data) s
            = (Thrown e, set_br (add_sent (ProfileApi.request_of token endpoint method data) (pm_br s)) s).
Proof.
  intros Hf. destruct (apiCall_fails token endpoint method data (pm_br s) Hf) as [e He].
  exists e. rewrite on_br_run. cbn [get_br pm_lens]. by rewrite He.
Qed.

(** Saving a form sends one PUT with the form's data, whatever the answer. *)
Lemma handleFormSubmit_sent entries formType s :
  sent (pm_br (handleFormSubmit entries formType s).2)
  = sent (pm_br s) ++ [ProfileApi.request_of (pm_token s) "/profiles" "PUT"
                         (JObj (form_data s entries formType))].
Proof.
  unfold handleFormSubmit.
  rewrite (finally_view_after (fun s => sent (pm_br s))) by (unfold showLoading; preserves_auto).
  unfold st_catch, showLoading. rewrite st_bind_modify, st_bind_get.
  rewrite (catch_bind_view_after' (fun s => sent (pm_br s))).
  - rewrite on_br_run, apiCall_browser. cbn [get_br pm_lens put_br pm_br snd sent add_sent].
    by rewrite (form_data_options (set_loading true s) s).
  - intros a. unfold copy_scores, put_profile, updateUI, prop, showAlert. preserves_auto.
  - intros e. unfold showAlert. preserves_auto.
Qed.

(** (C12) A save the server refuses (or that cannot reach it) leaves the
    local profile as it was and shows the error toast: the merge of lines
    178-181 is not optimistic.  The loading modal it showed stays shown:
    [showLoading(false)] in the [finally] does not hide it. *)
Theorem handleFormSubmit_failed s entries formType :
  (forall r, respond (ProfileApi.request_of (pm_token s) "/profiles" "PUT"
                        (JObj (form_data s entries formType))) = Some r -> rs_ok r = false) ->
  (handleFormSubmit entries formType s).1 = Done tt /\
  pm_loading (handleFormSubmit entries formType s).2 = true /\
  pm_profile (handleFormSubmit entries formType s).2 = pm_profile s /\
  exists e, pm_toasts (handleFormSubmit entries formType s).2
            = pm_toasts s ++ [("Error saving profile: " +:+ exn_message e, "error")].
Proof.
  intros Hf. unfold handleFormSubmit, st_finally, st_catch, showLoading.
  st_run pm_simp. rewrite (form_data_options (set_loading true s) s) by done.
  destruct (on_br_apiCall_fails (set_loading true s) _ _ _ _ Hf) as [e He].
  rewrite (st_bind_thrown _ _ _ _ _ He). unfold showAlert, st_modify. cbv beta iota.
  cbn [fst snd pm_loading pm_toasts pm_profile set_loading add_toast set_br].
  repeat split. by exists e.
Qed.

(** ** The turnover field *)

(** The blur handler on an integer below the overflow bound rewrites it
    in the en-ZA format. *)
Lemma turnover_blur_run s n :
  Z.abs n < 2 ^ 1024 - 2 ^ 970 -> field s "annualTurnover" = Z_to_dec n ->
  turnover_blur s = (Done tt, set_field "annualTurnover" (to_locale_za n) s).
Proof.
  intros Hn Hf. unfold turnover_blur. rewrite st_bind_get, Hf, parseFloat_Z_to_dec.
  rewrite (proj2 (Z.ltb_lt _ _) Hn). cbn [num_isNaN num_of_Z negb].
  by rewrite num_to_locale_za_of_Z.
Qed.

(** The PUT body of a form holding only the turnover [v]. *)
Lemma form_data_turnover s v :
  v <> "" ->
  form_data s [("annual_turnover", v)] "company"
  = [("annual_turnover", JNum (num_or (parseFloat v) num_zero))].
Proof.
  intros Hv. unfold form_data. cbn [fold_left collect_entry].
  rewrite (bool_decide_false (v = "")) by done.
  cbn -[parseFloat num_or]. done.
Qed.


(** (C2) A form saved with success: the profile becomes the old profile
    updated with the submitted data, then with the score fields of the
    echoed [response.profile] when there is one; a success toast is
    shown.  The loading modal shown at the start stays shown: the
    [finally]'s [showLoading(false)] calls [hide()] on a new [Modal],
    which does nothing. *)
Theorem handleFormSubmit_saved s fs entries formType r resp :
  pm_profile s = JObj fs -> obj_wf fs ->
  respond (ProfileApi.request_of (pm_token s) "/profiles" "PUT"
             (JObj (form_data s entries formType))) = Some r ->
  rs_ok r = true -> rs_body r = Some (JObj resp) ->
  (handleFormSubmit entries formType s).1 = Done tt /\
  pm_loading (handleFormSubmit entries formType s).2 = true /\
  pm_toasts (handleFormSubmit entries formType s).2
  = pm_toasts s ++ [(to_upper formType +:+ " information saved successfully!", "success")] /\
  exists fs', pm_profile (handleFormSubmit entries formType s).2 = JObj fs' /\
    obj_to_map fs' = score_echo (obj_get resp "profile")
                       (obj_to_map (form_data s entries formType) ∪ obj_to_map fs).
Proof.
  intros Hp Hwf Hr Hok Hb. unfold handleFormSubmit, st_finally, st_catch, showLoading.
  st_run pm_simp. rewrite (form_data_options (set_loading true s) s) by done.
  rewrite (st_bind_done _ _ _ _ _ (on_br_apiCall_ok _ _ _ _ _ _ _ Hr Hok Hb)).
  st_run pm_simp. rewrite Hp.
  set (m := obj_spread (obj_spread [] (JObj fs)) (JObj (form_data s entries formType))).
  set (s0 := set_profile (JObj m) _).
  destruct (score_copy_run (obj_get resp "profile") s0 m eq_refl) as (fs1 & Hc & Hm).
  rewrite (st_bind_done _ _ _ _ _ Hc).
  destruct (updateUI_run (set_profile (JObj fs1) s0) fs1 eq_refl) as (s2 & Hu & Hp2 & Ht2 & Hl2 & _).
  rewrite (st_bind_done _ _ _ _ _ Hu). unfold showAlert, st_modify. cbv beta iota.
  split; [done|]. cbn [snd pm_loading pm_toasts pm_profile set_loading add_toast].
  rewrite Hp2, Ht2. split; [done|]. split; [done|]. eexists. split; [done|].
  rewrite Hm. f_equal. apply obj_to_map_merge; [done|apply form_data_wf].
Qed.
End Saving.

(** ** Start-up: [new ProfileManager()] *)

Section Startup.
Context `{Backend}.

(** What decides whether the session is usable: the token held by the
    manager, the token stored in the browser, and whether the form
    listeners are installed. *)
Definition session_view (s : pm_state) : jsval * jsval * bool :=
  (pm_token s, getItem "authToken" (pm_br s), pm_listening s).

Lemma on_br_apiCall_session token ep m d :
  preserves session_view (on_br (ProfileApi.apiCall token ep m d)).
Proof. intros s. rewrite on_br_run. unfold session_view. cbn. by rewrite apiCall_browser. Qed.

#[local] Hint Resolve on_br_apiCall_session : tih_frame.

Lemma loadProfile_session : preserves session_view loadProfile.
Proof. unfold loadProfile, showLoading, showAlert, populateForms, populate_field, prop. preserves_auto. Qed.

Lemma updateUI_session : preserves session_view updateUI.
Proof. unfold session_view, updateUI, prop. preserves_auto. Qed.

(** [loadProfile] sends one [GET /profiles] with the manager's token,
    whatever the answer. *)
Lemma loadProfile_sent s :
  sent (pm_br (loadProfile s).2)
  = sent (pm_br s) ++ [ProfileApi.request_of (pm_token s) "/profiles" "GET" JNull].
Proof.
  unfold loadProfile.
  rewrite (finally_view_after (fun s => sent (pm_br s))) by (unfold showLoading; preserves_auto).
  unfold st_catch, showLoading. rewrite st_bind_modify, st_bind_get.
  rewrite (catch_bind_view_after' (fun s => sent (pm_br s))).
  - rewrite on_br_run, apiCall_browser. done.
  - intros a. unfold populateForms, populate_field, prop. preserves_auto.
  - intros e. unfold showAlert. preserves_auto.
Qed.

(** [loadProfile] catches every error: it always completes. *)
Lemma loadProfile_done s : (loadProfile s).1 = Done tt.
Proof.
  unfold loadProfile, st_finally, showLoading, st_modify. cbn [fst].
  destruct (st_catch _ _ s) as [[[]|e] s'] eqn:Hc; [done|].
  unfold st_catch in Hc. destruct (st_bind _ _ s) as [[a|e'] s''] in Hc; [done|].
  unfold showAlert, st_modify in Hc. discriminate.
Qed.

(** (C13) Opened without a stored token, the page asks for the credentials
    with [prompt] and logs in; on success the token of the answer is kept
    and stored (as its string, ["undefined"] when the answer has none),
    but [init] returned before [setupEventListeners], and [login] never
    calls it: the forms of the page are never listened to. *)
Theorem construct_prompt_login_no_listeners s email password r d :
  getItem "authToken" (pm_br s) = JNull -> pm_listening s = false ->
  email <> "" -> password <> "" ->
  respond (login_request email password) = Some r -> rs_ok r = true -> rs_body r = Some (JObj d) ->
  session_view (construct (Some email) (Some password) s).2
  = (obj_get d "token", JStr (js_to_string (obj_get d "token")), false).
Proof.
  intros Hg Hl He Hp Hr Hok Hb. unfold construct.
  rewrite st_bind_br_read. cbn [get_br pm_lens]. rewrite Hg, !st_bind_modify.
  unfold init. rewrite st_bind_get. cbn [pm_token set_token set_profile js_truthy negb].
  unfold showLoginModal. rewrite !bool_decide_false by done. cbn [negb andb].
  unfold login. rewrite (catch_view_after session_view) by (intros e; preserves_auto).
  unfold st_bind at 1. rewrite on_br_run. unfold fetch. cbn [get_br pm_lens].
  rewrite Hr. cbn [fst snd]. rewrite Hok.
  unfold st_bind at 1. rewrite on_br_run. unfold response_json. rewrite Hb. cbn [st_ret fst snd js_member].
  rewrite st_bind_lift_done by reflexivity. rewrite st_bind_modify, st_bind_br_modify.
  rewrite (bind_view_after session_view) by (intros; apply updateUI_session).
  rewrite loadProfile_session. unfold session_view. cbn.
  by rewrite getItem_setItem, Hl.
Qed.

(** (C33) Opened with a stored token, the page keeps it, loads the profile
    with it (one [GET /profiles]) and installs the form listeners,
    whatever the server answers. *)
Theorem construct_with_token s email password t :
  getItem "authToken" (pm_br s) = JStr t -> t <> "" ->
  let s' := (construct email password s).2 in
  session_view s' = (JStr t, JStr t, true) /\
  sent (pm_br s') = sent (pm_br s) ++ [ProfileApi.request_of (JStr t) "/profiles" "GET" JNull].
Proof.
  intros Hg Ht s'. subst s'. unfold construct.
  rewrite st_bind_br_read. cbn [get_br pm_lens]. rewrite Hg, !st_bind_modify.
  unfold init. rewrite st_bind_get. cbn [pm_token set_token set_profile js_truthy negb].
  rewrite (bool_decide_false (t = "")) by done. cbn [negb].
  set (s0 := set_profile JNull (set_token (JStr t) s)).
  pose proof (loadProfile_done s0) as Hd. pose proof (loadProfile_session s0) as Hv.
  pose proof (loadProfile_sent s0) as Hs.
  destruct (loadProfile s0) as [o s1] eqn:Hl0. cbn in Hd, Hv, Hs. subst o.
  rewrite (st_bind_done _ _ _ _ _ Hl0). unfold setupEventListeners. rewrite st_bind_modify.
  rewrite (updateUI_session (set_listening s1)), (updateUI_keeps_br (set_listening s1)).
  unfold session_view in *. cbn in Hv |- *. injection Hv as -> ->.
  rewrite Hs. cbn. by rewrite Hg.
Qed.

(** The score copy of [recalculateScore] on a [null] profile throws at
    its first assignment. *)
Lemma copy_scores_null o s :
  pm_profile s = JNull ->
  copy_scores (JObj o) s
  = (Thrown (JsTypeError "Cannot set properties of null (setting 'readiness_score')"), s).
Proof. intros Hp. unfold copy_scores, put_profile, st_bind, st_lift, st_get. cbn. by rewrite Hp. Qed.

(** (C15) A user with no profile yet (the load found none, or failed) who
    asks for a new score: the server computes it, but
    [this.currentProfile.readiness_score = ...] throws on [null], so the
    page reports an error and the new score is lost; the loading modal
    stays shown. *)
Theorem recalculateScore_without_profile s r o :
  pm_profile s = JNull ->
  respond (ProfileApi.request_of (pm_token s) "/profiles/score" "POST" JNull) = Some r ->
  rs_ok r = true -> rs_body r = Some (JObj o) ->
  let s' := (recalculateScore s).2 in
  pm_profile s' = JNull /\ pm_loading s' = true /\
  pm_toasts s' = pm_toasts s ++ [("Error recalculating score: Cannot set properties of null (setting 'readiness_score')", "error")] /\
  sent (pm_br s') = sent (pm_br s) ++ [ProfileApi.request_of (pm_token s) "/profiles/score" "POST" JNull].
Proof.
  intros Hp Hr Hok Hb s'. subst s'. unfold recalculateScore, st_finally, st_catch, showLoading.
  st_run pm_simp.
  rewrite (st_bind_done _ _ _ _ _ (on_br_apiCall_ok _ _ _ _ _ _ _ Hr Hok Hb)).
  set (s1 := set_br (add_sent (ProfileApi.request_of (pm_token s) "/profiles/score" "POST" JNull)
                            (pm_br (set_loading true s))) (set_loading true s)).
  rewrite (st_bind_thrown _ _ _ _ _ (copy_scores_null o s1 Hp)).
  unfold showAlert, st_modify. subst s1.
  cbn [fst snd pm_loading pm_toasts pm_profile set_loading add_toast set_br pm_br sent add_sent].
  by rewrite Hp.
Qed.

End Startup.

(** ** Exporting the profile *)

(** (C31) Exporting a loaded profile downloads one file, named after the
    date, whose content is [JSON.stringify] of the profile; parsing the
    file gives the profile back exactly when the profile holds no
    [undefined] and no non-finite number.  The profile is unchanged. *)
Theorem exportProfile_download today s :
  js_truthy (pm_profile s) = true ->
  let s' := (exportProfile today s).2 in
  exists file, pm_downloads s' = pm_downloads s ++ [("profile-export-" +:+ today +:+ ".json", file)] /\
    (of_json <$> file = Some (pm_profile s) <-> json_clean (pm_profile s) = true) /\
    pm_profile s' = pm_profile s.
Proof.
  intros Ht. exists (to_json (pm_profile s)).
  unfold exportProfile, showAlert. rewrite st_bind_get, Ht. cbn.
  split; [done|]. split; [apply json_roundtrip_clean | done].
Qed.

(** ** The theorems at concrete inputs *)

(** The page before any method ran, with the stored token [t]. *)
Definition pm_empty (t : jsval) : pm_state :=
  mk_pm (mk_browser [] None false [] 0 []) t JNull [] [] [] None None [] [] false false [].

Definition profile_72 : pm_state :=
  set_profile (JObj [("readiness_score", JNum (num_of_Z 72))]) (pm_empty (JStr "tok")).

(** The example of the design: a score of 72 reads "Good!". *)
Example updateUI_score_72 :
  assoc_lookup "scoreDescription" (pm_texts (updateUI profile_72).2)
  = Some "Good! Your readiness score is above average".
Proof. vm_compute. reflexivity. Qed.

Lemma updateUI_score_witness :
  pm_offset (updateUI profile_72).2 = Some (NFin (Q2Qc (inject_Z 100) - Q2Qc (inject_Z 72))).
Proof.
  destruct (updateUI_score profile_72 [("readiness_score", JNum (num_of_Z 72))]
              (Q2Qc (inject_Z 72)) eq_refl eq_refl) as [Ho _].
  exact Ho.
Defined.

Lemma populateForms_field_witness :
  assoc_lookup "cidbGrade"
    (pm_fields (populateForms (set_profile (JObj [("cidb_grade", JStr "7")]) (pm_empty JNull))).2)
  = Some "7".
Proof.
  destruct (populateForms_field (set_profile (JObj [("cidb_grade", JStr "7")]) (pm_empty JNull))
              [("cidb_grade", JStr "7")] "cidb_grade" "cidbGrade" eq_refl) as [_ Hf].
  - apply (bool_decide_unpack _). vm_compute. reflexivity.
  - rewrite Hf. reflexivity.
Defined.

Definition saved_response : response :=
  mk_response 200 (Some (JObj [("profile", JObj [("readiness_score", JNum (num_of_Z 40))])])).

Lemma handleFormSubmit_saved_witness :
  pm_loading (@handleFormSubmit (backend_of (Some saved_response)) [("company_name", "Acme")]
                "company" (set_profile (JObj []) (pm_empty (JStr "tok")))).2 = true.
Proof.
  destruct (@handleFormSubmit_saved (backend_of (Some saved_response))
              (set_profile (JObj []) (pm_empty (JStr "tok"))) [] [("company_name", "Acme")]
              "company" saved_response [("profile", JObj [("readiness_score", JNum (num_of_Z 40))])]
              eq_refl (NoDup_nil_2) eq_refl eq_refl eq_refl) as (_ & Hl & _).
  exact Hl.
Defined.

Definition turnover_typed : pm_state :=
  set_field "annualTurnover" (Z_to_dec 1500000) (pm_empty (JStr "tok")).


Lemma exportProfile_download_witness :
  exists file, pm_downloads (exportProfile "2025-06-01" profile_72).2
               = [("profile-export-2025-06-01.json", file)] /\
    (of_json <$> file = Some (pm_profile profile_72) <-> json_clean (pm_profile profile_72) = true) /\
    pm_profile (exportProfile "2025-06-01" profile_72).2 = pm_profile profile_72.
Proof. apply (exportProfile_download "2025-06-01" profile_72). reflexivity. Defined.

Lemma handleFormSubmit_failed_witness :
  pm_profile (@handleFormSubmit (backend_of (Some resp_422)) [("company_name", "Acme")]
                "company" profile_72).2 = pm_profile profile_72.
Proof.
  destruct (@handleFormSubmit_failed (backend_of (Some resp_422)) profile_72
              [("company_name", "Acme")] "company") as (_ & _ & H & _); [..| exact H].
  intros r Hr. injection Hr as <-. reflexivity.
Defined.

(** The page as the browser opens it, with [storage] as its local storage. *)
Definition pm_opened (storage : list (string * string)) : pm_state :=
  mk_pm (mk_browser storage None false [] 0 []) JNull JNull [] [] [] None None [] [] false false [].

(** A login answer without the member [token]: the string "undefined" is
    stored. *)
Definition login_no_token : response :=
  mk_response 200 (Some (JObj [("access_token", JStr "abc")])).

Lemma construct_prompt_login_no_listeners_witness :
  session_view (@construct (backend_of (Some login_no_token)) (Some "a@b.co") (Some "secret1")
                  (pm_opened [])).2
  = (JUndef, JStr "undefined", false).
Proof.
  exact (@construct_prompt_login_no_listeners (backend_of (Some login_no_token)) (pm_opened [])
           "a@b.co" "secret1" login_no_token [("access_token", JStr "abc")]
           eq_refl eq_refl ltac:(discriminate) ltac:(discriminate) eq_refl eq_refl eq_refl).
Defined.

Lemma construct_with_token_witness :
  session_view (@construct (backend_of None) None None (pm_opened [("authToken", "tok")])).2
  = (JStr "tok", JStr "tok", true).
Proof.
  destruct (@construct_with_token (backend_of None) (pm_opened [("authToken", "tok")]) None None "tok")
    as [H _]; [..| exact H]; concrete.
Defined.

Definition score_response : response :=
  mk_response 200 (Some (JObj [("readiness_score", JNum (num_of_Z 55))])).

Lemma recalculateScore_without_profile_witness :
  pm_profile (@recalculateScore (backend_of (Some score_response)) (pm_empty (JStr "tok"))).2 = JNull.
Proof.
  destruct (@recalculateScore_without_profile (backend_of (Some score_response)) (pm_empty (JStr "tok"))
              score_response [("readiness_score", JNum (num_of_Z 55))]) as [H _]; [..| exact H]; concrete.
Defined.
