(* ===== verification/Regex.v ===== *)
(** The regular expression of [validateEmail], script.js lines 219-222.

    [RegExp.prototype.test] is given a reference semantics, the inductive
    [matches] of a small regular-expression syntax, and an executable
    matcher by Brzozowski derivatives, [re_match]; [re_match_correct]
    shows that the two agree.  [validateEmail] runs the matcher on the
    pattern [/^[^\s@]+@[^\s@]+\.[^\s@]+$/], and [validateEmail_spec]
    characterises the strings it accepts. *)

From S2P Require Import Prelude JsNum.

(** ** Syntax and reference semantics *)

Inductive regex : Type :=
| RNone
| REps
| RClass (p : ascii -> bool)        (** a character class, [.] or [[^...]] or one character *)
| RAlt (r1 r2 : regex)
| RSeq (r1 r2 : regex)
| RStar (r : regex).

Definition RPlus (r : regex) : regex := RSeq r (RStar r).
Definition RChar (c : ascii) : regex := RClass (fun d => bool_decide (d = c)).

Inductive matches : regex -> list ascii -> Prop :=
| m_eps : matches REps []
| m_class p c : p c = true -> matches (RClass p) [c]
| m_altl r1 r2 w : matches r1 w -> matches (RAlt r1 r2) w
| m_altr r1 r2 w : matches r2 w -> matches (RAlt r1 r2) w
| m_seq r1 r2 w1 w2 : matches r1 w1 -> matches r2 w2 -> matches (RSeq r1 r2) (w1 ++ w2)
| m_star_nil r : matches (RStar r) []
| m_star_cons r w1 w2 : matches r w1 -> matches (RStar r) w2 -> matches (RStar r) (w1 ++ w2).

#[export] Hint Constructors matches : tih.

(** ** The matcher *)

Fixpoint nullable (r : regex) : bool :=
  match r with
  | RNone | RClass _ => false
  | REps | RStar _ => true
  | RAlt r1 r2 => nullable r1 || nullable r2
  | RSeq r1 r2 => nullable r1 && nullable r2
  end.

Fixpoint deriv (c : ascii) (r : regex) : regex :=
  match r with
  | RNone | REps => RNone
  | RClass p => if p c then REps else RNone
  | RAlt r1 r2 => RAlt (deriv c r1) (deriv c r2)
  | RSeq r1 r2 =>
      if nullable r1 then RAlt (RSeq (deriv c r1) r2) (deriv c r2) else RSeq (deriv c r1) r2
  | RStar r1 => RSeq (deriv c r1) (RStar r1)
  end.

Fixpoint re_match (r : regex) (w : list ascii) : bool :=
  match w with
  | [] => nullable r
  | c :: w' => re_match (deriv c r) w'
  end.

(** ** The pattern of [validateEmail] *)

(** [[^\s@]]: [\s] on the characters the model has (see [is_js_space]). *)
Definition not_space_at (c : ascii) : bool := negb (is_js_space c) && negb (bool_decide (c = "@"%char)).

Definition email_regex : regex :=
  RSeq (RPlus (RClass not_space_at))
    (RSeq (RChar "@") (RSeq (RPlus (RClass not_space_at)) (RSeq (RChar ".") (RPlus (RClass not_space_at))))).

(** [validateEmail(email)]: [^] and [$] anchor the pattern at both ends. *)
Definition validateEmail (email : string) : bool := re_match email_regex (list_ascii_of_string email).

(** ** Inversion of the semantics *)

Section Inversion.
Implicit Types (r : regex) (w : list ascii).

Lemma matches_none w : ~ matches RNone w.
Proof. inversion 1. Qed.

Lemma matches_eps_inv w : matches REps w -> w = [].
Proof. by inversion 1. Qed.

Lemma matches_class_inv p w : matches (RClass p) w -> exists c, w = [c] /\ p c = true.
Proof. inversion 1; eauto. Qed.

Lemma matches_alt_inv r1 r2 w : matches (RAlt r1 r2) w -> matches r1 w \/ matches r2 w.
Proof. inversion 1; auto. Qed.

Lemma matches_seq_inv r1 r2 w :
  matches (RSeq r1 r2) w -> exists w1 w2, w = w1 ++ w2 /\ matches r1 w1 /\ matches r2 w2.
Proof. inversion 1; eauto. Qed.

(** A starred match of a non-empty word starts with a non-empty match of
    the body. *)
Lemma matches_star_cons_inv r c w :
  matches (RStar r) (c :: w) ->
  exists w1 w2, w = w1 ++ w2 /\ matches r (c :: w1) /\ matches (RStar r) w2.
Proof.
  intros H. remember (RStar r) as rs eqn:Er. remember (c :: w) as l eqn:El.
  revert w El. induction H as [| | | |r1 r2 w1 w2 H1 _ H2 _|r0|r0 w1 w2 H1 _ H2 IH2];
    intros w0 El; try discriminate.
  injection Er as ->. destruct w1 as [|c' w1]; cbn in El.
  - by apply IH2.
  - injection El as -> <-. eauto.
Qed.
End Inversion.

(** ** Correctness of the matcher *)

Lemma nullable_correct r : nullable r = true <-> matches r [].
Proof.
  induction r as [| |p|r1 IH1 r2 IH2|r1 IH1 r2 IH2|r1 IH1]; cbn; split; intros H;
    try done; auto with tih.
  - by apply matches_none in H.
  - by destruct (matches_class_inv _ _ H) as (c & ? & _).
  - apply orb_true_iff in H as [H|H]; [apply m_altl, IH1, H|apply m_altr, IH2, H].
  - apply orb_true_iff. apply matches_alt_inv in H as [H|H]; [left; by apply IH1|right; by apply IH2].
  - apply andb_true_iff in H as [H1 H2]. apply (m_seq _ _ [] []); [by apply IH1|by apply IH2].
  - apply andb_true_iff. destruct (matches_seq_inv _ _ _ H) as (w1 & w2 & Hw & H1 & H2).
    symmetry in Hw. apply app_eq_nil in Hw as [-> ->]. split; [by apply IH1|by apply IH2].
Qed.

Lemma deriv_correct r : forall c w, matches (deriv c r) w <-> matches r (c :: w).
Proof.
  induction r as [| |p|r1 IH1 r2 IH2|r1 IH1 r2 IH2|r1 IH1]; intros c w; cbn.
  - split; intros H; by apply matches_none in H.
  - split; intros H; [by apply matches_none in H|by apply matches_eps_inv in H].
  - destruct (p c) eqn:Hp; split; intros H.
    + apply matches_eps_inv in H as ->. by constructor.
    + destruct (matches_class_inv _ _ H) as (c' & Hc & _). injection Hc as -> ->. constructor.
    + by apply matches_none in H.
    + destruct (matches_class_inv _ _ H) as (c' & Hc & Hc'). injection Hc as -> ->. congruence.
  - split; intros H; apply matches_alt_inv in H as [H|H];
      [apply m_altl, IH1, H|apply m_altr, IH2, H|apply m_altl, IH1, H|apply m_altr, IH2, H].
  - assert (Hl : forall w1 w2, matches (deriv c r1) w1 -> matches r2 w2 ->
                 matches (RSeq r1 r2) (c :: w1 ++ w2)).
    { intros w1 w2 H1 H2. apply (m_seq _ _ (c :: w1) w2); [by apply IH1|done]. }
    split; intros H.
    + destruct (nullable r1) eqn:Hn; [apply matches_alt_inv in H as [H|H]|].
      * destruct (matches_seq_inv _ _ _ H) as (w1 & w2 & -> & H1 & H2). by apply Hl.
      * apply (m_seq _ _ [] (c :: w)); [by apply nullable_correct|by apply IH2].
      * destruct (matches_seq_inv _ _ _ H) as (w1 & w2 & -> & H1 & H2). by apply Hl.
    + destruct (matches_seq_inv _ _ _ H) as ([|c' w1] & w2 & Hw & H1 & H2); cbn in Hw.
      * subst w2. apply nullable_correct in H1 as ->. by apply m_altr, IH2.
      * injection Hw as -> ->. apply IH1 in H1.
        destruct (nullable r1); [apply m_altl|]; by apply m_seq.
  - split; intros H.
    + destruct (matches_seq_inv _ _ _ H) as (w1 & w2 & -> & H1 & H2).
      apply (m_star_cons _ (c :: w1) w2); [by apply IH1|done].
    + destruct (matches_star_cons_inv _ _ _ H) as (w1 & w2 & -> & H1 & H2).
      apply m_seq; [by apply IH1|done].
Qed.

(** The derivative matcher decides the reference semantics. *)
Theorem re_match_correct r w : re_match r w = true <-> matches r w.
Proof.
  revert r. induction w as [|c w IH]; intros r; cbn.
  - apply nullable_correct.
  - by rewrite IH, deriv_correct.
Qed.

(** ** What [validateEmail] accepts *)

Lemma matches_star_class p w :
  matches (RStar (RClass p)) w <-> Forall (fun c => p c = true) w.
Proof.
  split.
  - intros H. remember (RStar (RClass p)) as r eqn:Er. induction H; try discriminate; [done|].
    injection Er as ->. apply Forall_app. split; [|by apply IHmatches2].
    destruct (matches_class_inv _ _ H) as (c & -> & Hc). by constructor.
  - induction 1 as [|c w Hc _ IH]; [constructor|].
    apply (m_star_cons _ [c] w); [by constructor|done].
Qed.

Lemma matches_plus_class p w :
  matches (RPlus (RClass p)) w <-> w <> [] /\ Forall (fun c => p c = true) w.
Proof.
  unfold RPlus. split.
  - intros H. destruct (matches_seq_inv _ _ _ H) as (w1 & w2 & -> & H1 & H2).
    destruct (matches_class_inv _ _ H1) as (c & -> & Hc). split; [done|].
    constructor; [done|]. by apply matches_star_class.
  - intros [Hne Hall]. destruct w as [|c w]; [done|]. apply Forall_cons in Hall as [Hc Hall].
    apply (m_seq _ _ [c] w); [by constructor|by apply matches_star_class].
Qed.

Lemma matches_char_iff c w : matches (RChar c) w <-> w = [c].
Proof.
  split; [|intros ->; constructor; by apply bool_decide_true].
  intros H. destruct (matches_class_inv _ _ H) as (d & -> & Hd).
  by apply bool_decide_eq_true in Hd as ->.
Qed.

(** (C24) [validateEmail] accepts exactly the strings [a@b.c] with [a], [b] and
    [c] non-empty and free of white space and [@]; [b] and [c] may hold
    further dots, the match taking any of them. *)
Theorem validateEmail_spec email :
  validateEmail email = true <->
  exists a b c, list_ascii_of_string email = a ++ "@"%char :: b ++ "."%char :: c /\
    a <> [] /\ b <> [] /\ c <> [] /\ Forall (fun x => not_space_at x = true) (a ++ b ++ c).
Proof.
  unfold validateEmail, email_regex. rewrite re_match_correct.
  generalize (list_ascii_of_string email) as w. intros w. split.
  - intros H.
    destruct (matches_seq_inv _ _ _ H) as (a & w1 & -> & Ha & H1).
    destruct (matches_seq_inv _ _ _ H1) as (at_ & w2 & -> & Hat & H2).
    destruct (matches_seq_inv _ _ _ H2) as (b & w3 & -> & Hb & H3).
    destruct (matches_seq_inv _ _ _ H3) as (dot & c & -> & Hdot & Hc).
    apply matches_char_iff in Hat as ->. apply matches_char_iff in Hdot as ->.
    apply matches_plus_class in Ha as [Ha Fa], Hb as [Hb Fb], Hc as [Hc Fc].
    exists a, b, c. repeat split; try done. by rewrite !Forall_app.
  - intros (a & b & c & -> & Ha & Hb & Hc & Hall). rewrite !Forall_app in Hall.
    destruct Hall as (Fa & Fb & Fc).
    apply m_seq; [by apply matches_plus_class|].
    apply (m_seq _ _ ["@"%char]); [by apply matches_char_iff|].
    apply m_seq; [by apply matches_plus_class|].
    apply (m_seq _ _ ["."%char]); [by apply matches_char_iff|].
    by apply matches_plus_class.
Qed.

Example validateEmail_examples :
  validateEmail "user@example.co.za" = true /\ validateEmail "user@example" = false /\
  validateEmail "a b@c.d" = false /\ validateEmail "a@b@c.d" = false /\
  validateEmail "@b.c" = false /\ validateEmail "a@.c" = false.
Proof. vm_compute. repeat split. Qed.
