(* ===== verification/Timers.v ===== *)
(** The browser's event loop for [setTimeout] callbacks, shared by the
    pages.

    A page gives the callbacks it queues as a type [A] and how the browser
    runs one, [run].  [advance run t] fires, earliest first, the callbacks
    due at or before [t]; a callback that throws is reported and the next
    one still runs; once the page has navigated away ([location] set)
    nothing more runs.  On the login page no callback queues a timer, so
    one step per pending callback is enough: [advance] is [advance_fuel]
    with that many steps, and the lemmas of [Props] take as hypothesis
    that the callbacks leave the queue alone ([run_timers]); the
    dashboard's search continuation queues one, and its fuel comes from
    the weights of [advance_fuel_complete]. *)

From S2P Require Import Prelude JsNum JsObj Http.

Local Open Scope Z_scope.

Section EventLoop.
Context {St A : Type} `{BrowserLens St A} (run : A -> st St exn unit).

Fixpoint advance_fuel (fuel : nat) (t : Z) (s : St) : St :=
  match fuel with
  | O => s
  | S fuel' =>
      match timers (get_br s) with
      | (d, a) :: q =>
          if (d <=? t) && negb (bool_decide (location (get_br s) <> None)) then
            advance_fuel fuel' t (run a (put_br (set_clock d (set_timers q (get_br s))) s)).2
          else put_br (set_clock (Z.max t (clock (get_br s))) (get_br s)) s
      | [] => put_br (set_clock (Z.max t (clock (get_br s))) (get_br s)) s
      end
  end.

Definition advance (t : Z) (s : St) : St := advance_fuel (S (length (timers (get_br s)))) t s.

Definition loc (s : St) : option string := location (get_br s).
Definition queue (s : St) : list (Z * A) := timers (get_br s).

Section Props.
Hypothesis run_timers : forall a, preserves queue (run a).

(** One firing: the head callback runs on the page with the rest of the
    queue. *)
Lemma fire_queue a d q s : queue (run a (put_br (set_clock d (set_timers q (get_br s))) s)).2 = q.
Proof. rewrite run_timers. unfold queue. by rewrite get_put. Qed.

Lemma fire_loc d q s : loc (put_br (set_clock d (set_timers q (get_br s))) s) = loc s.
Proof. unfold loc. by rewrite get_put. Qed.

Lemma stop_loc t s : loc (put_br (set_clock t (get_br s)) s) = loc s.
Proof. unfold loc. by rewrite get_put. Qed.

Lemma stop_queue t s : queue (put_br (set_clock t (get_br s)) s) = queue s.
Proof. unfold queue. by rewrite get_put. Qed.

(** The browser updates of the loop itself: the clock moves and the
    queue loses its head. *)
Definition loop_update (P : St -> Prop) : Prop :=
  (forall t q s, P s -> P (put_br (set_clock t (set_timers q (get_br s))) s)) /\
  (forall t s, P s -> P (put_br (set_clock t (get_br s)) s)).

(** What every callback and the loop's own updates keep is kept by time
    passing. *)
Lemma advance_fuel_keeps (P : St -> Prop) n t s :
  (forall a s, P s -> P (run a s).2) -> loop_update P -> P s -> P (advance_fuel n t s).
Proof.
  intros Ha [Hf Hst]. revert s. induction n as [|n IH]; intros s Hs; cbn [advance_fuel]; [done|].
  destruct (timers (get_br s)) as [|[d a] q]; [by apply Hst|].
  case_match; [|by apply Hst]. apply IH, Ha, Hf, Hs.
Qed.

Lemma advance_fuel_view {X} (f : St -> X) n t s :
  (forall a, preserves f (run a)) ->
  (forall t q s, f (put_br (set_clock t (set_timers q (get_br s))) s) = f s) ->
  (forall t s, f (put_br (set_clock t (get_br s)) s) = f s) ->
  f (advance_fuel n t s) = f s.
Proof.
  intros Ha Hf Hst. apply (advance_fuel_keeps (fun s' => f s' = f s)); [|split|done].
  - intros a s' <-. apply Ha.
  - intros t' q s' <-. apply Hf.
  - intros t' s' <-. apply Hst.
Qed.

(** The queue stays in firing order. *)
Lemma advance_fuel_sorted n t s : tq_sorted (queue s) -> tq_sorted (queue (advance_fuel n t s)).
Proof.
  revert s. induction n as [|n IH]; intros s Hs; cbn [advance_fuel]; [done|].
  destruct (timers (get_br s)) as [|[d a] q] eqn:Hq; [by rewrite stop_queue|].
  case_match; [|by rewrite stop_queue].
  apply IH. rewrite fire_queue. unfold queue in Hs. rewrite Hq in Hs. by apply tq_sorted_tail in Hs.
Qed.

(** After a navigation the page is inert. *)
Lemma advance_fuel_gone n t s l : loc s = Some l -> loc (advance_fuel n t s) = Some l.
Proof.
  unfold loc. intros Hl. destruct n as [|n]; cbn [advance_fuel]; [done|].
  destruct (timers (get_br s)) as [|[d a] q]; [by rewrite get_put|].
  rewrite Hl, bool_decide_true by done. rewrite andb_false_r. by rewrite get_put.
Qed.

(** Callbacks that do not navigate leave the page where it is. *)
Lemma advance_fuel_stays n t s :
  (forall d a, (d, a) ∈ queue s -> preserves loc (run a)) -> loc (advance_fuel n t s) = loc s.
Proof.
  revert s. induction n as [|n IH]; intros s Hq; cbn [advance_fuel]; [done|].
  unfold queue in Hq. destruct (timers (get_br s)) as [|[d a] q] eqn:Hts; [apply stop_loc|].
  case_match; [|apply stop_loc].
  rewrite IH.
  - rewrite (Hq d a) by (rewrite ?Hts; by left). apply fire_loc.
  - intros d' a' Hin. rewrite fire_queue in Hin. apply (Hq d'). rewrite ?Hts. by right.
Qed.

(** The head of the queue is due no later than any callback in it. *)
Lemma head_due d0 (a0 : A) q d (a : A) t :
  tq_sorted ((d0, a0) :: q) -> (d, a) ∈ (d0, a0) :: q -> d <= t -> d0 <= t.
Proof.
  intros Hs Hin Hd. apply elem_of_cons in Hin as [Heq|Hin]; [injection Heq as -> _; lia|].
  pose proof (tq_sorted_head _ _ _ _ Hs Hin). cbn in *. lia.
Qed.

(** A callback due by [t] runs before the clock reaches [t] when no
    callback before it navigates: what it establishes and every callback
    keeps holds at the end. *)
Lemma advance_fuel_fires (P : St -> Prop) n t s d a :
  tq_sorted (queue s) -> loc s = None ->
  (forall d' a', (d', a') ∈ queue s -> preserves loc (run a')) ->
  (d, a) ∈ queue s -> d <= t -> (length (queue s) < n)%nat ->
  (forall s, P (run a s).2) -> (forall a' s, P s -> P (run a' s).2) -> loop_update P ->
  P (advance_fuel n t s).
Proof.
  intros Hs Hl Hnav Hin Hd Hn Ha Hkeep Hb. revert s Hs Hl Hnav Hin Hn.
  induction n as [|n IH]; intros s Hs Hl Hnav Hin Hn; [lia|].
  cbn [advance_fuel]. unfold queue, loc in Hs, Hl, Hnav, Hin, Hn.
  destruct (timers (get_br s)) as [|[d0 a0] q] eqn:Hq; [by apply elem_of_nil in Hin|].
  rewrite Hl, (proj2 (Z.leb_le _ _) (head_due _ _ _ _ _ _ Hs Hin Hd)), bool_decide_false
    by congruence. cbn [andb negb].
  apply elem_of_cons in Hin as [Heq|Hin].
  - injection Heq as -> ->. by apply advance_fuel_keeps.
  - apply IH.
    + rewrite fire_queue. by apply tq_sorted_tail in Hs.
    + rewrite (Hnav d0 a0) by (rewrite ?Hq; by left). by rewrite get_put.
    + intros d' a' Hin'. rewrite fire_queue in Hin'. apply (Hnav d'). rewrite ?Hq. by right.
    + by rewrite fire_queue.
    + rewrite fire_queue. cbn in *. lia.
Qed.

(** A pending callback is still pending after time passes unless it ran:
    what its run establishes, and every callback and the loop keep, then
    holds. *)
Lemma advance_fuel_pending `{EqDecision A} (P : St -> Prop) n t s d a :
  (d, a) ∈ queue s -> (forall s, P (run a s).2) -> (forall a' s, P s -> P (run a' s).2) ->
  loop_update P ->
  P (advance_fuel n t s) \/ (d, a) ∈ queue (advance_fuel n t s).
Proof.
  intros Hin Ha Hkeep Hb. revert s Hin.
  induction n as [|n IH]; intros s Hin; cbn [advance_fuel]; [by right|].
  unfold queue in Hin. destruct (timers (get_br s)) as [|[d0 a0] q] eqn:Hq;
    [by apply elem_of_nil in Hin|].
  case_match.
  - destruct (decide ((d0, a0) = (d, a))) as [Heq|Hne].
    + injection Heq as -> ->. left. apply advance_fuel_keeps; [done|done|apply Ha].
    + apply IH. rewrite fire_queue. apply elem_of_cons in Hin as [?|?]; [congruence|done].
  - right. rewrite stop_queue. unfold queue. by rewrite Hq.
Qed.

(** A callback due after [t] is still pending when the clock reaches [t]. *)
Lemma advance_fuel_late n t s d a :
  (d, a) ∈ queue s -> t < d -> (d, a) ∈ queue (advance_fuel n t s).
Proof.
  intros Hin Hd. revert s Hin. induction n as [|n IH]; intros s Hin; cbn [advance_fuel]; [done|].
  unfold queue in Hin. destruct (timers (get_br s)) as [|[d0 a0] q] eqn:Hq;
    [by apply elem_of_nil in Hin|].
  destruct ((d0 <=? t) && _) eqn:Hfire.
  - apply andb_true_iff in Hfire as [Hd0%Z.leb_le _].
    apply IH. rewrite fire_queue.
    apply elem_of_cons in Hin as [Heq|?]; [injection Heq as -> ->; lia|done].
  - rewrite stop_queue. unfold queue. by rewrite Hq.
Qed.

(** Time passing only takes callbacks out of the queue. *)
Lemma advance_fuel_queue_sub n t s x : x ∈ queue (advance_fuel n t s) -> x ∈ queue s.
Proof.
  revert s. induction n as [|n IH]; intros s; cbn [advance_fuel]; [done|].
  unfold queue at 2. destruct (timers (get_br s)) as [|[d0 a0] q] eqn:Hq;
    [rewrite stop_queue; unfold queue; by rewrite Hq|].
  case_match; [|rewrite stop_queue; unfold queue; by rewrite Hq].
  intros Hin. apply IH in Hin. rewrite fire_queue in Hin. by right.
Qed.

(** With enough steps and callbacks that leave the clock alone, the clock
    reads [t] once time has passed until [t]. *)
Lemma advance_fuel_clock n t s :
  (forall a, preserves (fun s => clock (get_br s)) (run a)) ->
  clock (get_br s) <= t -> (length (queue s) < n)%nat ->
  clock (get_br (advance_fuel n t s)) = t.
Proof.
  intros Hc. revert s. induction n as [|n IH]; intros s Hle Hn; [lia|]. cbn [advance_fuel].
  unfold queue in Hn. destruct (timers (get_br s)) as [|[d0 a0] q] eqn:Hq.
  - rewrite get_put. cbn. lia.
  - destruct ((d0 <=? t) && _) eqn:Hfire.
    + apply andb_true_iff in Hfire as [Hd0%Z.leb_le _]. apply IH.
      * rewrite Hc, get_put. cbn. done.
      * rewrite fire_queue. cbn in Hn. lia.
    + rewrite get_put. cbn. lia.
Qed.

(** A navigation due by [t] has happened once the clock reaches [t], when
    it is the only callback that navigates. *)
Lemma advance_fuel_navigates `{EqDecision A} (nav : A) l n t s d :
  (forall s, loc (run nav s).2 = Some l) -> (forall a, a <> nav -> preserves loc (run a)) ->
  tq_sorted (queue s) -> loc s = None ->
  (d, nav) ∈ queue s -> d <= t -> (length (queue s) < n)%nat ->
  loc (advance_fuel n t s) = Some l.
Proof.
  intros Hnav Hother. revert s. induction n as [|n IH]; intros s Hs Hl Hin Hd Hn; [lia|].
  cbn [advance_fuel]. unfold queue, loc in Hs, Hl, Hin, Hn.
  destruct (timers (get_br s)) as [|[d0 a0] q] eqn:Hq; [by apply elem_of_nil in Hin|].
  rewrite Hl, (proj2 (Z.leb_le _ _) (head_due _ _ _ _ _ _ Hs Hin Hd)), bool_decide_false
    by congruence. cbn [andb negb].
  destruct (decide (a0 = nav)) as [->|Ha0].
  - apply advance_fuel_gone, Hnav.
  - apply IH.
    + rewrite fire_queue. by apply tq_sorted_tail in Hs.
    + rewrite (Hother a0 Ha0). unfold loc. by rewrite get_put.
    + rewrite fire_queue. apply elem_of_cons in Hin as [Heq|Hin]; [congruence|done].
    + done.
    + rewrite fire_queue. cbn in *. lia.
Qed.
End Props.

(** ** Termination: how much fuel is enough *)

(** Each callback has a weight bounding the callbacks it may still cause
    to run: the weight of the queue is their sum. *)
Definition weight (w : A -> nat) (q : list (Z * A)) : nat := sum_list (map (fun da => w da.2) q).

Lemma weight_cons w d a q : weight w ((d, a) :: q) = (w a + weight w q)%nat.
Proof. done. Qed.

Lemma weight_one q : weight (fun _ => 1%nat) q = length q.
Proof. induction q as [|[d a] q IH]; cbn; [done|]. unfold weight in IH. lia. Qed.

Lemma weight_tq_insert w d a q : weight w (tq_insert d a q) = (w a + weight w q)%nat.
Proof.
  induction q as [|[d' a'] q IH]; cbn; [done|].
  destruct (d <? d'); cbn; [done|]. unfold weight in IH |- *. cbn. lia.
Qed.

(** When firing a callback lowers the weight of the queue, fuel above the
    weight is enough: when [advance_fuel] stops, the page has navigated or
    every pending callback is due after [t]. *)
Lemma advance_fuel_complete (w : A -> nat) n t s :
  (forall a, keeps (fun s => tq_sorted (queue s)) (run a)) ->
  (forall a s, weight w (queue (run a s).2) < w a + weight w (queue s))%nat ->
  tq_sorted (queue s) -> (weight w (queue s) < n)%nat ->
  loc (advance_fuel n t s) <> None \/ (forall d a, (d, a) ∈ queue (advance_fuel n t s) -> t < d).
Proof.
  intros Hsort Hw. revert s. induction n as [|n IH]; intros s Hs Hn; [lia|].
  cbn [advance_fuel]. unfold queue in Hs, Hn.
  assert (Hstop : forall t', (forall d a, (d, a) ∈ timers (get_br s) -> t < d) ->
            forall d a, (d, a) ∈ queue (put_br (set_clock t' (get_br s)) s) -> t < d).
  { intros t' Hall d a. unfold queue. rewrite get_put. apply Hall. }
  destruct (timers (get_br s)) as [|[d0 a0] q] eqn:Hq.
  - right. apply Hstop. intros d a. rewrite ?Hq. by intros ?%elem_of_nil.
  - destruct (Z.leb_spec d0 t) as [Hd0|Hd0]; cbn [andb].
    + destruct (bool_decide (location (get_br s) <> None)) eqn:Hl; cbn [negb].
      * left. unfold loc. rewrite get_put. by apply bool_decide_eq_true in Hl.
      * apply IH.
        -- apply Hsort. unfold queue. rewrite get_put. by apply tq_sorted_tail in Hs.
        -- specialize (Hw a0 (put_br (set_clock d0 (set_timers q (get_br s))) s)).
           unfold queue at 2 in Hw. rewrite get_put in Hw. cbn in Hw, Hn. lia.
    + right. apply Hstop. intros d a. rewrite ?Hq.
      intros [Heq|Hin]%elem_of_cons; [injection Heq as -> _; lia|].
      pose proof (tq_sorted_head _ _ _ _ Hs Hin). cbn in *. lia.
Qed.
(** A callback due by [t] runs before the clock reaches [t], on a page
    whose callbacks never navigate and may queue further callbacks, when
    firing lowers the weight of the queue and the fuel is above it. *)
Lemma advance_fuel_fires_growing (w : A -> nat) (P : St -> Prop) n t s d a :
  (forall a, keeps (fun s => tq_sorted (queue s)) (run a)) ->
  (forall a s x, x ∈ queue s -> x ∈ queue (run a s).2) ->
  (forall a s, weight w (queue (run a s).2) < w a + weight w (queue s))%nat ->
  (forall a, preserves loc (run a)) ->
  tq_sorted (queue s) -> loc s = None ->
  (d, a) ∈ queue s -> d <= t -> (weight w (queue s) < n)%nat ->
  (forall s, P (run a s).2) -> (forall a' s, P s -> P (run a' s).2) -> loop_update P ->
  P (advance_fuel n t s).
Proof.
  intros Hsort Hgrow Hw Hnav Hs Hl Hin Hd Hn Ha Hkeep Hb. revert s Hs Hl Hin Hn.
  induction n as [|n IH]; intros s Hs Hl Hin Hn; [lia|].
  cbn [advance_fuel]. unfold queue, loc in Hs, Hl, Hin, Hn.
  destruct (timers (get_br s)) as [|[d0 a0] q] eqn:Hq; [by apply elem_of_nil in Hin|].
  rewrite Hl, (proj2 (Z.leb_le _ _) (head_due _ _ _ _ _ _ Hs Hin Hd)), bool_decide_false
    by congruence. cbn [andb negb].
  apply elem_of_cons in Hin as [Heq|Hin].
  - injection Heq as -> ->. by apply advance_fuel_keeps.
  - apply IH.
    + apply Hsort. unfold queue. rewrite get_put. by apply tq_sorted_tail in Hs.
    + rewrite Hnav. unfold loc. by rewrite get_put.
    + apply Hgrow. unfold queue. by rewrite get_put.
    + specialize (Hw a0 (put_br (set_clock d0 (set_timers q (get_br s))) s)).
      unfold queue at 2 in Hw. rewrite get_put in Hw. cbn in Hw, Hn. lia.
Qed.
End EventLoop.
