(* ===== verification/Auth.v ===== *)
(** The login page, [src/phase 2/frontend/script.js].

    The page's state is the Record [auth_state]: the browser (storage,
    location, requests sent, clock and pending [setTimeout] callbacks), the
    message banner, the loading spinner, the visible form and the value of
    the login e-mail field.  Each function of the script is a definition in
    the state-and-exception monad of the prelude, composed the way the
    script composes them; the listeners are the cases of [auth_event] and
    [auth_step] dispatches them.  The three callbacks the script passes to
    [setTimeout] are the constructors of [auth_timer], and [advance] fires
    the due ones in order.  Once the page has navigated away
    ([location] set), further events and callbacks are inert. *)

From S2P Require Import Prelude JsNum JsObj Http Regex Timers.

Local Open Scope Z_scope.

Module LoginPage.

(** ** The page state *)

(** The callbacks given to [setTimeout]: lines 53-55, 118-120, 138-142. *)
Inductive auth_timer : Type :=
| THideMessage                       (** [() => { hideMessage(); }] *)
| TGotoDashboard                     (** [() => { window.location.href = 'dashboard.html'; }] *)
| TSwitchToLogin (email : string).   (** [() => { showTab('login'); ...value = userData.email; }] *)

#[export] Instance auth_timer_eq_dec : EqDecision auth_timer.
Proof. solve_decision. Defined.

Record auth_state : Type := mk_auth {
  au_br : browser auth_timer;
  au_message : string;        (** [message.textContent] *)
  au_msg_type : string;       (** the type in [message.className] *)
  au_msg_hidden : bool;       (** [message] has the class [hidden] *)
  au_loading : bool;          (** the spinner shows and the forms are hidden *)
  au_tab : string;            (** the form with the class [active] *)
  au_login_email : string     (** [#loginEmail].value *)
}.

#[export] Instance auth_lens : BrowserLens auth_state auth_timer.
Proof.
  refine {| get_br := au_br;
            put_br := fun b s => mk_auth b (au_message s) (au_msg_type s) (au_msg_hidden s)
                                   (au_loading s) (au_tab s) (au_login_email s) |};
    by intros; try destruct s.
Defined.

Abbreviation AU := (st auth_state exn).

Definition set_au_br (b : browser auth_timer) (s : auth_state) : auth_state :=
  mk_auth b (au_message s) (au_msg_type s) (au_msg_hidden s) (au_loading s) (au_tab s)
          (au_login_email s).
Definition set_message (text ty : string) (s : auth_state) : auth_state :=
  mk_auth (au_br s) text ty false (au_loading s) (au_tab s) (au_login_email s).
Definition set_hidden (s : auth_state) : auth_state :=
  mk_auth (au_br s) (au_message s) (au_msg_type s) true (au_loading s) (au_tab s)
          (au_login_email s).
Definition set_spinner (b : bool) (s : auth_state) : auth_state :=
  mk_auth (au_br s) (au_message s) (au_msg_type s) (au_msg_hidden s) b (au_tab s)
          (au_login_email s).
Definition set_tab (t : string) (s : auth_state) : auth_state :=
  mk_auth (au_br s) (au_message s) (au_msg_type s) (au_msg_hidden s) (au_loading s) t
          (au_login_email s).
Definition set_login_email (v : string) (s : auth_state) : auth_state :=
  mk_auth (au_br s) (au_message s) (au_msg_type s) (au_msg_hidden s) (au_loading s) (au_tab s) v.

(** ** The functions of the script *)

(** [showTab(tabName)], lines 11-30.  The script reads the global [event]
    (line 26); [ev] says whether one is being dispatched.  Inside a timer
    callback there is none and [event.target] throws after the forms have
    been switched. *)
Definition showTab (tabName : string) (ev : bool) : AU unit :=
  st_modify (set_tab tabName) ;;;
  if ev then st_modify set_hidden
  else st_throw (JsTypeError "Cannot read properties of undefined (reading 'target')").

(** [showLoading()], lines 33-37, and [hideLoading()], lines 40-44. *)
Definition showLoading : AU unit := st_modify (set_spinner true).
Definition hideLoading : AU unit := st_modify (set_spinner false).

(** [hideMessage()], lines 59-61. *)
Definition hideMessage : AU unit := st_modify set_hidden.

(** [showMessage(text, type)], lines 47-56: the banner shows [text] and a
    callback to hide it is queued 5000 ms ahead. *)
Definition showMessage (text ty : string) : AU unit :=
  st_modify (set_message text ty) ;;;
  br_modify (setTimeout THideMessage 5000).

(** [login(email, password)], lines 107-125. *)
Definition login `{Backend} (email password : string) : AU unit :=
  st_catch
    (let* data := on_br (AuthApi.makeRequest "/api/auth/login"
                           (mk_options (Some "POST")
                              (Some (JObj [("email", JStr email); ("password", JStr password)])) [])) in
     let* token := st_lift (js_member data "access_token") in
     on_br (AuthApi.storeToken token) ;;;
     showMessage "Login successful! Redirecting..." "success" ;;;
     br_modify (setTimeout TGotoDashboard 2000))
    (fun e => showMessage ("Login failed: " +:+ exn_message e) "error").

(** The object [userData] of the register form, lines 175-180. *)
Record user_data : Type := mk_user {
  ud_full_name : string;
  ud_email : string;
  ud_password : string;
  ud_role : string
}.

Definition user_json (u : user_data) : jsval :=
  JObj [("full_name", JStr (ud_full_name u)); ("email", JStr (ud_email u));
        ("password", JStr (ud_password u)); ("role", JStr (ud_role u))].

(** [register(userData)], lines 128-147. *)
Definition register `{Backend} (u : user_data) : AU unit :=
  st_catch
    (on_br (AuthApi.makeRequest "/api/auth/register"
              (mk_options (Some "POST") (Some (user_json u)) [])) ;;;
     showMessage "Registration successful! Please login." "success" ;;;
     br_modify (setTimeout (TSwitchToLogin (ud_email u)) 2000))
    (fun e => showMessage ("Registration failed: " +:+ exn_message e) "error").

(** The submit listener of [#loginForm], lines 150-169; [email] and
    [password] are the entries of the form. *)
Definition loginForm_submit `{Backend} (email password : string) : AU unit :=
  if bool_decide (email = "") || bool_decide (password = "") then
    showMessage "Please fill in all fields" "error"
  else
    showLoading ;;;
    st_finally (login email password) hideLoading.

(** The submit listener of [#registerForm], lines 171-199. *)
Definition registerForm_submit `{Backend} (u : user_data) : AU unit :=
  if bool_decide (ud_full_name u = "") || bool_decide (ud_email u = "")
     || bool_decide (ud_password u = "") then
    showMessage "Please fill in all required fields" "error"
  else if (String.length (ud_password u) <? 6)%nat then
    showMessage "Password must be at least 6 characters long" "error"
  else
    showLoading ;;;
    st_finally (register u) hideLoading.

(** The [DOMContentLoaded] listener, lines 202-216: a stored token is
    checked against [/api/auth/me]; the page moves to the dashboard when
    the check succeeds and forgets the token when it fails. *)
Definition DOMContentLoaded `{Backend} : AU unit :=
  let* token := br_read (getItem "access_token") in
  if js_truthy token then
    st_catch
      (on_br (AuthApi.makeRequest "/api/auth/me" no_options) ;;;
       br_modify (set_location "dashboard.html"))
      (fun _ => on_br AuthApi.clearToken)
  else st_ret tt.

(** The blur listener of [#registerEmail], lines 225-230 ([validateEmail]
    is in [Regex.v]). *)
Definition registerEmail_blur (email : string) : AU unit :=
  if negb (bool_decide (email = "")) && negb (validateEmail email) then
    showMessage "Please enter a valid email address" "error"
  else st_ret tt.

(** The input listener of [#registerPassword], lines 232-237. *)
Definition registerPassword_input (password : string) : AU unit :=
  if negb (bool_decide (password = "")) && (String.length password <? 6)%nat then
    showMessage "Password must be at least 6 characters long" "error"
  else st_ret tt.

(** ** Timers *)

(** A callback, as the browser runs it: no event is being dispatched. *)
Definition run_timer (t : auth_timer) : AU unit :=
  match t with
  | THideMessage => hideMessage
  | TGotoDashboard => br_modify (set_location "dashboard.html")
  | TSwitchToLogin email => showTab "login" false ;;; st_modify (set_login_email email)
  end.


(** ** The page as a transition system *)

Inductive auth_event : Type :=
| ELoginSubmit (email password : string)
| ERegisterSubmit (u : user_data)
| EShowTab (tabName : string)            (** a click on a tab button *)
| EEmailBlur (email : string)
| EPasswordInput (password : string)
| ELoaded
| EAdvance (t : Z).                      (** time passes until [t] *)

Definition handler `{Backend} (ev : auth_event) : AU unit :=
  match ev with
  | ELoginSubmit e p => loginForm_submit e p
  | ERegisterSubmit u => registerForm_submit u
  | EShowTab n => showTab n true
  | EEmailBlur e => registerEmail_blur e
  | EPasswordInput p => registerPassword_input p
  | ELoaded => DOMContentLoaded
  | EAdvance t => fun s => (Done tt, advance run_timer t s)
  end.

(** One event on the page: the handler runs to completion; an exception
    it throws is reported on the console and its effects stay. *)
Definition auth_step `{Backend} (ev : auth_event) (s : auth_state) : auth_state :=
  if bool_decide (location (au_br s) = None) then (handler ev s).2 else s.

Definition auth_init (storage : list (string * string)) : auth_state :=
  mk_auth (mk_browser storage None false [] 0 []) "" "info" true false "login" "".

(** The states the page can reach from a load with some stored data. *)
Inductive reachable `{Backend} : auth_state -> Prop :=
| reach_init st0 : reachable (auth_init st0)
| reach_step ev s : reachable s -> reachable (auth_step ev s).

(** ** Invariants of the page *)

Ltac au_simp :=
  cbn [set_au_br set_message set_hidden set_spinner set_tab set_login_email au_br au_message
       au_msg_type au_msg_hidden au_loading au_tab au_login_email get_br put_br auth_lens
       fst snd st_modify st_ret st_lift js_member js_truthy negb].

(** The pending callbacks are in firing order. *)
Definition timers_sorted (s : auth_state) : Prop := tq_sorted (timers (au_br s)).

Lemma keeps_sorted_setTimeout cb d : keeps timers_sorted (br_modify (setTimeout cb d)).
Proof. intros s Hs. apply tq_insert_sorted, Hs. Qed.

Lemma keeps_sorted_on_br {X} (c : st (browser auth_timer) exn X) :
  preserves timers c -> keeps timers_sorted (on_br c).
Proof. intros Hc s Hs. rewrite on_br_run. unfold timers_sorted. cbn. by rewrite Hc. Qed.

Lemma makeRequest_keeps_timers `{Backend} url options :
  preserves timers (AuthApi.makeRequest (A:=auth_timer) url options).
Proof. intros b. by rewrite auth_makeRequest_browser. Qed.

#[local] Hint Resolve keeps_sorted_setTimeout : tih_frame.
#[local] Hint Extern 1 (keeps timers_sorted (on_br _)) =>
  apply keeps_sorted_on_br; first [apply makeRequest_keeps_timers | preserves_auto] : tih_frame.

(** ** The callbacks in the event loop *)

(** No callback queues a timer. *)
Lemma run_timer_queue cb : preserves queue (run_timer cb).
Proof. destruct cb; unfold run_timer, hideMessage, showTab; [preserves_auto|by intros s..]. Qed.

Lemma run_timer_loc cb : cb <> TGotoDashboard -> preserves loc (run_timer cb).
Proof. destruct cb; unfold run_timer, hideMessage, showTab; [preserves_auto|done|by intros s]. Qed.

(** A pending navigation due by [t] has happened once the clock reaches
    [t], whatever callbacks fire before it. *)
Lemma advance_navigates t s d :
  timers_sorted s -> location (au_br s) = None -> (d, TGotoDashboard) ∈ timers (au_br s) -> d <= t ->
  location (au_br (advance run_timer t s)) = Some "dashboard.html".
Proof.
  intros. eapply (advance_fuel_navigates run_timer run_timer_queue TGotoDashboard); eauto.
  apply run_timer_loc.
Qed.

(** With no navigation pending, time passing keeps the page where it is. *)
Lemma advance_stays t s :
  (forall d, (d, TGotoDashboard) ∉ timers (au_br s)) ->
  location (au_br (advance run_timer t s)) = location (au_br s).
Proof.
  intros Hno. apply (advance_fuel_stays run_timer run_timer_queue).
  intros d a Hin. apply run_timer_loc. intros ->. by apply (Hno d).
Qed.

Section Invariants.
Context `{Backend}.

Lemma showMessage_keeps_sorted text ty : keeps timers_sorted (showMessage text ty).
Proof. unfold showMessage. keeps_auto. Qed.

Lemma run_timer_keeps_sorted cb : keeps timers_sorted (run_timer cb).
Proof. destruct cb; unfold run_timer, hideMessage, showTab; keeps_auto. Qed.



Lemma handler_keeps_sorted ev : keeps timers_sorted (handler ev).
Proof.
  destruct ev; cbn [handler].
  - unfold loginForm_submit, login, showLoading, hideLoading. keeps_auto;
      apply showMessage_keeps_sorted.
  - unfold registerForm_submit, register, showLoading, hideLoading. keeps_auto;
      apply showMessage_keeps_sorted.
  - unfold showTab. keeps_auto.
  - unfold registerEmail_blur. keeps_auto; apply showMessage_keeps_sorted.
  - unfold registerPassword_input. keeps_auto; apply showMessage_keeps_sorted.
  - unfold DOMContentLoaded, AuthApi.clearToken. keeps_auto.
  - intros s Hs. apply (advance_fuel_sorted run_timer run_timer_queue), Hs.
Qed.



Lemma showMessage_keeps_loading text ty : preserves au_loading (showMessage text ty).
Proof. unfold showMessage. preserves_auto. Qed.

Lemma showMessage_keeps_email text ty : preserves au_login_email (showMessage text ty).
Proof. unfold showMessage. preserves_auto. Qed.

(** The callback of the register timer throws before it fills the field. *)
Lemma run_timer_keeps_email cb : preserves au_login_email (run_timer cb).
Proof. destruct cb; unfold run_timer, hideMessage; [preserves_auto|preserves_auto|done]. Qed.

Lemma finally_hideLoading {X} (c : AU X) s : au_loading (st_finally c hideLoading s).2 = false.
Proof. unfold st_finally, hideLoading, st_modify. by destruct (c s). Qed.

Lemma handler_loading ev s : au_loading s = false -> au_loading (handler ev s).2 = false.
Proof.
  intros Hs. destruct ev; cbn [handler].
  - unfold loginForm_submit. case_match; [by rewrite showMessage_keeps_loading|].
    unfold showLoading. rewrite st_bind_modify. apply finally_hideLoading.
  - unfold registerForm_submit. repeat case_match; try by rewrite showMessage_keeps_loading.
    unfold showLoading. rewrite st_bind_modify. apply finally_hideLoading.
  - exact Hs.
  - unfold registerEmail_blur. case_match; [by rewrite showMessage_keeps_loading|done].
  - unfold registerPassword_input. case_match; [by rewrite showMessage_keeps_loading|done].
  - revert s Hs. apply (keeps_of_preserves au_loading (fun b => b = false)).
    unfold DOMContentLoaded, AuthApi.clearToken. preserves_auto.
  - cbn [snd]. unfold advance. rewrite (advance_fuel_view run_timer au_loading);
      [done| |done|done].
    intros []; unfold run_timer, hideMessage, showTab; preserves_auto.
Qed.

Lemma handler_keeps_email ev : preserves au_login_email (handler ev).
Proof.
  destruct ev; cbn [handler].
  - unfold loginForm_submit, login, showLoading, hideLoading. preserves_auto;
      apply showMessage_keeps_email.
  - unfold registerForm_submit, register, showLoading, hideLoading. preserves_auto;
      apply showMessage_keeps_email.
  - unfold showTab. preserves_auto.
  - unfold registerEmail_blur. preserves_auto; apply showMessage_keeps_email.
  - unfold registerPassword_input. preserves_auto; apply showMessage_keeps_email.
  - unfold DOMContentLoaded, AuthApi.clearToken. preserves_auto.
  - intros s. cbn [snd]. unfold advance.
    apply (advance_fuel_view run_timer); [apply run_timer_keeps_email|done|done].
Qed.

(** (C5) Every state the login page reaches has the spinner hidden (each
    handler that shows it hides it in a [finally]), its pending callbacks in
    firing order, and an empty login e-mail field: the callback that should
    fill it after a registration throws first. *)
Theorem reachable_invariant s :
  reachable s ->
  au_loading s = false /\ timers_sorted s /\ au_login_email s = "".
Proof.
  induction 1 as [st0|ev s _ (Hl & Hs & He)]; [repeat split; constructor|].
  unfold auth_step. case_bool_decide; [|done].
  split; [by apply handler_loading|]. split; [by apply handler_keeps_sorted|].
  by rewrite handler_keeps_email.
Qed.
End Invariants.

(** The event loop terminates with every due callback fired: after
    [advance t], unless the page has navigated away, every callback still
    pending is due after [t] (one step per pending callback is enough,
    as no callback of the login page queues another). *)
Theorem advance_fires_all s t :
  timers_sorted s ->
  location (au_br (advance run_timer t s)) <> None \/
  (forall d a, (d, a) ∈ timers (au_br (advance run_timer t s)) -> t < d).
Proof.
  intros Hs. unfold advance.
  refine (advance_fuel_complete run_timer (fun _ => 1%nat) _ t s _ _ Hs _).
  - apply run_timer_keeps_sorted.
  - intros a s'. rewrite run_timer_queue. cbn. lia.
  - rewrite weight_one. unfold queue. lia.
Qed.












(** ** Liveness: every message is hidden in time *)

(** A visible message on the page has a pending callback that hides it. *)
Definition hide_pending (s : auth_state) : Prop :=
  location (au_br s) = None -> au_msg_hidden s = false ->
  exists d, (d, THideMessage) ∈ timers (au_br s).

(** A browser step that may navigate and queue callbacks but drops none. *)
Definition br_grows {X} (c : st (browser auth_timer) exn X) : Prop :=
  forall b, location (c b).2 = None ->
            location b = None /\ forall x, x ∈ timers b -> x ∈ timers (c b).2.

Lemma keeps_pending_on_br {X} (c : st (browser auth_timer) exn X) :
  br_grows c -> keeps hide_pending (on_br c).
Proof.
  intros Hc s Hs. rewrite on_br_run. unfold hide_pending. cbn. intros Hl Hv.
  destruct (Hc (au_br s) Hl) as [Hl0 Hsub]. destruct (Hs Hl0 Hv) as [d Hd].
  exists d. by apply Hsub.
Qed.

Lemma br_grows_makeRequest `{Backend} url options : br_grows (AuthApi.makeRequest url options).
Proof. intros b. rewrite auth_makeRequest_browser. cbn. auto. Qed.
Lemma br_grows_modify (f : browser auth_timer -> browser auth_timer) :
  (forall b, location (f b) = None -> location b = None /\ forall x, x ∈ timers b -> x ∈ timers (f b)) ->
  br_grows (st_modify f).
Proof. done. Qed.

Ltac br_grows_tac :=
  first [ apply br_grows_makeRequest
        | apply br_grows_modify; intros ?; cbn;
          first [ discriminate
                | split; [done|intros; by apply tq_insert_elem_other]
                | split; [done|auto] ] ].

#[local] Hint Extern 1 (keeps hide_pending (on_br _)) =>
  apply keeps_pending_on_br; br_grows_tac : tih_frame.
#[local] Hint Extern 1 (keeps hide_pending (br_modify _)) =>
  unfold br_modify; apply keeps_pending_on_br; br_grows_tac : tih_frame.

Lemma showMessage_pending text ty : keeps hide_pending (showMessage text ty).
Proof.
  intros s _. unfold showMessage. rewrite st_bind_modify. unfold br_modify. rewrite on_br_run.
  intros _ _. eexists. cbn. apply tq_insert_elem.
Qed.

Lemma hideMessage_pending : keeps hide_pending hideMessage.
Proof. intros s Hs Hl Hv. unfold hideMessage in *. cbn in *. first [discriminate | exact (Hs Hl Hv)]. Qed.

#[local] Hint Resolve showMessage_pending hideMessage_pending : tih_frame.

Lemma run_timer_hidden cb : keeps (fun s => au_msg_hidden s = true) (run_timer cb).
Proof.
  intros s Hs. destruct cb; cbn [run_timer]; [done| |].
  - unfold br_modify. rewrite on_br_run. exact Hs.
  - unfold showTab, st_bind, st_modify, st_throw. cbn. first [exact Hs | reflexivity].
Qed.

Lemma hidden_loop : loop_update (fun s : auth_state => au_msg_hidden s = true).
Proof. split; intros; assumption. Qed.

Lemma advance_pending t : keeps hide_pending (fun s => (@Done exn unit tt, advance run_timer t s)).
Proof.
  intros s0 Hs Hl Hv. cbn [snd] in *. unfold advance in *. cbn [get_br auth_lens] in *.
  destruct (location (au_br s0)) as [l|] eqn:Hl0.
  { pose proof (advance_fuel_gone run_timer (S (length (timers (au_br s0)))) t s0 l Hl0) as Hg.
    unfold loc in Hg. cbn in Hg, Hl. congruence. }
  destruct (au_msg_hidden s0) eqn:Hh.
  { pose proof (advance_fuel_keeps run_timer (fun s => au_msg_hidden s = true)
                  (S (length (timers (au_br s0)))) t s0 run_timer_hidden hidden_loop Hh). congruence. }
  destruct (Hs Hl0 Hh) as [d Hd].
  destruct (advance_fuel_pending run_timer run_timer_queue (fun s => au_msg_hidden s = true)
              (S (length (timers (au_br s0)))) t s0 d THideMessage Hd)
    as [Hh'|Hq]; [by intros s; unfold run_timer, hideMessage| |apply hidden_loop| |].
  - intros a s. apply run_timer_hidden.
  - congruence.
  - by exists d.
Qed.

(** A hiding callback due by [t] has run once the clock reaches [t]
    (unless a callback due earlier navigated away). *)
Lemma advance_hides s d t :
  timers_sorted s -> (d, THideMessage) ∈ timers (au_br s) -> d <= t ->
  location (au_br (advance run_timer t s)) <> None \/ au_msg_hidden (advance run_timer t s) = true.
Proof.
  intros Hs Hd Ht. unfold advance.
  destruct (advance_fuel_pending run_timer run_timer_queue (fun s => au_msg_hidden s = true)
              (S (length (timers (au_br s)))) t s d THideMessage Hd)
    as [Hh|Hq]; [by intros s'; unfold run_timer, hideMessage|intros a s'; apply run_timer_hidden
                 |apply hidden_loop|by right|].
  destruct (advance_fuel_complete run_timer (fun _ => 1%nat) (S (length (timers (au_br s)))) t s)
    as [Hn|Hall]; [apply run_timer_keeps_sorted|intros a s'; rewrite run_timer_queue; cbn; lia
                   |exact Hs|rewrite weight_one; unfold queue; cbn [get_br auth_lens]; lia|left; exact Hn|].
  specialize (Hall d THideMessage Hq). lia.
Qed.

(** No callback moves the clock or changes the text of the banner. *)
Lemma run_timer_clock cb : preserves (fun s => clock (au_br s)) (run_timer cb).
Proof. destruct cb; unfold run_timer, hideMessage, showTab; [preserves_auto|by intros s..]. Qed.
Lemma run_timer_keeps_message cb : preserves au_message (run_timer cb).
Proof. destruct cb; unfold run_timer, hideMessage, showTab; [preserves_auto|by intros s..]. Qed.

(** Time passing until [t] sets the clock to [t]. *)
Lemma advance_clock t s : clock (au_br s) <= t -> clock (au_br (advance run_timer t s)) = t.
Proof.
  intros Hc. apply (advance_fuel_clock run_timer run_timer_queue); [apply run_timer_clock|done|].
  unfold queue. cbn [get_br auth_lens]. lia.
Qed.

(** [showMessage]: the banner shows the text, and its hiding callback is
    queued 5000 ms from now. *)
Lemma showMessage_state text ty s :
  (showMessage text ty s).2 = set_au_br (setTimeout THideMessage 5000 (au_br s)) (set_message text ty s).
Proof. reflexivity. Qed.

Section Liveness.
Context `{Backend}.

Lemma handler_pending ev : keeps hide_pending (handler ev).
Proof.
  destruct ev; cbn [handler]; [| | | | | |apply advance_pending];
    unfold loginForm_submit, login, registerForm_submit, register, showLoading, hideLoading,
      showTab, registerEmail_blur, registerPassword_input, DOMContentLoaded,
      AuthApi.storeToken, AuthApi.clearToken; keeps_auto.
Qed.

Lemma reachable_pending s : reachable s -> hide_pending s /\ timers_sorted s.
Proof.
  induction 1 as [st0|ev s _ [Hp Hs]].
  - split; [by intros _ ?|constructor].
  - unfold auth_step. case_bool_decide; [|done].
    split; [by apply handler_pending|by apply handler_keeps_sorted].
Qed.

(** (C6) Liveness of the message banner: a message visible on a page that
    has not navigated has a pending callback that hides it, due at some
    [d]; once the clock is advanced to [d] or later, the message is hidden
    (or a callback due earlier took the user to the dashboard). *)
Theorem message_eventually_hidden s :
  reachable s -> location (au_br s) = None -> au_msg_hidden s = false ->
  exists d, (d, THideMessage) ∈ timers (au_br s) /\
    forall t, d <= t ->
      location (au_br (auth_step (EAdvance t) s)) <> None \/
      au_msg_hidden (auth_step (EAdvance t) s) = true.
Proof.
  intros Hr Hl Hv. destruct (reachable_pending s Hr) as [Hp Hs].
  destruct (Hp Hl Hv) as [d Hd]. exists d. split; [done|]. intros t Ht.
  unfold auth_step. rewrite bool_decide_true by done. cbn [handler snd].
  by apply (advance_hides s d).
Qed.

End Liveness.

(** ** Logging in *)

Section Login.
Context `{Backend}.

Definition login_request (b : browser auth_timer) (email password : string) : request :=
  AuthApi.request_of (getItem "access_token" b) "/api/auth/login"
    (mk_options (Some "POST") (Some (JObj [("email", JStr email); ("password", JStr password)])) []).

Lemma on_br_makeRequest_ok url options s r v :
  respond (AuthApi.request_of (getItem "access_token" (au_br s)) url options) = Some r ->
  rs_ok r = true -> rs_body r = Some v ->
  on_br (AuthApi.makeRequest url options) s
  = (Done v, set_au_br (add_sent (AuthApi.request_of (getItem "access_token" (au_br s)) url options)
                          (au_br s)) s).
Proof. intros Hr Hok Hb. rewrite on_br_run. cbn [get_br auth_lens]. by erewrite auth_makeRequest_ok. Qed.

Lemma on_br_makeRequest_fails url options s :
  (forall r, respond (AuthApi.request_of (getItem "access_token" (au_br s)) url options) = Some r ->
             rs_ok r = false) ->
  exists e, on_br (AuthApi.makeRequest url options) s
  = (Thrown e, set_au_br (add_sent (AuthApi.request_of (getItem "access_token" (au_br s)) url options)
                            (au_br s)) s).
Proof.
  intros Hf. destruct (auth_makeRequest_fails url options (au_br s) Hf) as [e He].
  exists e. rewrite on_br_run. cbn [get_br auth_lens]. by rewrite He.
Qed.

(** The submit of a filled login form whose request succeeds. *)
Lemma loginForm_submit_ok email password s r data token :
  email <> "" -> password <> "" ->
  respond (login_request (au_br s) email password) = Some r -> rs_ok r = true ->
  rs_body r = Some data -> js_member data "access_token" = Done token ->
  loginForm_submit email password s
  = (Done tt,
     set_spinner false
       (set_au_br
          (setTimeout TGotoDashboard 2000
             (setTimeout THideMessage 5000
                (setItem "access_token" token (add_sent (login_request (au_br s) email password)
                                                  (au_br s)))))
          (set_message "Login successful! Redirecting..." "success" (set_spinner true s)))).
Proof.
  intros He Hp Hr Hok Hb Ht.
  unfold loginForm_submit. rewrite !bool_decide_false by done. cbn [orb].
  unfold showLoading, login. rewrite st_bind_modify. unfold st_finally, st_catch.
  rewrite (st_bind_done _ _ _ _ _ (on_br_makeRequest_ok _ _ (set_spinner true s) r data Hr Hok Hb)).
  rewrite Ht. reflexivity.
Qed.
Lemma loginForm_submit_fails email password s :
  email <> "" -> password <> "" ->
  (forall r, respond (login_request (au_br s) email password) = Some r -> rs_ok r = false) ->
  exists e, loginForm_submit email password s
  = (Done tt,
     set_spinner false
       (set_au_br (setTimeout THideMessage 5000 (add_sent (login_request (au_br s) email password)
                                                   (au_br s)))
          (set_message ("Login failed: " +:+ exn_message e) "error" (set_spinner true s)))).
Proof.
  intros He Hp Hf.
  destruct (on_br_makeRequest_fails "/api/auth/login"
              (mk_options (Some "POST") (Some (JObj [("email", JStr email); ("password", JStr password)])) [])
              (set_spinner true s) Hf) as [e Hm].
  exists e. unfold loginForm_submit. rewrite !bool_decide_false by done. cbn [orb].
  unfold showLoading, login. rewrite st_bind_modify. unfold st_finally, st_catch.
  rewrite (st_bind_thrown _ _ _ _ _ Hm). reflexivity.
Qed.



(** (C20) A failed login (spec, section 8): when the server answers with an
    error status or not at all, the page shows "Login failed: ..." as an
    error, stores nothing (the storage is unchanged) and, if no navigation
    was pending, it never navigates, however much time passes. *)
Theorem login_failure_stays s email password t :
  location (au_br s) = None -> email <> "" -> password <> "" ->
  (forall r, respond (login_request (au_br s) email password) = Some r -> rs_ok r = false) ->
  (forall d, (d, TGotoDashboard) ∉ timers (au_br s)) ->
  let s1 := auth_step (ELoginSubmit email password) s in
  au_msg_type s1 = "error" /\ (exists m, au_message s1 = "Login failed: " +:+ m) /\
  storage (au_br s1) = storage (au_br s) /\
  location (au_br (auth_step (EAdvance t) s1)) = None.
Proof.
  intros Hl He Hp Hf Hno s1. subst s1.
  destruct (loginForm_submit_fails email password s He Hp Hf) as [e Hs].
  assert (E1 : auth_step (ELoginSubmit email password) s = (loginForm_submit email password s).2).
  { unfold auth_step. by rewrite bool_decide_true. }
  rewrite E1, Hs. cbn [snd au_br au_message au_msg_type set_spinner set_au_br set_message].
  split; [done|]. split; [by eexists|]. split; [done|].
  unfold auth_step. cbn [au_br set_spinner set_au_br]. rewrite bool_decide_true by done.
  cbn [handler snd]. rewrite advance_stays; [done|].
  intros d Hin. apply tq_insert_elem_inv in Hin as [Heq|Hin]; [done|].
  by apply (Hno d).
Qed.

(** (C1) A successful login (spec, section 8): the token of the response is
    stored as a string, the success message shows, and once 2000 ms have
    passed the page has navigated to the dashboard, whatever other
    callbacks were pending.  A response without [access_token] stores the
    string "undefined". *)
Theorem login_success_navigates s email password r data token :
  timers_sorted s -> location (au_br s) = None -> email <> "" -> password <> "" ->
  respond (login_request (au_br s) email password) = Some r -> rs_ok r = true ->
  rs_body r = Some data -> js_member data "access_token" = Done token ->
  let s1 := auth_step (ELoginSubmit email password) s in
  getItem "access_token" (au_br s1) = JStr (js_to_string token) /\
  au_message s1 = "Login successful! Redirecting..." /\ location (au_br s1) = None /\
  location (au_br (auth_step (EAdvance (clock (au_br s) + 2000)) s1)) = Some "dashboard.html".
Proof.
  intros Hs Hl He Hp Hr Hok Hb Ht s1. subst s1.
  assert (E1 : auth_step (ELoginSubmit email password) s = (loginForm_submit email password s).2).
  { unfold auth_step. by rewrite bool_decide_true. }
  rewrite E1, (loginForm_submit_ok _ _ _ r data token) by done. cbn [snd au_br set_spinner set_au_br].
  split; [by autorewrite with tih_rw|]. split; [done|]. split; [done|].
  unfold auth_step. rewrite bool_decide_true by done. cbn [handler snd].
  eapply advance_navigates; [| |apply tq_insert_elem|done].
  - by apply tq_insert_sorted, tq_insert_sorted.
  - done.
Qed.
End Login.

(** ** Registration, validation and the token check *)

Section Register.
Context `{Backend}.

Lemma showMessage_keeps_sent text ty : preserves (fun s => sent (au_br s)) (showMessage text ty).
Proof. intros s. done. Qed.

(** (C23) The register form sends nothing unless the name, the e-mail and the
    password are filled in and the password has at least 6 characters.
    With a required field empty it shows the error "Please fill in all
    required fields"; with all filled in and a password shorter than 6
    characters it shows the error "Password must be at least 6 characters
    long". *)
Theorem registerForm_validation s u :
  (ud_full_name u = "" \/ ud_email u = "" \/ ud_password u = "" ->
   sent (au_br (registerForm_submit u s).2) = sent (au_br s) /\
   au_message (registerForm_submit u s).2 = "Please fill in all required fields" /\
   au_msg_type (registerForm_submit u s).2 = "error") /\
  (ud_full_name u <> "" -> ud_email u <> "" -> ud_password u <> "" ->
   (String.length (ud_password u) < 6)%nat ->
   sent (au_br (registerForm_submit u s).2) = sent (au_br s) /\
   au_message (registerForm_submit u s).2 = "Password must be at least 6 characters long" /\
   au_msg_type (registerForm_submit u s).2 = "error").
Proof.
  split.
  - intros Hbad. unfold registerForm_submit.
    replace (bool_decide (ud_full_name u = "") || _ || _) with true
      by (destruct Hbad as [E|[E|E]]; rewrite E; by rewrite ?orb_true_r).
    done.
  - intros H1 H2 H3 H6. unfold registerForm_submit.
    rewrite !bool_decide_false by done. cbn [orb].
    by rewrite (proj2 (Nat.ltb_lt _ _) H6).
Qed.

Definition me_request (b : browser auth_timer) : request :=
  AuthApi.request_of (getItem "access_token" b) "/api/auth/me" no_options.

(** (C25) On load with a stored token (spec, section 4.2): when
    [/api/auth/me] succeeds the page moves to the dashboard; when it fails
    in any way the token is removed silently (no message) and the page
    stays. *)
Theorem loaded_token_check s tok :
  location (au_br s) = None -> getItem "access_token" (au_br s) = JStr tok -> tok <> "" ->
  let s1 := auth_step ELoaded s in
  (forall r v, respond (me_request (au_br s)) = Some r -> rs_ok r = true -> rs_body r = Some v ->
               location (au_br s1) = Some "dashboard.html") /\
  ((forall r, respond (me_request (au_br s)) = Some r -> rs_ok r = false) ->
   getItem "access_token" (au_br s1) = JNull /\ location (au_br s1) = None /\
   au_message s1 = au_message s /\ au_msg_hidden s1 = au_msg_hidden s).
Proof.
  intros Hl Ht Htok s1. subst s1. unfold auth_step. rewrite bool_decide_true by done.
  cbn [handler]. unfold DOMContentLoaded. rewrite st_bind_br_read. cbn [get_br auth_lens].
  rewrite Ht. cbn [js_truthy]. rewrite bool_decide_false by done. cbn [negb].
  unfold st_catch. split.
  - intros r v Hr Hok Hb. rewrite (st_bind_done _ _ _ _ _ (on_br_makeRequest_ok _ _ _ r v Hr Hok Hb)).
    reflexivity.
  - intros Hf. destruct (on_br_makeRequest_fails "/api/auth/me" no_options s Hf) as [e He].
    rewrite (st_bind_thrown _ _ _ _ _ He). cbn.
    split; [apply getItem_removeItem|done].
Qed.
Definition register_request (b : browser auth_timer) (u : user_data) : request :=
  AuthApi.request_of (getItem "access_token" b) "/api/auth/register"
    (mk_options (Some "POST") (Some (user_json u)) []).

Lemma registerForm_submit_ok u s r v :
  ud_full_name u <> "" -> ud_email u <> "" -> ud_password u <> "" ->
  (6 <= String.length (ud_password u))%nat ->
  respond (register_request (au_br s) u) = Some r -> rs_ok r = true -> rs_body r = Some v ->
  registerForm_submit u s
  = (Done tt,
     set_spinner false
       (set_au_br
          (setTimeout (TSwitchToLogin (ud_email u)) 2000
             (setTimeout THideMessage 5000 (add_sent (register_request (au_br s) u) (au_br s))))
          (set_message "Registration successful! Please login." "success" (set_spinner true s)))).
Proof.
  intros H1 H2 H3 H6 Hr Hok Hb. unfold registerForm_submit.
  rewrite !bool_decide_false by done. cbn [orb].
  rewrite (proj2 (Nat.ltb_ge _ _) H6).
  unfold showLoading, register. rewrite st_bind_modify. unfold st_finally, st_catch.
  rewrite (st_bind_done _ _ _ _ _ (on_br_makeRequest_ok _ _ (set_spinner true s) r v Hr Hok Hb)).
  reflexivity.
Qed.





(** Every callback leaves the login tab shown once it is. *)
Lemma run_timer_keeps_tab cb s : au_tab s = "login" -> au_tab (run_timer cb s).2 = "login".
Proof. intros Hs. by destruct cb. Qed.

(** (C9) A successful registration (spec, section 4.2, says: switch to the
    login tab and pre-fill the e-mail after 2000 ms): 2000 ms later the
    login tab shows, but the e-mail field is not filled in, because the
    callback calls [showTab] outside an event and throws on [event.target]
    first. *)
Theorem register_switch_no_prefill s u r v :
  timers_sorted s -> location (au_br s) = None ->
  (forall d, (d, TGotoDashboard) ∉ timers (au_br s)) ->
  ud_full_name u <> "" -> ud_email u <> "" -> ud_password u <> "" ->
  (6 <= String.length (ud_password u))%nat ->
  respond (register_request (au_br s) u) = Some r -> rs_ok r = true -> rs_body r = Some v ->
  let s1 := auth_step (ERegisterSubmit u) s in
  let s2 := auth_step (EAdvance (clock (au_br s) + 2000)) s1 in
  au_message s1 = "Registration successful! Please login." /\
  au_tab s2 = "login" /\ au_login_email s2 = au_login_email s.
Proof.
  intros Hs Hl Hno H1 H2 H3 H6 Hr Hok Hb s1 s2.
  assert (E1 : s1 = (registerForm_submit u s).2).
  { subst s1. unfold auth_step. by rewrite bool_decide_true. }
  rewrite (registerForm_submit_ok u s r v) in E1 by done. cbn [snd] in E1.
  split; [by rewrite E1|].
  assert (E2 : s2 = advance run_timer (clock (au_br s) + 2000) s1).
  { subst s2. unfold auth_step. rewrite E1. cbn. by rewrite bool_decide_true. }
  split.
  - rewrite E2. unfold advance.
    apply (advance_fuel_fires run_timer run_timer_queue (fun s => au_tab s = "login") _ _ _
             (clock (au_br s) + 2000) (TSwitchToLogin (ud_email u))).
    + rewrite E1. by apply tq_insert_sorted, tq_insert_sorted.
    + by rewrite E1.
    + rewrite E1. intros d a Hin. apply run_timer_loc. intros ->. cbn in Hin.
      apply tq_insert_elem_inv in Hin as [Heq|Hin]; [done|].
      apply tq_insert_elem_inv in Hin as [Heq|Hin]; [done|]. by apply (Hno d).
    + rewrite E1. apply tq_insert_elem.
    + lia.
    + unfold queue. lia.
    + done.
    + apply run_timer_keeps_tab.
    + split; by intros.
  - rewrite E2, E1. unfold advance. rewrite (advance_fuel_view run_timer au_login_email);
      [done|apply run_timer_keeps_email|done|done].
Qed.

Lemma password_input_step s p :
  location (au_br s) = None -> p <> "" -> (String.length p < 6)%nat ->
  auth_step (EPasswordInput p) s
  = set_au_br (setTimeout THideMessage 5000 (au_br s))
      (set_message "Password must be at least 6 characters long" "error" s).
Proof.
  intros Hl Hp H6. unfold auth_step. rewrite bool_decide_true by done. cbn [handler].
  unfold registerPassword_input. rewrite bool_decide_false by done.
  by rewrite (proj2 (Nat.ltb_lt _ _) H6).
Qed.

Lemma email_blur_step s e :
  location (au_br s) = None -> e <> "" -> validateEmail e = false ->
  auth_step (EEmailBlur e) s
  = set_au_br (setTimeout THideMessage 5000 (au_br s))
      (set_message "Please enter a valid email address" "error" s).
Proof.
  intros Hl He Hv. unfold auth_step. rewrite bool_decide_true by done. cbn [handler].
  unfold registerEmail_blur. rewrite bool_decide_false by done. by rewrite Hv.
Qed.

Lemma advance_step s t :
  location (au_br s) = None -> auth_step (EAdvance t) s = advance run_timer t s.
Proof. intros Hl. unfold auth_step. by rewrite bool_decide_true. Qed.

(** (C11) The auto-hide timers are never cancelled: when a short password
    is typed at time [c] and an invalid e-mail is left [k] ms later
    ([0 < k < 5000]), the e-mail message that appears at [c + k] is hidden
    at [c + 5000] by the password message's callback, [5000 - k] ms after
    it appeared instead of 5000 ms. *)
Theorem message_hidden_early s p e k :
  reachable s -> location (au_br s) = None -> (forall d, (d, TGotoDashboard) ∉ timers (au_br s)) ->
  p <> "" -> (String.length p < 6)%nat -> e <> "" -> validateEmail e = false -> 0 < k < 5000 ->
  let c := clock (au_br s) in
  let s3 := auth_step (EEmailBlur e) (auth_step (EAdvance (c + k)) (auth_step (EPasswordInput p) s)) in
  let s4 := auth_step (EAdvance (c + 5000)) s3 in
  clock (au_br s3) = c + k /\
  au_message s3 = "Please enter a valid email address" /\ au_msg_hidden s3 = false /\
  au_message s4 = "Please enter a valid email address" /\ au_msg_hidden s4 = true.
Proof.
  intros Hr Hl Hno Hp H6 He Hv Hk c s3 s4.
  assert (Hr3 : reachable s3) by (do 3 apply reach_step; exact Hr).
  destruct (reachable_pending s3 Hr3) as [_ Hs3].
  subst s4 s3. rewrite (password_input_step s p Hl Hp H6) in *.
  set (s1 := set_au_br _ _) in *.
  assert (Hno1 : forall d, (d, TGotoDashboard) ∉ timers (au_br s1)).
  { intros d Hin. apply tq_insert_elem_inv in Hin as [Heq|Hin]; [done|by apply (Hno d)]. }
  assert (Hl2 : location (au_br (advance run_timer (c + k) s1)) = None).
  { rewrite advance_stays by done. exact Hl. }
  rewrite advance_step in * by exact Hl. rewrite email_blur_step in * by done.
  set (s2 := advance run_timer (c + k) s1) in *.
  assert (Hc2 : clock (au_br s2) = c + k) by (apply advance_clock; cbn; lia).
  assert (Hd2 : (c + 5000, THideMessage) ∈ timers (au_br s2)).
  { unfold s2, advance. apply (advance_fuel_late run_timer run_timer_queue); [apply tq_insert_elem|lia]. }
  set (s3 := set_au_br (setTimeout THideMessage 5000 (au_br s2)) _) in *.
  assert (Hl4 : location (au_br (advance run_timer (c + 5000) s3)) = None).
  { rewrite advance_stays; [exact Hl2|].
    intros d Hin. apply tq_insert_elem_inv in Hin as [Heq|Hin]; [done|].
    apply (advance_fuel_queue_sub run_timer run_timer_queue) in Hin. by apply (Hno1 d). }
  rewrite advance_step by exact Hl2.
  split; [exact Hc2|]. split; [done|]. split; [done|]. split.
  - unfold advance. by rewrite (advance_fuel_view run_timer au_message);
      [|apply run_timer_keeps_message|done|done].
  - destruct (advance_hides s3 (c + 5000) (c + 5000)) as [?|?];
      [exact Hs3|by apply tq_insert_elem_other|lia|done|done].
Qed.
End Register.

(** ** The theorems at concrete inputs *)

Definition resp_login_ok : response :=
  mk_response 200 (Some (JObj [("access_token", JStr "abc"); ("token_type", JStr "bearer")])).
Definition resp_created : response := mk_response 201 (Some (JObj [("id", JNum (num_of_Z 1))])).
Definition alice : user_data := mk_user "Alice" "alice@example.com" "secret1" "sme".
Definition page0 : auth_state := auth_init [].
Definition page_with_token : auth_state := auth_init [("access_token", "abc")].

Lemma reachable_invariant_witness :
  au_loading (@auth_step (backend_of (Some resp_login_ok)) (ELoginSubmit "alice@example.com" "secret1") page0)
  = false.
Proof.
  destruct (@reachable_invariant (backend_of (Some resp_login_ok)) _
              (reach_step (ELoginSubmit "alice@example.com" "secret1") _ (reach_init []))) as [Hl _].
  exact Hl.
Defined.

Lemma login_success_navigates_witness :
  location (au_br (@auth_step (backend_of (Some resp_login_ok)) (EAdvance 2000)
                     (@auth_step (backend_of (Some resp_login_ok))
                        (ELoginSubmit "alice@example.com" "secret1") page0)))
  = Some "dashboard.html".
Proof.
  destruct (@login_success_navigates (backend_of (Some resp_login_ok)) page0 "alice@example.com"
              "secret1" resp_login_ok (JObj [("access_token", JStr "abc"); ("token_type", JStr "bearer")])
              (JStr "abc")) as (_ & _ & _ & Hnav); [constructor|done..|].
  exact Hnav.
Defined.

Lemma login_failure_stays_witness :
  location (au_br (@auth_step (backend_of None) (EAdvance 10000)
                     (@auth_step (backend_of None) (ELoginSubmit "alice@example.com" "secret1") page0)))
  = None.
Proof.
  destruct (@login_failure_stays (backend_of None) page0 "alice@example.com" "secret1" 10000)
    as (_ & _ & _ & Hs); try done.
  intros r Hr. inversion Hr.
Defined.

Lemma registerForm_validation_witness :
  au_message (@registerForm_submit (backend_of (Some resp_created))
                (mk_user "Alice" "alice@example.com" "abc" "sme") page0).2
  = "Password must be at least 6 characters long".
Proof.
  destruct (@registerForm_validation (backend_of (Some resp_created)) page0
              (mk_user "Alice" "alice@example.com" "abc" "sme")) as [_ Hw].
  destruct Hw as (_ & Hm & _); [discriminate..|cbn; lia|].
  exact Hm.
Defined.

Lemma loaded_token_check_witness :
  location (au_br (@auth_step (backend_of (Some resp_login_ok)) ELoaded page_with_token))
  = Some "dashboard.html".
Proof.
  destruct (@loaded_token_check (backend_of (Some resp_login_ok)) page_with_token "abc")
    as [Hok _]; [done..|].
  by apply (Hok resp_login_ok (JObj [("access_token", JStr "abc"); ("token_type", JStr "bearer")])).
Defined.

Lemma register_switch_no_prefill_witness :
  au_login_email (@auth_step (backend_of (Some resp_created)) (EAdvance 2000)
                    (@auth_step (backend_of (Some resp_created)) (ERegisterSubmit alice) page0))
  = "".
Proof.
  destruct (@register_switch_no_prefill (backend_of (Some resp_created)) page0 alice resp_created
              (JObj [("id", JNum (num_of_Z 1))])) as (_ & _ & He);
    [constructor|done|by intros d Hd%elem_of_nil|done|done|done|cbn; lia|done|done|done|].
  exact He.
Defined.

Definition page_two_timers : auth_state :=
  (showMessage "Registration successful!" "success"
     (showMessage "Welcome" "info" page0).2).2.

Lemma advance_fires_all_witness :
  location (au_br (advance run_timer 6000 page_two_timers)) <> None \/
  (forall d a, (d, a) ∈ timers (au_br (advance run_timer 6000 page_two_timers)) -> 6000 < d).
Proof.
  apply advance_fires_all. unfold timers_sorted, tq_sorted.
  vm_compute (timers _).
  repeat constructor; cbn; lia.
Defined.

Definition page_short_password : auth_state :=
  @auth_step (backend_of None) (EPasswordInput "abc") page0.

Lemma message_eventually_hidden_witness :
  exists d, (d, THideMessage) ∈ timers (au_br page_short_password) /\
    forall t, d <= t ->
      location (au_br (@auth_step (backend_of None) (EAdvance t) page_short_password)) <> None \/
      au_msg_hidden (@auth_step (backend_of None) (EAdvance t) page_short_password) = true.
Proof.
  apply (@message_eventually_hidden (backend_of None) page_short_password).
  - apply reach_step, reach_init.
  - reflexivity.
  - reflexivity.
Defined.

Lemma message_hidden_early_witness :
  au_msg_hidden
    (@auth_step (backend_of None) (EAdvance 5000)
       (@auth_step (backend_of None) (EEmailBlur "nobody")
          (@auth_step (backend_of None) (EAdvance 3000)
             (@auth_step (backend_of None) (EPasswordInput "abc") page0)))) = true.
Proof.
  destruct (@message_hidden_early (backend_of None) page0 "abc" "nobody" 3000)
    as (_ & _ & _ & _ & Hh);
    [apply reach_init|reflexivity|intros d Hd; by apply elem_of_nil in Hd|discriminate
    |cbn; lia|discriminate|vm_compute; reflexivity|lia|exact Hh].
Defined.

End LoginPage.
