(* ===== verification/Dashboard.v ===== *)
(** The dashboard, [src/phase 2/frontend/dashboard.js].

    The page's state is the Record [db_state]: the browser, the user panel
    ([#userName], [#userRole] and its class), the message banner, whether
    the two modals are hidden, and the values of the team form.  The
    functions of the script are definitions in the state-and-exception
    monad; the listeners and the global functions the page's buttons call
    are the cases of [db_event], dispatched by [db_step].  [setTimeout]
    callbacks are [db_timer]: the banner's auto-hide and the continuation
    of the search handler after its 2000 ms pause; they run through the
    event loop of [Timers.v]. *)

From S2P Require Import Prelude JsNum JsObj Http Timers.

Local Open Scope Z_scope.

Module DashboardPage.

(** ** The page state *)

Inductive db_timer : Type :=
| DHideMessage        (** [() => { hideMessage(); }], line 78 *)
| DSearchResume.      (** the rest of the search handler after [await], lines 142-143 *)

#[export] Instance db_timer_eq_dec : EqDecision db_timer.
Proof. solve_decision. Defined.

Record db_state : Type := mk_db {
  db_br : browser db_timer;
  db_user_name : string;      (** [#userName].textContent *)
  db_user_role : string;      (** [#userRole].textContent *)
  db_role_class : string;     (** [#userRole].className *)
  db_message : string;
  db_msg_type : string;
  db_msg_hidden : bool;
  db_search_hidden : bool;    (** [#searchModal] has the class [hidden] *)
  db_team_hidden : bool;      (** [#teamModal] has the class [hidden] *)
  db_team : string * string * string  (** [#teamName], [#teamDescription], [#teamPlan] values *)
}.

#[export] Instance db_lens : BrowserLens db_state db_timer.
Proof.
  refine {| get_br := db_br;
            put_br := fun b s => mk_db b (db_user_name s) (db_user_role s) (db_role_class s)
                                   (db_message s) (db_msg_type s) (db_msg_hidden s)
                                   (db_search_hidden s) (db_team_hidden s) (db_team s) |};
    by intros; try destruct s.
Defined.

Abbreviation DB := (st db_state exn).

Definition set_user (name role cls : string) (s : db_state) : db_state :=
  mk_db (db_br s) name role cls (db_message s) (db_msg_type s) (db_msg_hidden s)
        (db_search_hidden s) (db_team_hidden s) (db_team s).
Definition set_user_name (name : string) (s : db_state) : db_state :=
  set_user name (db_user_role s) (db_role_class s) s.
Definition set_db_message (text ty : string) (s : db_state) : db_state :=
  mk_db (db_br s) (db_user_name s) (db_user_role s) (db_role_class s) text ty false
        (db_search_hidden s) (db_team_hidden s) (db_team s).
Definition set_db_hidden (s : db_state) : db_state :=
  mk_db (db_br s) (db_user_name s) (db_user_role s) (db_role_class s) (db_message s)
        (db_msg_type s) true (db_search_hidden s) (db_team_hidden s) (db_team s).
Definition set_modal (id : string) (hidden : bool) (s : db_state) : db_state :=
  mk_db (db_br s) (db_user_name s) (db_user_role s) (db_role_class s) (db_message s)
        (db_msg_type s) (db_msg_hidden s)
        (if bool_decide (id = "searchModal") then hidden else db_search_hidden s)
        (if bool_decide (id = "teamModal") then hidden else db_team_hidden s) (db_team s).
Definition set_team (v : string * string * string) (s : db_state) : db_state :=
  mk_db (db_br s) (db_user_name s) (db_user_role s) (db_role_class s) (db_message s)
        (db_msg_type s) (db_msg_hidden s) (db_search_hidden s) (db_team_hidden s) v.

(** Assigning a value to [textContent]: [null] and [undefined] give the
    empty string, anything else its string. *)
Definition dom_text (v : jsval) : string :=
  match v with JUndef | JNull => "" | _ => js_to_string v end.

(** [v.toUpperCase()] *)
Definition call_toUpperCase (v : jsval) : outcome exn jsval :=
  match v with
  | JStr s => Done (JStr (to_upper s))
  | JUndef => Thrown (JsTypeError "Cannot read properties of undefined (reading 'toUpperCase')")
  | JNull => Thrown (JsTypeError "Cannot read properties of null (reading 'toUpperCase')")
  | _ => Thrown (JsTypeError "userData.role.toUpperCase is not a function")
  end.

(** ** The functions of the script *)

(** [showMessage(text, type)], lines 72-81, and [hideMessage()], 84-86. *)
Definition showMessage (text ty : string) : DB unit :=
  st_modify (set_db_message text ty) ;;;
  br_modify (setTimeout DHideMessage 5000).

Definition hideMessage : DB unit := st_modify set_db_hidden.

(** [logout()], lines 89-92. *)
Definition logout : DB unit :=
  br_modify (removeItem "access_token") ;;;
  br_modify (set_location "index.html").

(** [checkAuthentication()], lines 16-22: [return] leaves this function
    only. *)
Definition checkAuthentication : DB unit :=
  let* token := br_read (getItem "access_token") in
  if negb (js_truthy token) then br_modify (set_location "index.html") else st_ret tt.

(** [loadUserInfo()], lines 25-35. *)
Definition loadUserInfo `{Backend} : DB unit :=
  st_catch
    (let* userData := on_br (DashboardApi.makeRequest "/api/auth/me" no_options) in
     let* name := st_lift (js_member userData "full_name") in
     st_modify (set_user_name (dom_text name)) ;;;
     let* role := st_lift (js_member userData "role") in
     let* upper := st_lift (call_toUpperCase role) in
     let* role' := st_lift (js_member userData "role") in
     st_modify (fun s => set_user (db_user_name s) (dom_text upper)
                                  ("role-badge role-" +:+ js_to_string role') s))
    (fun _ => showMessage "Failed to load user information" "error" ;;; logout).

(** The [DOMContentLoaded] listener, lines 10-13. *)
Definition DOMContentLoaded `{Backend} : DB unit := checkAuthentication ;;; loadUserInfo.

(** [showModal(id)] and [closeModal(id)], lines 95-101, for the two modals
    of the page. *)
Definition showModal (id : string) : DB unit := st_modify (set_modal id false).
Definition closeModal (id : string) : DB unit := st_modify (set_modal id true).

(** The submit listener of [#searchForm], lines 124-147, up to its
    [await]; the rest runs as the callback [DSearchResume]. *)
Definition searchForm_submit (keywords : string) : DB unit :=
  if bool_decide (js_trim keywords = "") then showMessage "Please enter search keywords" "error"
  else showMessage "Searching tenders..." "info" ;;;
       br_modify (setTimeout DSearchResume 2000).

(** The team object of lines 153-157. *)
Definition team_json (v : string * string * string) : jsval :=
  let '(name, description, plan) := v in
  JObj [("name", JStr name); ("description", JStr description); ("plan", JStr plan)].

(** The submit listener of [#teamForm], lines 150-179; [blank] is the
    value [reset()] restores. *)
Definition teamForm_submit `{Backend} (blank : string * string * string) : DB unit :=
  let* s := st_get in
  let '(name, _, _) := db_team s in
  if bool_decide (js_trim name = "") then showMessage "Please enter a team name" "error"
  else
    st_catch
      (let* result := on_br (DashboardApi.makeRequest "/api/teams/create"
                               (mk_options (Some "POST") (Some (team_json (db_team s))) [])) in
       let* n := st_lift (js_member result "name") in
       showMessage ("Team " +:+ String "034"%char (js_to_string n) +:+ String "034"%char
                    " created successfully!") "success" ;;;
       closeModal "teamModal" ;;;
       st_modify (set_team blank))
      (fun e => showMessage ("Failed to create team: " +:+ exn_message e) "error").

(** The [click] listener, lines 182-186; [modal] is the id of the clicked
    element when it has the class [modal]. *)
Definition document_click (modal : option string) : DB unit :=
  match modal with Some id => closeModal id | None => st_ret tt end.

(** The [keydown] listener, lines 189-196. *)
Definition document_keydown (key : string) : DB unit :=
  if bool_decide (key = "Escape") then closeModal "searchModal" ;;; closeModal "teamModal"
  else st_ret tt.

(** The callbacks. *)
Definition run_timer (t : db_timer) : DB unit :=
  match t with
  | DHideMessage => hideMessage
  | DSearchResume =>
      showMessage "Search completed! Results will be displayed here." "success" ;;;
      closeModal "searchModal"
  end.

(** Each callback bounds the callbacks it may still cause to run: the
    search continuation shows a message, which queues an auto-hide. *)
Definition db_weight (t : db_timer) : nat :=
  match t with DHideMessage => 1 | DSearchResume => 2 end.

(** Time passes until [t]: one step per unit of weight is enough
    ([db_advance_fires_all]). *)
Definition db_advance (t : Z) (s : db_state) : db_state :=
  advance_fuel run_timer (S (weight db_weight (queue s))) t s.

(** ** The page as a transition system *)

Inductive db_event : Type :=
| DLoaded
| DLogout                                  (** the logout button *)
| DShowSearch | DShowTeam | DShowProfile | DShowSaved
| DSearchSubmit (keywords : string)
| DTeamInput (v : string * string * string)
| DTeamSubmit
| DClick (modal : option string)
| DKeydown (key : string)
| DAdvance (t : Z).

(** The values of the team form when the page loads, which [reset()]
    restores (the page's HTML is not part of the repository). *)
Definition team_blank : string * string * string := ("", "", "").

Definition db_handler `{Backend} (ev : db_event) : DB unit :=
  match ev with
  | DLoaded => DOMContentLoaded
  | DLogout => logout
  | DShowSearch => showModal "searchModal"                                (** lines 104-106 *)
  | DShowTeam => showModal "teamModal"                                    (** lines 109-111 *)
  | DShowProfile => showMessage "Company profile management coming soon!" "info"   (** 114-116 *)
  | DShowSaved => showMessage "Saved tenders feature coming soon!" "info"          (** 119-121 *)
  | DSearchSubmit k => searchForm_submit k
  | DTeamInput v => st_modify (set_team v)
  | DTeamSubmit => teamForm_submit team_blank
  | DClick m => document_click m
  | DKeydown k => document_keydown k
  | DAdvance t => fun s => (Done tt, db_advance t s)
  end.

Definition db_step `{Backend} (ev : db_event) (s : db_state) : db_state :=
  if bool_decide (location (db_br s) = None) then (db_handler ev s).2 else s.

Definition db_init (storage : list (string * string)) : db_state :=
  mk_db (mk_browser storage None false [] 0 []) "" "" "role-badge" "" "info" true true true
        team_blank.

(** ** Loading the page *)

Section Loading.
Context `{Backend}.

Definition at_login (s : db_state) : Prop := location (get_br s) = Some "index.html".

Lemma db_showMessage_keeps_sent text ty : preserves (fun s => sent (db_br s)) (showMessage text ty).
Proof. unfold showMessage. preserves_auto. Qed.

Lemma logout_keeps_sent : preserves (fun s => sent (db_br s)) logout.
Proof. unfold logout. preserves_auto. Qed.

(** [loadUserInfo] sends exactly its request, whatever the answer. *)
Lemma loadUserInfo_sent s :
  sent (db_br (loadUserInfo s).2) = sent (db_br s) ++ [dash_request (db_br s) "/api/auth/me" no_options].
Proof.
  unfold loadUserInfo.
  rewrite (catch_bind_view_after (fun s => sent (db_br s))).
  - rewrite on_br_run. cbn [get_br db_lens put_br db_br]. apply dashboard_makeRequest_sent.
  - intros a. preserves_auto.
  - intros e. unfold showMessage, logout. preserves_auto.
Qed.

(** Once at the login page, [loadUserInfo] does not take the user elsewhere. *)
Lemma loadUserInfo_keeps_at_login : keeps at_login loadUserInfo.
Proof.
  unfold loadUserInfo, showMessage, logout, at_login. keeps_auto.
  - apply (keeps_on_br_view (fun b => location b = Some "index.html")). intros b Hb.
    by destruct (dashboard_makeRequest_location "/api/auth/me" no_options b) as [->| ->].
  - intros _. apply (keeps_on_br_view (fun b => location b = Some "index.html")). by intros b _.
Qed.

(** (C10) Loading the dashboard without a token (spec, section 4.3: redirect,
    no request made): the page is sent to the login page, but
    [checkAuthentication]'s [return] does not stop [loadUserInfo], which
    still sends [GET /api/auth/me], without an Authorization header. *)
Theorem load_without_token_requests s :
  location (db_br s) = None -> getItem "access_token" (db_br s) = JNull ->
  let s1 := db_step DLoaded s in
  location (db_br s1) = Some "index.html" /\
  sent (db_br s1) = sent (db_br s) ++ [AuthApi.request_of JNull "/api/auth/me" no_options] /\
  rq_headers (AuthApi.request_of JNull "/api/auth/me" no_options) = [("Content-Type", "application/json")].
Proof.
  intros Hl Ht s1. subst s1. unfold db_step. rewrite bool_decide_true by done.
  cbn [db_handler]. unfold DOMContentLoaded, checkAuthentication.
  rewrite st_bind_assoc, st_bind_br_read. cbn [get_br db_lens]. rewrite Ht. cbn [js_truthy negb].
  rewrite st_bind_br_modify. split; [|split; [|done]].
  - apply loadUserInfo_keeps_at_login. done.
  - rewrite loadUserInfo_sent. cbn [get_br db_lens put_br db_br]. unfold dash_request.
    by rewrite getItem_set_location, Ht.
Qed.
Definition me_request (s : db_state) : request := dash_request (db_br s) "/api/auth/me" no_options.

(** [checkAuthentication] with a token does nothing. *)
Lemma st_bind_check_token {B} (k : unit -> DB B) s tok :
  getItem "access_token" (db_br s) = JStr tok -> tok <> "" ->
  st_bind checkAuthentication k s = k tt s.
Proof.
  intros Ht Htok. unfold checkAuthentication.
  rewrite st_bind_assoc, st_bind_br_read. cbn [get_br db_lens]. rewrite Ht. cbn [js_truthy].
  by rewrite bool_decide_false.
Qed.

Lemma db_step_loaded s : location (db_br s) = None -> db_step DLoaded s = (DOMContentLoaded s).2.
Proof. intros Hl. unfold db_step. by rewrite bool_decide_true. Qed.

(** (C3) Loading with a valid token fills the user panel from
    [/api/auth/me]: the name, the role in capitals, and the class
    [role-badge role-<role>]; the page stays. *)
Theorem load_user_panel s tok r fs name role :
  location (db_br s) = None -> getItem "access_token" (db_br s) = JStr tok -> tok <> "" ->
  respond (me_request s) = Some r -> rs_ok r = true -> rs_body r = Some (JObj fs) ->
  obj_get fs "full_name" = JStr name -> obj_get fs "role" = JStr role ->
  let s1 := db_step DLoaded s in
  db_user_name s1 = name /\ db_user_role s1 = to_upper role /\
  db_role_class s1 = "role-badge role-" +:+ role /\ location (db_br s1) = None.
Proof.
  intros Hl Ht Htok Hr Hok Hb Hn Hrole s1. subst s1. rewrite db_step_loaded by done.
  unfold DOMContentLoaded. rewrite (st_bind_check_token _ _ tok) by done.
  unfold loadUserInfo, st_catch.
  rewrite (st_bind_done _ _ _ (JObj fs) (put_br (add_sent (me_request s) (db_br s)) s)).
  2:{ rewrite on_br_run. cbn [get_br db_lens]. by rewrite (dashboard_makeRequest_ok _ _ r (JObj fs)). }
  cbn [js_member]. rewrite st_bind_lift_done, st_bind_modify, st_bind_lift_done.
  cbn [set_user_name set_user db_user_name db_role_class db_user_role put_br db_lens].
  rewrite Hrole, Hn. cbn [call_toUpperCase]. rewrite !st_bind_lift_done. done.
Qed.
(** The [catch] of [loadUserInfo]: the message, then [logout()]. *)
Lemma load_failed_state s' :
  let s2 := ((showMessage "Failed to load user information" "error" ;;; logout) s').2 in
  db_message s2 = "Failed to load user information" /\ db_msg_type s2 = "error" /\
  getItem "access_token" (db_br s2) = JNull /\ location (db_br s2) = Some "index.html".
Proof.
  cbn. split; [done|]. split; [done|]. split; [|done].
  rewrite getItem_set_location. apply getItem_removeItem.
Qed.

(** (C21) Loading with a token that [/api/auth/me] rejects, with 401 or any
    other error status, or when the request fails (spec, section 4.3):
    the page shows "Failed to load user information", removes the token
    and sends the user to the login page. *)
Theorem load_failure_logs_out s tok :
  location (db_br s) = None -> getItem "access_token" (db_br s) = JStr tok -> tok <> "" ->
  (forall r, respond (me_request s) = Some r -> rs_ok r = false) ->
  let s1 := db_step DLoaded s in
  db_message s1 = "Failed to load user information" /\ db_msg_type s1 = "error" /\
  getItem "access_token" (db_br s1) = JNull /\ location (db_br s1) = Some "index.html".
Proof.
  intros Hl Ht Htok Hf s1. subst s1. rewrite db_step_loaded by done.
  unfold DOMContentLoaded. rewrite (st_bind_check_token _ _ tok) by done.
  unfold loadUserInfo, st_catch.
  destruct (respond (me_request s)) as [r|] eqn:Hr;
    [destruct (Z.eq_dec (rs_status r) 401) as [H401|H401]|].
  - rewrite (st_bind_done _ _ _ JUndef
               (put_br (set_location "index.html" (removeItem "access_token"
                                                      (add_sent (me_request s) (db_br s)))) s)).
    2:{ rewrite on_br_run. cbn [get_br db_lens]. by rewrite (dashboard_makeRequest_401 _ _ r). }
    cbn [js_member]. rewrite st_bind_lift_thrown. apply load_failed_state.
  - destruct (dashboard_makeRequest_fails "/api/auth/me" no_options (db_br s)) as [e He].
    { unfold me_request in Hr. intros r' Hr'. rewrite Hr in Hr'. injection Hr' as <-. split; auto. }
    rewrite (st_bind_thrown _ _ _ e (put_br (add_sent (me_request s) (db_br s)) s)).
    2:{ rewrite on_br_run. cbn [get_br db_lens]. by rewrite He. }
    apply load_failed_state.
  - destruct (dashboard_makeRequest_fails "/api/auth/me" no_options (db_br s)) as [e He].
    { unfold me_request in Hr. intros r' Hr'. congruence. }
    rewrite (st_bind_thrown _ _ _ e (put_br (add_sent (me_request s) (db_br s)) s)).
    2:{ rewrite on_br_run. cbn [get_br db_lens]. by rewrite He. }
    apply load_failed_state.
Qed.
End Loading.

(** ** The team form *)

Section Teams.
Context `{Backend}.

Definition team_request (s : db_state) : request :=
  dash_request (db_br s) "/api/teams/create"
    (mk_options (Some "POST") (Some (team_json (db_team s))) []).

(** The handler of a team form with a name, up to its [try]. *)
Lemma teamForm_submit_named s name description plan :
  db_team s = (name, description, plan) -> js_trim name <> "" ->
  teamForm_submit team_blank s
  = st_catch
      (let* result := on_br (DashboardApi.makeRequest "/api/teams/create"
                               (mk_options (Some "POST") (Some (team_json (db_team s))) [])) in
       let* n := st_lift (js_member result "name") in
       showMessage ("Team " +:+ String "034"%char (js_to_string n) +:+ String "034"%char
                    " created successfully!") "success" ;;;
       closeModal "teamModal" ;;;
       st_modify (set_team team_blank))
      (fun e => showMessage ("Failed to create team: " +:+ exn_message e) "error") s.
Proof.
  intros Hteam Hname. unfold teamForm_submit. rewrite st_bind_get, Hteam.
  by rewrite bool_decide_false.
Qed.

(** (C22) A team created with success: the message names the team the
    server returns, the modal closes and the form is reset. *)
Theorem team_created s name description plan r fs n :
  location (db_br s) = None -> db_team s = (name, description, plan) -> js_trim name <> "" ->
  respond (team_request s) = Some r -> rs_ok r = true -> rs_body r = Some (JObj fs) ->
  obj_get fs "name" = JStr n ->
  let s1 := db_step DTeamSubmit s in
  db_message s1 = "Team " +:+ String "034"%char n +:+ String "034"%char " created successfully!" /\
  db_msg_type s1 = "success" /\ db_team_hidden s1 = true /\ db_team s1 = team_blank.
Proof.
  intros Hl Hteam Hname Hr Hok Hb Hn s1. subst s1. unfold db_step.
  rewrite bool_decide_true by done. cbn [db_handler].
  rewrite (teamForm_submit_named s name description plan) by done. unfold st_catch.
  rewrite (st_bind_done _ _ _ (JObj fs) (put_br (add_sent (team_request s) (db_br s)) s)).
  2:{ rewrite on_br_run. cbn [get_br db_lens]. by rewrite (dashboard_makeRequest_ok _ _ r (JObj fs)). }
  cbn [js_member]. rewrite st_bind_lift_done, Hn. done.
Qed.

(** (C8) A team form sent while the session has expired: the helper clears
    the token, sends the user to the login page and returns [undefined];
    the handler then reads [result.name] and shows "Failed to create
    team: Cannot read properties of undefined (reading 'name')", and the
    modal stays open. *)
Theorem team_create_401 s name description plan r :
  location (db_br s) = None -> db_team s = (name, description, plan) -> js_trim name <> "" ->
  respond (team_request s) = Some r -> rs_status r = 401 ->
  let s1 := db_step DTeamSubmit s in
  db_message s1 = "Failed to create team: Cannot read properties of undefined (reading 'name')" /\
  db_msg_type s1 = "error" /\ location (db_br s1) = Some "index.html" /\
  getItem "access_token" (db_br s1) = JNull /\ db_team_hidden s1 = db_team_hidden s.
Proof.
  intros Hl Hteam Hname Hr H401 s1. subst s1. unfold db_step.
  rewrite bool_decide_true by done. cbn [db_handler].
  rewrite (teamForm_submit_named s name description plan) by done. unfold st_catch.
  rewrite (st_bind_done _ _ _ JUndef
             (put_br (set_location "index.html" (removeItem "access_token"
                                                    (add_sent (team_request s) (db_br s)))) s)).
  2:{ rewrite on_br_run. cbn [get_br db_lens]. by rewrite (dashboard_makeRequest_401 _ _ r). }
  cbn [js_member]. rewrite st_bind_lift_thrown. cbn.
  split; [done|]. split; [done|]. split; [done|]. split; [|done].
  rewrite getItem_setTimeout, getItem_set_location. apply getItem_removeItem.
Qed.
End Teams.

(** ** Time passing *)

Lemma db_run_timer_sorted cb : keeps (fun s => tq_sorted (queue s)) (run_timer cb).
Proof.
  intros s Hs. destruct cb; cbn; [done|]. by apply tq_insert_sorted.
Qed.

Lemma db_run_timer_grows cb s x : x ∈ queue s -> x ∈ queue (run_timer cb s).2.
Proof. intros Hx. destruct cb; cbn; [done|]. by apply tq_insert_elem_other. Qed.

Lemma db_run_timer_weight cb s :
  (weight db_weight (queue (run_timer cb s).2) < db_weight cb + weight db_weight (queue s))%nat.
Proof.
  destruct cb; unfold queue; cbn; [lia|].
  pose proof (weight_tq_insert db_weight (clock (db_br s) + 5000) DHideMessage (timers (db_br s))).
  unfold weight in *. cbn in *. lia.
Qed.

Lemma db_run_timer_loc cb : preserves loc (run_timer cb).
Proof. by intros s; destruct cb. Qed.

(** The dashboard's event loop terminates with every due callback
    fired, including the auto-hides that the search continuation queues:
    after [db_advance t], unless the page has left, every pending
    callback is due after [t]. *)
Theorem db_advance_fires_all s t :
  tq_sorted (timers (db_br s)) ->
  location (db_br (db_advance t s)) <> None \/
  (forall d a, (d, a) ∈ timers (db_br (db_advance t s)) -> t < d).
Proof.
  intros Hs. unfold db_advance.
  exact (advance_fuel_complete run_timer db_weight _ t s db_run_timer_sorted db_run_timer_weight Hs
           (Nat.lt_succ_diag_r _)).
Qed.

Section Search.
Context `{Backend}.

Lemma searchForm_submit_sent k : preserves (fun s => sent (db_br s)) (searchForm_submit k).
Proof. unfold searchForm_submit, showMessage. preserves_auto. Qed.

(** (C30) The search form is a placeholder (spec, section 4.3): it sends no
    request, and 2000 ms after a search with keywords the page says
    "Search completed! ..." and the search modal is closed. *)
Theorem search_placeholder s k :
  location (db_br s) = None -> tq_sorted (timers (db_br s)) -> js_trim k <> "" ->
  let s1 := db_step (DSearchSubmit k) s in
  let s2 := db_step (DAdvance (clock (db_br s) + 2000)) s1 in
  sent (db_br s2) = sent (db_br s) /\
  db_message s2 = "Search completed! Results will be displayed here." /\ db_search_hidden s2 = true.
Proof.
  intros Hl Hs Hk s1 s2.
  assert (E1 : s1 = (searchForm_submit k s).2).
  { subst s1. unfold db_step. by rewrite bool_decide_true. }
  assert (E1' : s1 = put_br (setTimeout DSearchResume 2000 (setTimeout DHideMessage 5000 (db_br s)))
                       (set_db_message "Searching tenders..." "info" s)).
  { rewrite E1. unfold searchForm_submit. by rewrite bool_decide_false. }
  assert (E2 : s2 = db_advance (clock (db_br s) + 2000) s1).
  { subst s2. unfold db_step. by rewrite E1', bool_decide_true. }
  rewrite E2. split; [|unfold db_advance].
  - unfold db_advance. rewrite (advance_fuel_view run_timer (fun s => sent (db_br s)));
      [|by intros cb s'; destruct cb|done|done].
    rewrite E1. apply searchForm_submit_sent.
  - apply (advance_fuel_fires_growing run_timer db_weight
             (fun s => db_message s = "Search completed! Results will be displayed here." /\
                       db_search_hidden s = true) _ _ _ (clock (db_br s) + 2000) DSearchResume).
    + apply db_run_timer_sorted.
    + apply db_run_timer_grows.
    + apply db_run_timer_weight.
    + apply db_run_timer_loc.
    + rewrite E1'. unfold queue. cbn. by apply tq_insert_sorted, tq_insert_sorted.
    + by rewrite E1'.
    + rewrite E1'. unfold queue. cbn. apply tq_insert_elem.
    + lia.
    + lia.
    + done.
    + intros [] s' [Hm Hh]; done.
    + split; by intros.
Qed.
End Search.

(** Escape closes both modals; a click on a modal's backdrop closes
    that modal and leaves the other as it was. *)
Theorem modals_close `{Backend} s id :
  location (db_br s) = None ->
  db_search_hidden (db_step (DKeydown "Escape") s) = true /\
  db_team_hidden (db_step (DKeydown "Escape") s) = true /\
  (id = "searchModal" \/ id = "teamModal" ->
   (if bool_decide (id = "searchModal") then db_search_hidden else db_team_hidden)
     (db_step (DClick (Some id)) s) = true /\
   (if bool_decide (id = "searchModal") then db_team_hidden else db_search_hidden)
     (db_step (DClick (Some id)) s)
   = (if bool_decide (id = "searchModal") then db_team_hidden else db_search_hidden) s).
Proof.
  intros Hl. unfold db_step. rewrite !bool_decide_true by done. cbn.
  split; [done|]. split; [done|].
  intros [-> | ->]; cbn; done.
Qed.

(** ** The theorems at concrete inputs *)

Definition db_no_token : db_state := db_init [].
Definition db_token : db_state := db_init [("access_token", "abc")].
Definition resp_me : response :=
  mk_response 200 (Some (JObj [("full_name", JStr "Alice Dlamini"); ("role", JStr "admin")])).
Definition team_filled : db_state := set_team ("Builders", "Civil works", "basic") db_token.
Definition resp_team : response := mk_response 201 (Some (JObj [("name", JStr "Builders")])).

Lemma load_without_token_requests_witness :
  location (db_br (@db_step (backend_of None) DLoaded db_no_token)) = Some "index.html".
Proof.
  destruct (@load_without_token_requests (backend_of None) db_no_token) as [H _]; [..| exact H]; concrete.
Defined.

Lemma load_user_panel_witness :
  db_user_role (@db_step (backend_of (Some resp_me)) DLoaded db_token) = "ADMIN".
Proof.
  destruct (@load_user_panel (backend_of (Some resp_me)) db_token "abc" resp_me
              [("full_name", JStr "Alice Dlamini"); ("role", JStr "admin")] "Alice Dlamini" "admin")
    as (_ & H & _); [..| exact H]; concrete.
Defined.

Lemma load_failure_logs_out_witness :
  location (db_br (@db_step (backend_of (Some resp_401)) DLoaded db_token)) = Some "index.html".
Proof.
  destruct (@load_failure_logs_out (backend_of (Some resp_401)) db_token "abc")
    as (_ & _ & _ & H); [..| exact H]; try concrete.
  intros r Hr. injection Hr as <-. reflexivity.
Defined.

Lemma team_created_witness :
  db_message (@db_step (backend_of (Some resp_team)) DTeamSubmit team_filled)
  = "Team " +:+ String "034"%char "Builders" +:+ String "034"%char " created successfully!".
Proof.
  destruct (@team_created (backend_of (Some resp_team)) team_filled "Builders" "Civil works"
              "basic" resp_team [("name", JStr "Builders")] "Builders") as (H & _); [..| exact H]; concrete.
Defined.

Lemma team_create_401_witness :
  db_msg_type (@db_step (backend_of (Some resp_401)) DTeamSubmit team_filled) = "error".
Proof.
  destruct (@team_create_401 (backend_of (Some resp_401)) team_filled "Builders" "Civil works"
              "basic" resp_401) as (_ & H & _); [..| exact H]; concrete.
Defined.

Definition db_two_messages : db_state :=
  (showMessage "Saved tenders feature coming soon!" "info"
     (showMessage "Company profile management coming soon!" "info" db_token).2).2.

Lemma db_advance_fires_all_witness :
  location (db_br (db_advance 6000 db_two_messages)) <> None \/
  (forall d a, (d, a) ∈ timers (db_br (db_advance 6000 db_two_messages)) -> 6000 < d).
Proof.
  apply db_advance_fires_all. unfold tq_sorted. vm_compute (timers _).
  repeat constructor; cbn; lia.
Defined.

Lemma search_placeholder_witness :
  db_search_hidden (@db_step (backend_of None) (DAdvance 2000)
                      (@db_step (backend_of None) (DSearchSubmit "roads") db_token)) = true.
Proof.
  destruct (@search_placeholder (backend_of None) db_token "roads") as (_ & _ & H); [..| exact H]; concrete.
Defined.

Lemma modals_close_witness :
  db_team_hidden (@db_step (backend_of None) (DKeydown "Escape")
                    (set_modal "teamModal" false db_token)) = true.
Proof.
  destruct (@modals_close (backend_of None) (set_modal "teamModal" false db_token) "teamModal")
    as (_ & H & _); [..| exact H]; concrete.
Defined.

End DashboardPage.
