(* ===== verification/App.v ===== *)
(** The page of the profile editor, [src/profile_setup/frontend/app.js]
    outside the class: the global functions of the buttons (lines
    397-414), the [DOMContentLoaded] listener that creates the manager
    (lines 417-419), [validateForm] (lines 422-437), and the listeners
    registered when the script runs (lines 440-470).

    The page state [app_state] holds [window.profileManager] (whether it
    is set, and the manager's state of [Profile.v]), the controls that
    carry the class [is-invalid] (a [gset]) and the messages of
    [setCustomValidity] (a [gmap]).  A method of the manager runs on its
    part of the state through [st_zoom].  The events of the page are
    [app_event]; [app_step] dispatches them to the listeners the code
    registered, including the browser's own action for a form whose
    [submit] has no listener: the page is reloaded. *)

From stdpp Require Import gmap.
From S2P Require Import Prelude JsNum JsObj Http Profile.

Local Open Scope Z_scope.

Module ProfilePage.

(** ** The page state *)

Record app_state : Type := mk_app {
  ap_manager : bool;                   (** [window.profileManager] is set *)
  ap_pm : pm_state;                    (** the manager and the page it draws *)
  ap_invalid : gset string;            (** ids of the controls with class [is-invalid] *)
  ap_validity : gmap string string     (** [setCustomValidity] message, by id *)
}.

Abbreviation AP := (st app_state exn).

Definition set_pm (p : pm_state) (s : app_state) : app_state :=
  mk_app (ap_manager s) p (ap_invalid s) (ap_validity s).
Definition set_manager (s : app_state) : app_state :=
  mk_app true (ap_pm s) (ap_invalid s) (ap_validity s).
(** [classList.add('is-invalid')] when [b], [classList.remove] otherwise. *)
Definition mark_invalid (id : string) (b : bool) (s : app_state) : app_state :=
  mk_app (ap_manager s) (ap_pm s)
         (if b then {[id]} ∪ ap_invalid s else ap_invalid s ∖ {[id]}) (ap_validity s).
Definition set_validity (id msg : string) (s : app_state) : app_state :=
  mk_app (ap_manager s) (ap_pm s) (ap_invalid s) (<[id := msg]> (ap_validity s)).

(** A method of the manager, run on its part of the page. *)
Definition on_pm {X} (c : PM X) : AP X := st_zoom ap_pm set_pm c.

Lemma ap_pm_set_pm p s : ap_pm (set_pm p s) = p.
Proof. done. Qed.

(** The value of the control [#id]. *)
Definition value_of (id : string) : AP string := fun s => (Done (field (ap_pm s) id), s).

(** ** The global functions of the buttons, lines 397-414 *)

Definition global_recalculateScore `{Backend} : AP unit :=
  let* s := st_get in if ap_manager s then on_pm recalculateScore else st_ret tt.

Definition global_exportProfile (today : string) : AP unit :=
  let* s := st_get in if ap_manager s then on_pm (exportProfile today) else st_ret tt.

Definition global_logout : AP unit :=
  let* s := st_get in if ap_manager s then on_pm logout else st_ret tt.

(** ** Creating the manager, lines 417-419 *)

(** [window.profileManager = new ProfileManager()]: the constructor calls
    [init()] without [await], so an error of [init] rejects a promise
    nobody reads, and the assignment happens in every case. *)
Definition DOMContentLoaded `{Backend} (email password : option string) : AP unit :=
  st_catch (on_pm (construct email password)) (fun _ => st_ret tt) ;;;
  st_modify set_manager.

(** ** Validation, lines 422-470 *)

(** The [forEach] of [validateForm] over the required controls [ids],
    with [isValid] as accumulator. *)
Fixpoint validate_fields (ids : list string) (isValid : bool) : AP bool :=
  match ids with
  | [] => st_ret isValid
  | id :: r =>
      let* v := value_of id in
      if bool_decide (js_trim v = "") then st_modify (mark_invalid id true) ;;; validate_fields r false
      else st_modify (mark_invalid id false) ;;; validate_fields r isValid
  end.

(** [validateForm(formId)]; [required] are the ids of the controls of the
    form that have the attribute [required] (the page's HTML). *)
Definition validateForm (required : list string) : AP bool := validate_fields required true.

(** The [input] listener of the document, lines 440-448. *)
Definition input_listener (id : string) (required : bool) : AP unit :=
  if required then
    let* v := value_of id in st_modify (mark_invalid id (bool_decide (js_trim v = "")))
  else st_ret tt.

(** The [blur] listener of the percentage inputs, lines 459-470. *)
Definition percentage_blur (id : string) : AP unit :=
  let* v := value_of id in
  if percentage_invalid v then
    st_modify (mark_invalid id true) ;;;
    st_modify (set_validity id "Percentage must be between 0 and 100")
  else
    st_modify (mark_invalid id false) ;;;
    st_modify (set_validity id "").

(** [s.includes(pat)], for the selector [input[name*="percentage"]]. *)
Fixpoint str_contains (pat s : string) : bool :=
  String.prefix pat s || match s with EmptyString => false | String _ r => str_contains pat r end.

(** ** The events of the page *)

Inductive app_button : Type :=
| BRecalculate
| BExport (today : string)
| BLogout.

(** The events after [DOMContentLoaded]: the user types [value] into the
    control [id] ([required] its attribute); focus leaves the control
    [id] named [name]; a form is submitted, with its type, the ids of its
    controls, the ids of its required ones, and its [FormData] entries; a
    button is clicked. *)
Inductive app_event : Type :=
| AInput (id value : string) (required : bool)
| ABlur (id name : string)
| ASubmit (formType : string) (controls required : list string) (entries : list (string * string))
| AClick (b : app_button).

(** The browser's constraint validation: a form with a control whose
    custom validity is set, or a required control left empty, is not
    submitted and no [submit] event is fired. *)
Definition form_blocked (s : app_state) (controls required : list string) : bool :=
  existsb (fun id => negb (bool_decide (default "" (ap_validity s !! id) = ""))) controls
  || existsb (fun id => bool_decide (field (ap_pm s) id = "")) required.

Definition rate_inputs : list string := ["previousTenderWins"; "previousTenderApplications"].

Definition app_handler `{Backend} (ev : app_event) : AP unit :=
  match ev with
  | AInput id value required =>
      st_modify (fun s => set_pm (set_field id value (ap_pm s)) s) ;;;
      (let* s := st_get in
       if pm_listening (ap_pm s) && bool_decide (id ∈ rate_inputs)
       then on_pm calculateSuccessRate else st_ret tt) ;;;          (** lines 39-40 *)
      input_listener id required
  | ABlur id name =>
      (if bool_decide (id = "annualTurnover") then on_pm turnover_blur else st_ret tt) ;;;  (** 451-456 *)
      (if str_contains "percentage" name then percentage_blur id else st_ret tt)
  | ASubmit formType controls required entries =>
      let* s := st_get in
      if form_blocked s controls required then st_ret tt
      else if pm_listening (ap_pm s) then on_pm (handleFormSubmit entries formType)  (** 33-36 *)
      else on_pm (br_modify set_reloaded)          (** no listener: the form's own submission *)
  | AClick BRecalculate => global_recalculateScore
  | AClick (BExport today) => global_exportProfile today
  | AClick BLogout => global_logout
  end.

(** Once the page reloads, its state is gone: no event reaches it. *)
Definition app_step `{Backend} (ev : app_event) (s : app_state) : app_state :=
  if reloaded (pm_br (ap_pm s)) then s else (app_handler ev s).2.

(** The page as the browser opens it, before any script ran. *)
Definition app_init (storage : list (string * string)) : app_state :=
  mk_app false (pm_opened storage) ∅ ∅.

(** The page once [DOMContentLoaded] ran, [email] and [password] the
    answers to [prompt]. *)
Definition app_start `{Backend} (storage : list (string * string)) (email password : option string)
  : app_state := (DOMContentLoaded email password (app_init storage)).2.

Inductive app_reachable `{Backend} (storage : list (string * string)) (email password : option string)
  : app_state -> Prop :=
| app_reach_start : app_reachable storage email password (app_start storage email password)
| app_reach_step ev s :
    app_reachable storage email password s ->
    app_reachable storage email password (app_step ev s).

(** ** Lifting the manager's frame lemmas *)

Lemma preserves_on_pm {X Y} (g : pm_state -> Y) (c : PM X) :
  preserves g c -> preserves (fun s => g (ap_pm s)) (on_pm c).
Proof. apply preserves_zoom, ap_pm_set_pm. Qed.

Lemma keeps_on_pm {X} (Q : pm_state -> Prop) (c : PM X) :
  keeps Q c -> keeps (fun s => Q (ap_pm s)) (on_pm c).
Proof. apply keeps_zoom, ap_pm_set_pm. Qed.

Lemma on_pm_run {X} (c : PM X) s : on_pm c s = ((c (ap_pm s)).1, set_pm (c (ap_pm s)).2 s).
Proof. apply st_zoom_run. Qed.

#[local] Hint Extern 1 (preserves (fun s => _ (ap_pm s)) (on_pm _)) =>
  apply preserves_on_pm : tih_frame.
#[local] Hint Extern 1 (keeps (fun s => _ (ap_pm s)) (on_pm _)) =>
  apply keeps_on_pm : tih_frame.

Lemma keeps_value_of P id : keeps P (value_of id).
Proof. by intros s. Qed.
Lemma preserves_value_of {Y} (f : app_state -> Y) id : preserves f (value_of id).
Proof. by intros s. Qed.

#[export] Hint Resolve keeps_value_of preserves_value_of : tih_frame.

(** ** The loading modal *)

(** Once shown, the loading modal stays: [showLoading(false)] calls
    [hide()] on a fresh [Modal], which does nothing. *)
Definition loading_on (p : pm_state) : Prop := pm_loading p = true.

Lemma showLoading_loading b : keeps loading_on (showLoading b).
Proof. intros s Hs. by destruct b. Qed.

Lemma keeps_loading {X} (c : PM X) : preserves pm_loading c -> keeps loading_on c.
Proof. apply (keeps_of_preserves pm_loading (fun b => b = true)). Qed.

Lemma on_br_loading {X} (c : st (browser Empty_set) exn X) : keeps loading_on (on_br c).
Proof. apply keeps_loading, preserves_on_br. done. Qed.

Lemma updateUI_loading : keeps loading_on updateUI.
Proof. apply keeps_loading, updateUI_keeps_loading. Qed.

#[local] Hint Resolve showLoading_loading on_br_loading updateUI_loading : tih_frame.

(** A method whose body runs between [showLoading(true)] and a [finally]
    with [showLoading(false)] leaves the modal shown, whatever happens in
    between, when no step of the body hides it. *)
Lemma finally_shown {X} (c : PM X) h s :
  keeps loading_on c -> (forall e, keeps loading_on (h e)) ->
  loading_on (st_finally (st_catch (showLoading true ;;; c) h) (showLoading false) s).2.
Proof.
  intros Hc Hh. unfold st_finally, st_catch, showLoading. cbv iota. rewrite st_bind_modify.
  specialize (Hc (set_loading true s) eq_refl).
  destruct (c (set_loading true s)) as [[a|e] s'] eqn:Hrun; cbn in Hc |- *; [done|].
  specialize (Hh e s' Hc). by destruct (h e s') as [o s''].
Qed.

Section Loading.
Context `{Backend}.

Lemma loadProfile_loading : keeps loading_on loadProfile.
Proof. unfold loadProfile, showAlert, populateForms, populate_field, prop. keeps_auto. Qed.

Lemma loadProfile_shows s : loading_on (loadProfile s).2.
Proof.
  apply finally_shown.
  - unfold populateForms, populate_field, prop. keeps_auto.
  - intros e. unfold showAlert. keeps_auto.
Qed.

Lemma recalculateScore_loading : keeps loading_on recalculateScore.
Proof. unfold recalculateScore, showAlert, copy_scores, put_profile. keeps_auto. Qed.
Lemma handleFormSubmit_loading entries formType : keeps loading_on (handleFormSubmit entries formType).
Proof. unfold handleFormSubmit, showAlert, copy_scores, put_profile. keeps_auto. Qed.

#[local] Hint Resolve loadProfile_loading recalculateScore_loading handleFormSubmit_loading
  : tih_frame.

Lemma construct_loading email password : keeps loading_on (construct email password).
Proof. unfold construct, init, showLoginModal, login, setupEventListeners. keeps_auto. Qed.

(** With a truthy stored token, [new ProfileManager()] shows the modal. *)
Lemma construct_shows email password s :
  js_truthy (getItem "authToken" (pm_br s)) = true ->
  loading_on (construct email password s).2.
Proof.
  intros Ht. unfold construct. rewrite st_bind_br_read. cbn [get_br pm_lens].
  rewrite !st_bind_modify. unfold init. rewrite st_bind_get. cbn [pm_token set_token set_profile].
  rewrite Ht. cbn [negb].
  set (s0 := set_profile JNull (set_token (getItem "authToken" (pm_br s)) s)).
  pose proof (loadProfile_shows s0) as Hs.
  destruct (loadProfile s0) as [o s1] eqn:Hl. cbn in Hs.
  unfold st_bind at 1. rewrite Hl. destruct o as [[]|e]; [|done].
  apply (keeps_bind loading_on); [|intros; apply updateUI_loading|done].
  unfold setupEventListeners. keeps_auto.
Qed.

Lemma calculateSuccessRate_loading : keeps loading_on calculateSuccessRate.
Proof. apply keeps_loading. unfold calculateSuccessRate. preserves_auto. Qed.
Lemma exportProfile_loading today : keeps loading_on (exportProfile today).
Proof. apply keeps_loading. unfold exportProfile, showAlert. preserves_auto. Qed.
Lemma logout_loading : keeps loading_on logout.
Proof. apply keeps_loading. unfold logout. preserves_auto. Qed.
Lemma turnover_blur_loading : keeps loading_on turnover_blur.
Proof. apply keeps_loading. unfold turnover_blur. preserves_auto. Qed.

#[local] Hint Resolve construct_loading calculateSuccessRate_loading exportProfile_loading
  logout_loading turnover_blur_loading : tih_frame.

(** No event of the page hides the loading modal. *)
Lemma app_handler_loading ev : keeps (fun s => loading_on (ap_pm s)) (app_handler ev).
Proof.
  destruct ev as [id value required|id name|formType controls required entries|[|today|]];
    unfold app_handler, global_recalculateScore, global_exportProfile, global_logout,
      input_listener, percentage_blur; keeps_auto.
Qed.

(** (C16) On a profile page opened with a stored token, the loading modal
    is shown in every state the page reaches: [loadProfile] shows it at
    start-up, and no code hides it, since [showLoading(false)] calls
    [hide()] on a new [bootstrap.Modal], which returns at once.  Whatever
    the server answers and the user does, the page stays behind the
    modal. *)
Theorem app_loading_never_hidden storage email password s :
  default "" (ls_lookup "authToken" storage) <> "" ->
  app_reachable storage email password s -> pm_loading (ap_pm s) = true.
Proof.
  intros Htok. induction 1 as [|ev s _ IH].
  - unfold app_start, DOMContentLoaded, st_catch. unfold st_bind at 1.
    rewrite on_pm_run. cbn [app_init ap_pm].
    assert (Hc : loading_on (construct email password (pm_opened storage)).2).
    { apply construct_shows. unfold getItem. cbn.
      destruct (ls_lookup "authToken" storage); cbn in *; [|done].
      by rewrite bool_decide_false. }
    by destruct (construct email password (pm_opened storage)) as [[]].
  - unfold app_step. destruct (reloaded _); [done|]. by apply app_handler_loading.
Qed.

End Loading.

(** ** The form listeners *)

Section Listeners.
Context `{Backend}.

Lemma loadProfile_listening : preserves pm_listening loadProfile.
Proof. unfold loadProfile, showLoading, showAlert, populateForms, populate_field, prop. preserves_auto. Qed.
Lemma updateUI_listening : preserves pm_listening updateUI.
Proof. unfold updateUI, prop. preserves_auto. Qed.

#[local] Hint Resolve loadProfile_listening updateUI_listening : tih_frame.

Lemma handleFormSubmit_listening entries formType : preserves pm_listening (handleFormSubmit entries formType).
Proof. unfold handleFormSubmit, showLoading, showAlert, copy_scores, put_profile. preserves_auto. Qed.
Lemma recalculateScore_listening : preserves pm_listening recalculateScore.
Proof. unfold recalculateScore, showLoading, showAlert, copy_scores, put_profile. preserves_auto. Qed.
Lemma login_listening email password : preserves pm_listening (login email password).
Proof. unfold login. preserves_auto. Qed.

#[local] Hint Resolve handleFormSubmit_listening recalculateScore_listening login_listening : tih_frame.

(** Opened without a truthy stored token, the manager never installs its
    listeners, whatever [prompt] returns and the server answers. *)
Lemma construct_no_token_listening email password s :
  js_truthy (getItem "authToken" (pm_br s)) = false ->
  pm_listening (construct email password s).2 = pm_listening s.
Proof.
  intros Ht. unfold construct. rewrite st_bind_br_read. cbn [get_br pm_lens].
  rewrite !st_bind_modify. unfold init. rewrite st_bind_get. cbn [pm_token set_token set_profile].
  rewrite Ht. cbn [negb].
  assert (Hm : preserves pm_listening (showLoginModal email password))
    by (unfold showLoginModal; preserves_auto).
  by rewrite Hm.
Qed.

Lemma app_handler_listening ev : preserves (fun s => pm_listening (ap_pm s)) (app_handler ev).
Proof.
  destruct ev as [id value required|id name|formType controls required entries|[|today|]];
    unfold app_handler, global_recalculateScore, global_exportProfile, global_logout,
      input_listener, percentage_blur; preserves_auto;
    apply preserves_on_pm;
    unfold calculateSuccessRate, turnover_blur, exportProfile, showAlert, logout; preserves_auto.
Qed.

End Listeners.

Section NoToken.
Context `{Backend}.

Lemma start_no_token_listening storage email password :
  default "" (ls_lookup "authToken" storage) = "" ->
  pm_listening (ap_pm (app_start storage email password)) = false.
Proof.
  intros Hs. unfold app_start, DOMContentLoaded, st_catch. unfold st_bind at 1.
  rewrite on_pm_run. cbn [app_init ap_pm].
  assert (Hc : pm_listening (construct email password (pm_opened storage)).2 = false).
  { rewrite construct_no_token_listening; [done|].
    unfold getItem. cbn. destruct (ls_lookup "authToken" storage); cbn in *; [by subst|done]. }
  by destruct (construct email password (pm_opened storage)) as [[]].
Qed.

(** (C14) Opened without a stored token, the page never saves a form:
    whatever the answers to [prompt], the server and the events, the
    manager's listeners are never installed ([init] returned before
    [setupEventListeners]), so a form submission either is blocked by
    the browser's validation or reloads the page, and sends no request. *)
Theorem no_token_forms_never_saved storage email password s :
  default "" (ls_lookup "authToken" storage) = "" ->
  app_reachable storage email password s ->
  pm_listening (ap_pm s) = false /\
  forall formType controls required entries,
    sent (pm_br (ap_pm (app_step (ASubmit formType controls required entries) s))) = sent (pm_br (ap_pm s)).
Proof.
  intros Hs Hr.
  assert (Hl : pm_listening (ap_pm s) = false).
  { induction Hr as [|ev s _ IH]; [by apply start_no_token_listening|].
    unfold app_step. destruct (reloaded _); [done|]. by rewrite (app_handler_listening ev s). }
  split; [done|]. intros formType controls required entries.
  unfold app_step. destruct (reloaded _); [done|]. cbn [app_handler]. rewrite st_bind_get.
  destruct (form_blocked _ _ _); [done|]. rewrite Hl. rewrite on_pm_run. done.
Qed.

End NoToken.

(** ** Validation *)

(** A required control is blank when its trimmed value is empty. *)
Definition blank (s : app_state) (id : string) : bool := bool_decide (js_trim (field (ap_pm s) id) = "").

Lemma validate_fields_cons id0 ids isValid s :
  validate_fields (id0 :: ids) isValid s
  = validate_fields ids (isValid && negb (blank s id0)) (mark_invalid id0 (blank s id0) s).
Proof.
  cbn [validate_fields]. unfold st_bind at 1, value_of, blank. cbn iota beta.
  case_bool_decide; rewrite st_bind_modify; cbn [negb]; [by rewrite andb_false_r|by rewrite andb_true_r].
Qed.

Lemma validate_fields_run ids isValid s :
  let r := validate_fields ids isValid s in
  r.1 = Done (isValid && forallb (fun id => negb (blank s id)) ids) /\
  ap_pm r.2 = ap_pm s /\ ap_validity r.2 = ap_validity s /\ ap_manager r.2 = ap_manager s /\
  forall id, id ∈ ap_invalid r.2 <-> (if bool_decide (id ∈ ids) then blank s id = true else id ∈ ap_invalid s).
Proof.
  revert isValid s. induction ids as [|id0 ids IH]; intros isValid s; cbn zeta.
  - cbn. rewrite andb_true_r. do 4 (split; [done|]). intros id.
    by rewrite bool_decide_false by set_solver.
  - rewrite validate_fields_cons.
    destruct (IH (isValid && negb (blank s id0)) (mark_invalid id0 (blank s id0) s))
      as (Ho & Hp & Hv & Hm & Hi).
    cbn in Ho, Hp, Hv, Hm. rewrite Ho, Hp, Hv, Hm. cbn [forallb].
    split; [by rewrite andb_assoc|]. do 3 (split; [done|]).
    intros id. rewrite Hi. cbn [ap_invalid mark_invalid].
    change (blank (mark_invalid id0 (blank s id0) s) id) with (blank s id).
    destruct (decide (id = id0)) as [->|Hne].
    + rewrite (bool_decide_true (id0 ∈ id0 :: ids)) by set_solver.
      case_bool_decide; [done|]. destruct (blank s id0); set_solver.
    + rewrite (bool_decide_ext (id ∈ id0 :: ids) (id ∈ ids)) by set_solver.
      case_bool_decide; [done|]. destruct (blank s id0); set_solver.
Qed.

(** (C32) [validateForm] returns true exactly when no required control is
    blank (after [trim]); afterwards a required control carries
    [is-invalid] exactly when it is blank, the other controls keep their
    classes, and nothing else of the page changes. *)
Theorem validateForm_spec required s :
  (validateForm required s).1 = Done (forallb (fun id => negb (blank s id)) required) /\
  ap_pm (validateForm required s).2 = ap_pm s /\
  forall id, id ∈ ap_invalid (validateForm required s).2 <->
             (if bool_decide (id ∈ required) then blank s id = true else id ∈ ap_invalid s).
Proof.
  destruct (validate_fields_run required true s) as (Ho & Hp & _ & _ & Hi).
  unfold validateForm. split; [exact Ho|]. split; [exact Hp|exact Hi].
Qed.

Section Percentage.
Context `{Backend}.

Lemma blur_percentage_run s id name :
  reloaded (pm_br (ap_pm s)) = false -> id <> "annualTurnover" ->
  str_contains "percentage" name = true ->
  app_step (ABlur id name) s
  = if percentage_invalid (field (ap_pm s) id)
    then set_validity id "Percentage must be between 0 and 100" (mark_invalid id true s)
    else set_validity id "" (mark_invalid id false s).
Proof.
  intros Hr Hid Hn. unfold app_step. rewrite Hr. cbn [app_handler].
  rewrite bool_decide_false by done. rewrite Hn.
  unfold percentage_blur, value_of, st_bind, st_ret, st_modify. cbv beta iota.
  by destruct (percentage_invalid _).
Qed.


End Percentage.

(** ** The theorems at concrete inputs *)

Definition login_ok : response := mk_response 200 (Some (JObj [("token", JStr "t1")])).

Lemma app_loading_never_hidden_witness :
  pm_loading (ap_pm (@app_step (backend_of (Some login_ok)) (AClick BRecalculate)
                      (@app_start (backend_of (Some login_ok)) [("authToken", "tok")] None None))) = true.
Proof.
  apply (@app_loading_never_hidden (backend_of (Some login_ok)) [("authToken", "tok")] None None).
  - discriminate.
  - apply app_reach_step, app_reach_start.
Defined.

Lemma no_token_forms_never_saved_witness :
  pm_listening (ap_pm (@app_start (backend_of (Some login_ok)) [] (Some "a@b.co") (Some "pw"))) = false.
Proof.
  destruct (@no_token_forms_never_saved (backend_of (Some login_ok)) [] (Some "a@b.co") (Some "pw")
              (@app_start (backend_of (Some login_ok)) [] (Some "a@b.co") (Some "pw")))
    as [H _]; [reflexivity | apply app_reach_start | exact H].
Defined.

(** The BEE form with 150 typed as the ownership percentage. *)
Definition bee_typed : app_state :=
  set_pm (set_field "beeOwnershipPercentage" "150" (pm_opened [])) (app_init []).


End ProfilePage.
